(** * Sales dashboard: filtering, metrics, aggregation, trend and generation

    Shallow embedding of [src/data_processor.py] (class [DataProcessor]) and
    [src/data_generator.py] ([gerar_dados_vendas]).

    Modelling conventions.
    - A pandas [DataFrame] of sales is the list of its rows, in row order;
      every row carries all the columns the generator writes, so the guards
      ['Data' in self.df.columns] and the like are always true.
    - A timestamp (column [Data], dtype datetime64[ns]) is the integer count
      of nanoseconds since the epoch.
    - Monetary columns are float64 in the source.  In the frame, the metrics
      and the aggregate tables finite values are modelled as exact rationals
      ([Q]); what is stated about them does not depend on the rounding of
      binary floating point arithmetic, or says that it is about exact
      arithmetic.  The special results of a float64 division (infinities
      and NaN) are modelled explicitly ([f64]).
    - The growth of [tendencias] and its labels depend on that rounding; the
      method is embedded a second time on binary64 numbers (module [F64]).
    - Methods of [DataProcessor] mutate [self] and return it; here they are
      functions from processor state to processor state. *)

From Stdlib Require Import Floats.
From Stdlib Require Import String Ascii DecimalString.
From Stdlib Require Import ZArith QArith Qround List Bool Lia.
From Stdlib Require Import Permutation Sorted.
From Stdlib Require DecimalPos.
Import ListNotations.

Local Open Scope Z_scope.

(* ================================================================== *)
(** ** Data model *)

(** Nanoseconds since 1970-01-01T00:00:00. *)
Definition Timestamp := Z.

(** [pd.Timedelta(days=n)] and [pd.Timedelta(milliseconds=n)], in ns. *)
Definition Timedelta_days (n : Z) : Z := n * 86400000000000.
Definition Timedelta_milliseconds (n : Z) : Z := n * 1000000.
Definition Timedelta_seconds (n : Z) : Z := n * 1000000000.

(** One row of the sales frame; the fields are the columns written by
    [gerar_dados_vendas] ([Desconto_pct] is the column 'Desconto_%'). *)
Record Venda := mkVenda {
  ID : string;
  Data : Timestamp;
  Categoria : string;
  Produto : string;
  Região : string;
  Cidade : string;
  Valor_Unitário : Q;
  Quantidade : Z;
  Valor_Total : Q;
  Desconto_pct : Z;
  Valor_Final : Q;
  Status : string;
  Método_Pagamento : string;
  Vendedor : string;
  Cliente_ID : string;
  Mês : Z;
  Ano : Z;
  Trimestre : Z;
  Dia_Semana : string;
  Mês_Nome : string
}.

Definition DataFrame := list Venda.

(** The three status labels of the source. *)
Definition Concluida : string := "Concluída".
Definition Pendente : string := "Pendente".
Definition Cancelada : string := "Cancelada".

(* ================================================================== *)
(** ** DataProcessor: state and filters *)

Record DataProcessor := mkProc {
  df : DataFrame;
  df_original : DataFrame
}.

(** [__init__]: both attributes are copies of the argument. *)
Definition init (d : DataFrame) : DataProcessor :=
  {| df := d; df_original := d |}.

(** A bound of [filtrar_por_periodo]: a [datetime.date] (days since the
    epoch) or a [datetime] / [Timestamp].  Both are truthy in Python. *)
Inductive arg_data :=
| ArgDate (dia : Z)
| ArgDatetime (t : Timestamp).

(** [pd.to_datetime]: a date becomes midnight of that day. *)
Definition to_datetime (a : arg_data) : Timestamp :=
  match a with
  | ArgDate d => Timedelta_days d
  | ArgDatetime t => t
  end.

(** Upper bound used for [data_fim]: the bound plus one day minus 1 ms. *)
Definition fim_inclusivo (a : arg_data) : Timestamp :=
  to_datetime a + Timedelta_days 1 - Timedelta_milliseconds 1.

Definition filtrar_por_periodo
    (data_inicio data_fim : option arg_data) (p : DataProcessor)
  : DataProcessor :=
  let df1 :=
    match data_inicio with
    | Some a => filter (fun r => to_datetime a <=? Data r) (df p)
    | None => df p
    end in
  let df2 :=
    match data_fim with
    | Some b => filter (fun r => Data r <=? fim_inclusivo b) df1
    | None => df1
    end in
  {| df := df2; df_original := df_original p |}.

(** The selection argument of the status, category and region filters: a
    list of labels or a single label. *)
Inductive selecao :=
| Lista (l : list string)
| Escalar (s : string).

(** Python truthiness of the optional selection: [None], the empty list and
    the empty string are false. *)
Definition truthy (s : option selecao) : bool :=
  match s with
  | None => false
  | Some (Lista []) => false
  | Some (Lista (_ :: _)) => true
  | Some (Escalar EmptyString) => false
  | Some (Escalar (String _ _)) => true
  end.

(** [Series.isin]. *)
Definition isin (l : list string) (x : string) : bool :=
  existsb (String.eqb x) l.

(** The body shared by the three label filters, for the column [col]. *)
Definition filtrar_coluna (col : Venda -> string) (s : option selecao)
    (d : DataFrame) : DataFrame :=
  if truthy s then
    match s with
    | Some (Lista l) => filter (fun r => isin l (col r)) d
    | Some (Escalar x) => filter (fun r => String.eqb (col r) x) d
    | None => d
    end
  else d.

Definition filtrar_por_status (status : option selecao) (p : DataProcessor)
  : DataProcessor :=
  {| df := filtrar_coluna Status status (df p);
     df_original := df_original p |}.

Definition filtrar_por_categoria (categorias : option selecao)
    (p : DataProcessor) : DataProcessor :=
  {| df := filtrar_coluna Categoria categorias (df p);
     df_original := df_original p |}.

Definition filtrar_por_regiao (regioes : option selecao) (p : DataProcessor)
  : DataProcessor :=
  {| df := filtrar_coluna Região regioes (df p);
     df_original := df_original p |}.

Definition reset_filtros (p : DataProcessor) : DataProcessor :=
  {| df := df_original p; df_original := df_original p |}.

Definition get_dataframe (p : DataProcessor) : DataFrame := df p.

(** A call of one of the state-changing filter methods. *)
Inductive operacao :=
| OpPeriodo (data_inicio data_fim : option arg_data)
| OpStatus (s : option selecao)
| OpCategoria (s : option selecao)
| OpRegiao (s : option selecao)
| OpReset.

Definition executar (p : DataProcessor) (o : operacao) : DataProcessor :=
  match o with
  | OpPeriodo i f => filtrar_por_periodo i f p
  | OpStatus s => filtrar_por_status s p
  | OpCategoria s => filtrar_por_categoria s p
  | OpRegiao s => filtrar_por_regiao s p
  | OpReset => reset_filtros p
  end.

(** A chain of method calls, applied left to right. *)
Definition executar_todas (ops : list operacao) (p : DataProcessor)
  : DataProcessor :=
  fold_left executar ops p.

(** [l1] is [l2] with some elements removed, order kept. *)
Inductive subsequencia {A : Type} : list A -> list A -> Prop :=
| sub_nil : subsequencia [] []
| sub_skip : forall x l1 l2, subsequencia l1 l2 -> subsequencia l1 (x :: l2)
| sub_keep : forall x l1 l2,
    subsequencia l1 l2 -> subsequencia (x :: l1) (x :: l2).

(* ================================================================== *)
(** ** Numeric helpers (pandas / numpy reductions) *)

Definition Qlt_bool (a b : Q) : bool := negb (Qle_bool b a).

(** Round to the nearest integer, ties to even (numpy [rint]). *)
Definition rint (q : Q) : Z :=
  let f := Qfloor q in
  let r := (q - inject_Z f)%Q in
  if Qlt_bool r (1 # 2) then f
  else if Qlt_bool (1 # 2) r then f + 1
  else if Z.even f then f else f + 1.

(** [round(x, 2)] / [DataFrame.round(2)] on a finite value. *)
Definition round2 (q : Q) : Q := (inject_Z (rint (q * 100)) / 100)%Q.

(** [Series.sum] of a float column and of an integer column. *)
Definition soma (l : list Q) : Q := fold_right Qplus 0%Q l.
Definition soma_int (l : list Z) : Z := fold_right Z.add 0 l.

Definition len {A : Type} (l : list A) : Z := Z.of_nat (length l).

(** [Series.mean] of a non-empty column. *)
Definition media (l : list Q) : Q := (soma l / inject_Z (len l))%Q.

(** Ascending insertion sort under a boolean order. *)
Fixpoint inserir {A : Type} (leb : A -> A -> bool) (x : A) (l : list A)
  : list A :=
  match l with
  | [] => [x]
  | y :: l' => if leb x y then x :: l else y :: inserir leb x l'
  end.

Fixpoint ordenar {A : Type} (leb : A -> A -> bool) (l : list A) : list A :=
  match l with
  | [] => []
  | x :: l' => inserir leb x (ordenar leb l')
  end.

(** [Series.median]: the middle value of the sorted column, or the mean of
    the two middle values. *)
Definition mediana (l : list Q) : Q :=
  let s := ordenar Qle_bool l in
  let n := length s in
  if Nat.even n
  then ((nth (n / 2 - 1) s 0 + nth (n / 2) s 0) / 2)%Q
  else nth (n / 2) s 0%Q.

Definition Qmax (a b : Q) : Q := if Qle_bool a b then b else a.
Definition Qmin (a b : Q) : Q := if Qle_bool a b then a else b.

(** [Series.max] and [Series.min] of a non-empty column. *)
Definition maximo (l : list Q) : Q :=
  match l with
  | [] => 0%Q
  | x :: l' => fold_left Qmax l' x
  end.

Definition minimo (l : list Q) : Q :=
  match l with
  | [] => 0%Q
  | x :: l' => fold_left Qmin l' x
  end.

(** Distinct values of a column, in order of first appearance
    ([Series.unique]). *)
Fixpoint unique {A : Type} (eqb : A -> A -> bool) (l : list A) : list A :=
  match l with
  | [] => []
  | x :: l' => x :: filter (fun y => negb (eqb y x)) (unique eqb l')
  end.

(* ================================================================== *)
(** ** calcular_metricas_vendas *)

Record Metricas := mkMetricas {
  total_vendas : Z;
  receita_total : Q;
  ticket_medio : Q;
  ticket_mediano : Q;
  total_produtos : Z;
  vendas_canceladas : Z;
  vendas_pendentes : Z;
  receita_maxima : Q;
  receita_minima : Q;
  desconto_medio : Q
}.

(** [self.df[self.df['Status'] == s]]. *)
Definition com_status (s : string) (d : DataFrame) : DataFrame :=
  filter (fun r => String.eqb (Status r) s) d.

Definition calcular_metricas_vendas (p : DataProcessor) : Metricas :=
  let df_vendas := com_status Concluida (df p) in
  if len df_vendas =? 0 then
    {| total_vendas := 0;
       receita_total := 0;
       ticket_medio := 0;
       total_produtos := 0;
       vendas_canceladas := 0;
       vendas_pendentes := 0;
       ticket_mediano := 0;
       receita_maxima := 0;
       receita_minima := 0;
       desconto_medio := 0 |}
  else
    {| total_vendas := len df_vendas;
       receita_total := soma (map Valor_Final df_vendas);
       ticket_medio := media (map Valor_Final df_vendas);
       ticket_mediano := mediana (map Valor_Final df_vendas);
       total_produtos := soma_int (map Quantidade df_vendas);
       vendas_canceladas := len (com_status Cancelada (df p));
       vendas_pendentes := len (com_status Pendente (df p));
       receita_maxima := maximo (map Valor_Final df_vendas);
       receita_minima := minimo (map Valor_Final df_vendas);
       desconto_medio :=
         media (map (fun r => inject_Z (Desconto_pct r)) df_vendas) |}.

(* ================================================================== *)
(** ** analise_por_categoria *)

(** One row of the table: the group key (the index) and the five renamed
    columns. *)
Record LinhaCategoria := mkLinhaCategoria {
  chave : string;
  Receita_Total : Q;
  Ticket_Medio : Q;
  Num_Vendas : Z;
  Total_Produtos : Z;
  Desconto_Medio : Q
}.

(** [groupby(col)]: the distinct keys in ascending order, each with the
    rows of its group in frame order. *)
Definition groupby (col : Venda -> string) (d : DataFrame)
  : list (string * DataFrame) :=
  map (fun k => (k, filter (fun r => String.eqb (col r) k) d))
      (ordenar String.leb (unique String.eqb (map col d))).

(** The [agg] of one group followed by [round(2)]; the count and the
    integer sum are integer columns, which [round] leaves alone. *)
Definition agregar_categoria (g : string * DataFrame) : LinhaCategoria :=
  let (k, rows) := g in
  {| chave := k;
     Receita_Total := round2 (soma (map Valor_Final rows));
     Ticket_Medio := round2 (media (map Valor_Final rows));
     Num_Vendas := len rows;
     Total_Produtos := soma_int (map Quantidade rows);
     Desconto_Medio :=
       round2 (media (map (fun r => inject_Z (Desconto_pct r)) rows)) |}.

(** [sort_values('Receita_Total', ascending=False)].  pandas does not fix
    the order of rows with equal revenue; an insertion sort is used here. *)
Definition sort_values_desc (t : list LinhaCategoria) : list LinhaCategoria :=
  ordenar (fun a b => Qle_bool (Receita_Total b) (Receita_Total a)) t.

(** The empty frame returned for a view without completed sales is the
    empty table. *)
Definition analise_por_categoria (p : DataProcessor) : list LinhaCategoria :=
  let df_vendas := com_status Concluida (df p) in
  if len df_vendas =? 0 then []
  else sort_values_desc (map agregar_categoria (groupby Categoria df_vendas)).

(** Sum of the revenue column over all rows of the table. *)
Definition soma_receita (t : list LinhaCategoria) : Q :=
  soma (map Receita_Total t).

(* ================================================================== *)
(** ** Calendar fields of a timestamp *)

(** Whole days since the epoch (floor). *)
Definition dias_desde_epoca (t : Timestamp) : Z := t / Timedelta_days 1.

(** Proleptic Gregorian (year, month, day) of a day count. *)
Definition civil_de_dias (dias : Z) : Z * Z * Z :=
  let z := dias + 719468 in
  let era := z / 146097 in
  let doe := z - era * 146097 in
  let yoe := (doe - doe / 1460 + doe / 36524 - doe / 146096) / 365 in
  let y := yoe + era * 400 in
  let doy := doe - (365 * yoe + yoe / 4 - yoe / 100) in
  let mp := (5 * doy + 2) / 153 in
  let d := doy - (153 * mp + 2) / 5 + 1 in
  let m := if mp <? 10 then mp + 3 else mp - 9 in
  (if m <=? 2 then y + 1 else y, m, d).

Definition ano_de (t : Timestamp) : Z :=
  let '(y, _, _) := civil_de_dias (dias_desde_epoca t) in y.

Definition mes_de (t : Timestamp) : Z :=
  let '(_, m, _) := civil_de_dias (dias_desde_epoca t) in m.

(** [dt.to_period('M')]: the ordinal of the month, months since 1970-01. *)
Definition periodo_mensal (t : Timestamp) : Z :=
  (ano_de t - 1970) * 12 + (mes_de t - 1).

(** [dt.quarter]. *)
Definition trimestre_de (t : Timestamp) : Z := (mes_de t - 1) / 3 + 1.

(** [dt.day_name()]; 1970-01-01 was a Thursday. *)
Definition day_name (t : Timestamp) : string :=
  nth (Z.to_nat ((dias_desde_epoca t + 3) mod 7))
      ["Monday"; "Tuesday"; "Wednesday"; "Thursday"; "Friday"; "Saturday";
       "Sunday"]%string ""%string.

(** [dt.strftime('%B')] in the C locale. *)
Definition month_name (t : Timestamp) : string :=
  nth (Z.to_nat (mes_de t - 1))
      ["January"; "February"; "March"; "April"; "May"; "June"; "July";
       "August"; "September"; "October"; "November"; "December"]%string
      ""%string.

(* ================================================================== *)
(** ** tendencias *)

(** A float64 result: a finite value, an infinity or NaN. *)
Inductive f64 :=
| Fin (q : Q)
| PInf
| NInf
| NaN.

(** float64 division of finite values; a zero divisor gives an infinity of
    the sign of the dividend, or NaN for 0/0 (numpy warns, it does not
    raise).  The sums that reach this point are never negative zero. *)
Definition f64_div (a b : Q) : f64 :=
  if Qeq_bool b 0 then
    if Qeq_bool a 0 then NaN
    else if Qlt_bool 0 a then PInf else NInf
  else Fin (a / b).

(** Multiplication by a positive finite constant. *)
Definition f64_mul_pos (x : f64) (c : Q) : f64 :=
  match x with
  | Fin q => Fin (q * c)
  | PInf => PInf
  | NInf => NInf
  | NaN => NaN
  end.

(** [x > c] for a finite [c]; every comparison with NaN is false. *)
Definition f64_gt (x : f64) (c : Q) : bool :=
  match x with
  | Fin q => Qlt_bool c q
  | PInf => true
  | NInf => false
  | NaN => false
  end.

(** [round(x, 2)]: infinities and NaN are returned unchanged. *)
Definition f64_round2 (x : f64) : f64 :=
  match x with
  | Fin q => Fin (round2 q)
  | other => other
  end.

(** The dictionary returned by [tendencias]; the two month totals are
    absent from the 'Insuficiente' dictionary. *)
Record Tendencias := mkTendencias {
  crescimento_mensal : f64;
  tendencia : string;
  ultimo_mes : option Q;
  penultimo_mes : option Q
}.

(** [groupby('Mês')['Valor_Final'].sum().sort_index()]: one total per month
    present, months ascending. *)
Definition soma_mensal (d : DataFrame) : list (Z * Q) :=
  map (fun m =>
         (m, soma (map Valor_Final
                    (filter (fun r => periodo_mensal (Data r) =? m) d))))
      (ordenar Z.leb (unique Z.eqb (map (fun r => periodo_mensal (Data r)) d))).

(** [s.iloc[i]] for a negative or non-negative position inside the series. *)
Definition iloc (s : list (Z * Q)) (i : Z) : Q :=
  snd (nth (Z.to_nat (if i <? 0 then len s + i else i)) s (0, 0%Q)).

(** The if/elif chain on the unrounded growth. *)
Definition classificar (crescimento : f64) : string :=
  if f64_gt crescimento 5 then "Crescimento Forte"
  else if f64_gt crescimento 0 then "Crescimento Moderado"
  else if f64_gt crescimento (-5) then "Estável"
  else "Declínio".

(** [None] is the empty dictionary. *)
Definition tendencias (p : DataProcessor) : option Tendencias :=
  let df_vendas := com_status Concluida (df p) in
  if len df_vendas =? 0 then None
  else
    let df_mensal := soma_mensal df_vendas in
    if len df_mensal <? 2 then
      Some {| crescimento_mensal := Fin 0;
              tendencia := "Insuficiente";
              ultimo_mes := None;
              penultimo_mes := None |}
    else
      let crescimento :=
        if 2 <=? len df_mensal then
          f64_mul_pos
            (f64_div (iloc df_mensal (-1) - iloc df_mensal (-2))
                     (iloc df_mensal (-2)))
            100
        else Fin 0 in
      Some {| crescimento_mensal := f64_round2 crescimento;
              tendencia := classificar crescimento;
              ultimo_mes := Some (iloc df_mensal (-1));
              penultimo_mes :=
                Some (if 2 <=? len df_mensal then iloc df_mensal (-2)
                      else 0%Q) |}.

(* ================================================================== *)
(** ** tendencias in binary64 arithmetic *)

(** [tendencias] works on numpy float64 scalars: the monthly totals are
    float64 sums, and the growth, its comparisons with 5, 0 and -5 and its
    rounding are binary64 operations, each rounded to nearest.  The module
    embeds the method once more on the binary64 numbers of the kernel, so
    that every operation is rounded as in the code.  The sum of a float64
    column is computed inside pandas; it is the parameter [Series_sum], and
    what is proved about [F64.tendencias] holds for every summation. *)
Module F64.

(** The float64 number of an integer below 2^63 in absolute value. *)
Definition de_Z (z : Z) : float :=
  if z <? 0 then (- of_uint63 (Uint63.of_Z (- z)))%float
  else of_uint63 (Uint63.of_Z z).

(** The float64 number a decimal amount is stored as: the quotient of
    numerator and denominator, both exact below 2^53, rounded to nearest. *)
Definition de_Q (q : Q) : float :=
  (de_Z (Qnum q) / de_Z (Zpos (Qden q)))%float.

(** C [rint]: the nearest integer, ties to even, with the sign of the
    argument.  Below 2^52 adding and subtracting 2^52 rounds to an integer;
    from 2^52 on every float64 number is an integer.  Infinities and NaN
    are returned unchanged. *)
Definition dois_52 : float := 4503599627370496%float.

Definition rint (x : float) : float :=
  let r := if (abs x <? dois_52)%float
           then if (0 <=? x)%float then ((x + dois_52) - dois_52)%float
                else ((x - dois_52) + dois_52)%float
           else x in
  if get_sign x then (- abs r)%float else abs r.

(** [round(x, 2)] on a numpy float64: numpy scales by 100, applies [rint]
    and divides by 100. *)
Definition round2 (x : float) : float := (rint (x * 100) / 100)%float.

(** The dictionary returned by [tendencias]. *)
Record Tendencias := mkTendencias {
  crescimento_mensal : float;
  tendencia : string;
  ultimo_mes : option float;
  penultimo_mes : option float
}.

(** The if/elif chain on the unrounded growth; a comparison with NaN is
    false. *)
Definition classificar (crescimento : float) : string :=
  if (5 <? crescimento)%float then "Crescimento Forte"
  else if (0 <? crescimento)%float then "Crescimento Moderado"
  else if (-5 <? crescimento)%float then "Estável"
  else "Declínio".

(** [s.iloc[i]] for a negative or non-negative position inside the series. *)
Definition iloc (s : list (Z * float)) (i : Z) : float :=
  snd (nth (Z.to_nat (if i <? 0 then len s + i else i)) s (0, 0%float)).

Section Soma.
Variable Series_sum : list float -> float.

(** [groupby('Mês')['Valor_Final'].sum().sort_index()]: one float64 total
    per month present, months ascending; the values of a month are summed in
    row order. *)
Definition soma_mensal (d : DataFrame) : list (Z * float) :=
  map (fun m =>
         (m, Series_sum
               (map (fun r => de_Q (Valor_Final r))
                    (filter (fun r => periodo_mensal (Data r) =? m) d))))
      (ordenar Z.leb (unique Z.eqb (map (fun r => periodo_mensal (Data r)) d))).

(** [None] is the empty dictionary. *)
Definition tendencias (p : DataProcessor) : option Tendencias :=
  let df_vendas := com_status Concluida (df p) in
  if len df_vendas =? 0 then None
  else
    let df_mensal := soma_mensal df_vendas in
    if len df_mensal <? 2 then
      Some {| crescimento_mensal := 0%float;
              tendencia := "Insuficiente";
              ultimo_mes := None;
              penultimo_mes := None |}
    else
      let crescimento :=
        if 2 <=? len df_mensal then
          ((iloc df_mensal (-1) - iloc df_mensal (-2))
             / iloc df_mensal (-2) * 100)%float
        else 0%float in
      Some {| crescimento_mensal := round2 crescimento;
              tendencia := classificar crescimento;
              ultimo_mes := Some (iloc df_mensal (-1));
              penultimo_mes :=
                Some (if 2 <=? len df_mensal then iloc df_mensal (-2)
                      else 0%float) |}.
End Soma.

(** A summation to run the model with: left to right from 0.0. *)
Definition soma_sequencial (l : list float) : float :=
  fold_left PrimFloat.add l 0%float.

End F64.

(* ================================================================== *)
(** ** gerar_dados_vendas *)

(** Exceptions the generator can end with. *)
Inductive excecao :=
| ValueError
| IndexError
| KeyError
| OutOfBoundsDatetime.

Inductive resultado (A : Type) :=
| Ok (a : A)
| Erro (e : excecao).
Arguments Ok {A} a.
Arguments Erro {A} e.

(** The generator of the [random] module, as far as [random.sample] uses
    it: seeding, and [_randbelow(n)], which returns an index below [n]. *)
Class PyRandom (S : Type) := {
  py_seed : Z -> S;
  py_randbelow : S -> nat -> nat * S
}.

(** The legacy global generator of [numpy.random].  [np_choice s n] is the
    index drawn by [choice] among [n] items, [np_choice_p] the index drawn
    under the weights [p]. *)
Class NpRandom (S : Type) := {
  np_seed : Z -> S;
  np_choice : S -> nat -> nat * S;
  np_choice_p : S -> list Q -> nat * S;
  np_uniform : S -> Q -> Q -> Q * S;
  np_randint : S -> Z -> Z -> Z * S
}.

(** What the function reads from its environment: the clock and the two
    global generators. *)
Record Mundo (SPy SNp : Type) := mkMundo {
  relogio : Timestamp;
  estado_py : SPy;
  estado_np : SNp
}.
Arguments relogio {SPy SNp} m.
Arguments estado_py {SPy SNp} m.
Arguments estado_np {SPy SNp} m.

(** [range(n)]. *)
Definition range (n : Z) : list Z := map Z.of_nat (seq 0 (Z.to_nat n)).

(** [l[j] = y] on a list. *)
Fixpoint list_set {A : Type} (j : nat) (y : A) (l : list A) : list A :=
  match l, j with
  | [], _ => []
  | _ :: l', O => y :: l'
  | x :: l', S j' => x :: list_set j' y l'
  end.

(** The selection loop of [random.sample] over a copy of the population:
    [for i in range(k): j = randbelow(n-i); result[i] = pool[j];
    pool[j] = pool[n-i-1]], for the positions [idx]. *)
Fixpoint sample_loop {S : Type} `{PyRandom S} {A : Type}
    (n : nat) (idx : list nat) (pool : list A) (st : S)
  : resultado (list A * S) :=
  match idx with
  | [] => Ok ([], st)
  | i :: idx' =>
      let (j, st1) := py_randbelow st (n - i) in
      match nth_error pool j, nth_error pool (n - i - 1) with
      | Some x, Some y =>
          match sample_loop n idx' (list_set j y pool) st1 with
          | Ok (res, st2) => Ok (x :: res, st2)
          | Erro e => Erro e
          end
      | _, _ => Erro IndexError
      end
  end.

(** [random.sample(population, k)].  CPython selects from a pool when
    [n <= setsize], where [setsize] is 21, plus [4 ** ceil(log(3k, 4))]
    (at least [3k]) when [k > 5]; the generator always asks for
    [k = len(population)], so this is the branch taken. *)
Definition random_sample {S : Type} `{PyRandom S} {A : Type}
    (population : list A) (k : Z) (st : S) : resultado (list A * S) :=
  let n := len population in
  if negb ((0 <=? k) && (k <=? n)) then Erro ValueError
  else sample_loop (length population) (seq 0 (Z.to_nat k)) population st.

(** [sorted] on timestamps. *)
Definition sorted (l : list Timestamp) : list Timestamp := ordenar Z.leb l.

(** Computations that draw from the numpy generator and may raise. *)
Definition Rand (S A : Type) : Type := S -> resultado (A * S).

Definition ret {S A : Type} (a : A) : Rand S A := fun s => Ok (a, s).

Definition bind {S A B : Type} (c : Rand S A) (k : A -> Rand S B)
  : Rand S B :=
  fun s => match c s with
           | Ok (a, s') => k a s'
           | Erro e => Erro e
           end.

Definition raise {S A : Type} (e : excecao) : Rand S A := fun _ => Erro e.

Definition lift {S A : Type} (f : S -> A * S) : Rand S A :=
  fun s => Ok (f s).

Notation "x <- c ;; k" := (bind c (fun x => k))
  (at level 61, c at next level, right associativity).

Fixpoint mapM {S A B : Type} (f : A -> Rand S B) (l : list A)
  : Rand S (list B) :=
  match l with
  | [] => ret []
  | a :: l' => b <- f a ;; bs <- mapM f l' ;; ret (b :: bs)
  end.

(** [np.random.choice(l)] and [np.random.choice(l, p=p)].  numpy draws an
    index inside the list; it rejects an empty list, and weights that do
    not match the list, with [ValueError]. *)
Definition choice {S : Type} `{NpRandom S} {A : Type} (l : list A)
  : Rand S A :=
  i <- lift (fun s => np_choice s (length l)) ;;
  match nth_error l i with
  | Some x => ret x
  | None => raise ValueError
  end.

Definition choice_p {S : Type} `{NpRandom S} {A : Type} (l : list A)
    (p : list Q) : Rand S A :=
  i <- lift (fun s => np_choice_p s p) ;;
  match nth_error l i with
  | Some x => ret x
  | None => raise ValueError
  end.

Definition categorias : list string :=
  ["Eletrônicos"; "Roupas"; "Casa e Jardim"; "Esportes"; "Livros";
   "Brinquedos"; "Alimentos"; "Beleza"]%string.

Definition regioes : list string :=
  ["Norte"; "Nordeste"; "Centro-Oeste"; "Sudeste"; "Sul"]%string.

(** The dictionary [cidades]; a missing key is the empty list. *)
Definition cidades (regiao : string) : list string :=
  (if String.eqb regiao "Norte" then ["Manaus"; "Belém"; "Porto Velho"]
   else if String.eqb regiao "Nordeste"
        then ["Salvador"; "Recife"; "Fortaleza"; "Natal"]
   else if String.eqb regiao "Centro-Oeste"
        then ["Brasília"; "Goiânia"; "Campo Grande"]
   else if String.eqb regiao "Sudeste"
        then ["São Paulo"; "Rio de Janeiro"; "Belo Horizonte"; "Vitória"]
   else if String.eqb regiao "Sul"
        then ["Curitiba"; "Porto Alegre"; "Florianópolis"]
   else [])%string.

(** The dictionary [precos_base]. *)
Definition precos_base (categoria : string) : Q * Q :=
  (if String.eqb categoria "Eletrônicos" then (500, 5000)
   else if String.eqb categoria "Roupas" then (50, 500)
   else if String.eqb categoria "Casa e Jardim" then (30, 800)
   else if String.eqb categoria "Esportes" then (100, 1500)
   else if String.eqb categoria "Livros" then (20, 150)
   else if String.eqb categoria "Brinquedos" then (25, 400)
   else if String.eqb categoria "Alimentos" then (10, 200)
   else if String.eqb categoria "Beleza" then (15, 300)
   else (0, 0))%Q%string.

(** Decimal text of an integer, and the [05d] format. *)
Definition str_int (z : Z) : string :=
  DecimalString.NilZero.string_of_int (Z.to_int z).

Definition fmt_05d (z : Z) : string :=
  let s := str_int z in
  (string_of_list_ascii
     (repeat "0"%char (5 - String.length s)) ++ s)%string.

(** One dictionary appended to [dados]. *)
Record Registro := mkRegistro {
  r_ID : string;
  r_Data : Timestamp;
  r_Categoria : string;
  r_Produto : string;
  r_Região : string;
  r_Cidade : string;
  r_Valor_Unitário : Q;
  r_Quantidade : Z;
  r_Valor_Total : Q;
  r_Desconto_pct : Z;
  r_Valor_Final : Q;
  r_Status : string;
  r_Método_Pagamento : string;
  r_Vendedor : string;
  r_Cliente_ID : string
}.

(** The body of the loop [for i in range(n_registros)]. *)
Definition gerar_registro {S : Type} `{NpRandom S}
    (datas : list Timestamp) (i : Z) : Rand S Registro :=
  categoria <- choice categorias ;;
  regiao <- choice regioes ;;
  cidade <- choice (cidades regiao) ;;
  let '(preco_min, preco_max) := precos_base categoria in
  u <- lift (fun s => np_uniform s preco_min preco_max) ;;
  let valor := round2 u in
  quantidade <- lift (fun s => np_randint s 1 10) ;;
  let total := round2 (valor * inject_Z quantidade) in
  desconto <- choice_p [0; 5; 10; 15; 20; 25; 30]
                [3 # 10; 2 # 10; 15 # 100; 15 # 100; 1 # 10; 5 # 100;
                 5 # 100]%Q ;;
  let valor_final := round2 (total * (1 - inject_Z desconto / 100)) in
  status <- choice_p [Concluida; Pendente; Cancelada]
              [85 # 100; 1 # 10; 5 # 100]%Q ;;
  metodo_pagamento <-
    choice_p ["Cartão Crédito"; "Cartão Débito"; "PIX"; "Boleto"]%string
      [4 # 10; 2 # 10; 3 # 10; 1 # 10]%Q ;;
  match nth_error datas (Z.to_nat i) with
  | None => raise IndexError
  | Some data =>
      vendedor <- lift (fun s => np_randint s 1 21) ;;
      cliente <- lift (fun s => np_randint s 1000 9999) ;;
      ret {| r_ID := "V" ++ fmt_05d (i + 1);
             r_Data := data;
             r_Categoria := categoria;
             r_Produto := "Produto " ++ categoria ++ " " ++ str_int (i + 1);
             r_Região := regiao;
             r_Cidade := cidade;
             r_Valor_Unitário := valor;
             r_Quantidade := quantidade;
             r_Valor_Total := total;
             r_Desconto_pct := desconto;
             r_Valor_Final := valor_final;
             r_Status := status;
             r_Método_Pagamento := metodo_pagamento;
             r_Vendedor := "Vendedor " ++ str_int vendedor;
             r_Cliente_ID := "C" ++ str_int cliente |}%string
  end.

(** The row of the frame for one dictionary, with the five derived
    columns. *)
Definition linha (r : Registro) : Venda :=
  {| ID := r_ID r;
     Data := r_Data r;
     Categoria := r_Categoria r;
     Produto := r_Produto r;
     Região := r_Região r;
     Cidade := r_Cidade r;
     Valor_Unitário := r_Valor_Unitário r;
     Quantidade := r_Quantidade r;
     Valor_Total := r_Valor_Total r;
     Desconto_pct := r_Desconto_pct r;
     Valor_Final := r_Valor_Final r;
     Status := r_Status r;
     Método_Pagamento := r_Método_Pagamento r;
     Vendedor := r_Vendedor r;
     Cliente_ID := r_Cliente_ID r;
     Mês := periodo_mensal (r_Data r);
     Ano := ano_de (r_Data r);
     Trimestre := trimestre_de (r_Data r);
     Dia_Semana := day_name (r_Data r);
     Mês_Nome := month_name (r_Data r) |}.

(** Range of datetime64[ns]. *)
Definition Timestamp_min : Z := - (2 ^ 63) + 1.
Definition Timestamp_max : Z := 2 ^ 63 - 1.

Definition no_intervalo (t : Timestamp) : bool :=
  (Timestamp_min <=? t) && (t <=? Timestamp_max).

(** [pd.DataFrame(dados)] followed by the derived columns.  The frame of
    an empty list has no columns, so [df['Data']] raises [KeyError].  Dates
    that do not fit datetime64[ns] have no [.dt] accessors in the source;
    how that fails depends on the pandas release, and it is an error
    here. *)
Definition construir_frame (dados : list Registro) : resultado DataFrame :=
  match dados with
  | [] => Erro KeyError
  | _ :: _ =>
      if forallb (fun r => no_intervalo (r_Data r)) dados
      then Ok (map linha dados)
      else Erro OutOfBoundsDatetime
  end.

(** [gerar_dados_vendas(n_registros, seed)].  Both global generators are
    re-seeded on entry, the clock is read once ([datetime.now()]).
    [np.random.seed] rejects seeds outside [0, 2**32 - 1]. *)
Definition gerar_dados_vendas {SPy SNp : Type} `{PyRandom SPy} `{NpRandom SNp}
    (w : Mundo SPy SNp) (n_registros seed : Z) : resultado DataFrame :=
  if negb ((0 <=? seed) && (seed <=? 2 ^ 32 - 1)) then Erro ValueError
  else
    let w1 := {| relogio := relogio w;
                 estado_py := py_seed seed;
                 estado_np := np_seed seed |} in
    let data_inicio := relogio w1 - Timedelta_days 365 in
    let datas :=
      map (fun x => data_inicio + Timedelta_days x) (range n_registros) in
    match random_sample datas n_registros (estado_py w1) with
    | Erro e => Erro e
    | Ok (amostra, _) =>
        let datas := sorted amostra in
        match mapM (gerar_registro datas) (range n_registros)
                   (estado_np w1) with
        | Erro e => Erro e
        | Ok (dados, _) => construir_frame dados
        end
    end.

(** The frame without the date and the columns derived from it. *)
Definition sem_data (r : Venda) : Venda :=
  {| ID := ID r; Data := 0; Categoria := Categoria r; Produto := Produto r;
     Região := Região r; Cidade := Cidade r;
     Valor_Unitário := Valor_Unitário r; Quantidade := Quantidade r;
     Valor_Total := Valor_Total r; Desconto_pct := Desconto_pct r;
     Valor_Final := Valor_Final r; Status := Status r;
     Método_Pagamento := Método_Pagamento r; Vendedor := Vendedor r;
     Cliente_ID := Cliente_ID r; Mês := 0; Ano := 0; Trimestre := 0;
     Dia_Semana := ""; Mês_Nome := "" |}.

(** Contract of [_randbelow]: the index is below the bound. *)
Definition randbelow_ok (S : Type) `{PyRandom S} : Prop :=
  forall (s : S) (n : nat), (0 < n)%nat -> (fst (py_randbelow s n) < n)%nat.

(** Contract of [choice]: the index is inside the list. *)
Definition choice_ok (S : Type) `{NpRandom S} : Prop :=
  (forall (s : S) (n : nat), (0 < n)%nat -> (fst (np_choice s n) < n)%nat) /\
  (forall (s : S) (p : list Q),
      (0 < length p)%nat -> (fst (np_choice_p s p) < length p)%nat).

(* ------------------------------------------------------------------ *)
(** *** A small concrete generator, used to run the model *)

Definition lcg (s : Z) : Z := (s * 1103515245 + 12345) mod 2147483648.

#[export] Instance PyLcg : PyRandom Z := {|
  py_seed := fun seed => seed;
  py_randbelow := fun s n => (Z.to_nat (s mod Z.of_nat n), lcg s)
|}.

#[export] Instance NpLcg : NpRandom Z := {|
  np_seed := fun seed => seed;
  np_choice := fun s n => (Z.to_nat (s mod Z.of_nat n), lcg s);
  np_choice_p := fun s p => (Z.to_nat (s mod len p), lcg s);
  np_uniform := fun s lo hi =>
    ((lo + (hi - lo) * (s mod 1000 # 1000))%Q, lcg s);
  np_randint := fun s lo hi => (lo + s mod (hi - lo), lcg s)
|}.

(** 2024-06-15T12:00:00 and a world around it. *)
Definition agora_teste : Timestamp :=
  Timedelta_days 19889 + Timedelta_seconds 43200.

Definition mundo_teste (t : Timestamp) (s : Z) : Mundo Z Z :=
  {| relogio := t; estado_py := s; estado_np := s |}.

(* ================================================================== *)
(** ** Rows and frames used in the examples *)

(** A row with the given date, category, status and net total. *)
Definition venda_teste (data : Timestamp) (categoria status : string)
    (valor_final : Q) : Venda :=
  {| ID := "V00001"; Data := data; Categoria := categoria;
     Produto := "Produto"; Região := "Sul"; Cidade := "Curitiba";
     Valor_Unitário := valor_final; Quantidade := 1;
     Valor_Total := valor_final; Desconto_pct := 0;
     Valor_Final := valor_final; Status := status;
     Método_Pagamento := "PIX"; Vendedor := "Vendedor 1";
     Cliente_ID := "C1000"; Mês := periodo_mensal data; Ano := ano_de data;
     Trimestre := trimestre_de data; Dia_Semana := day_name data;
     Mês_Nome := month_name data |}.

(** The row [r] with its timestamp replaced. *)
Definition com_data (t : Timestamp) (r : Venda) : Venda :=
  {| ID := ID r; Data := t; Categoria := Categoria r; Produto := Produto r;
     Região := Região r; Cidade := Cidade r;
     Valor_Unitário := Valor_Unitário r; Quantidade := Quantidade r;
     Valor_Total := Valor_Total r; Desconto_pct := Desconto_pct r;
     Valor_Final := Valor_Final r; Status := Status r;
     Método_Pagamento := Método_Pagamento r; Vendedor := Vendedor r;
     Cliente_ID := Cliente_ID r; Mês := Mês r; Ano := Ano r;
     Trimestre := Trimestre r; Dia_Semana := Dia_Semana r;
     Mês_Nome := Mês_Nome r |}.

(** Midnight of 2024-01-15, 2024-02-15 and 2024-03-15. *)
Definition jan15 : Timestamp := Timedelta_days 19737.
Definition fev15 : Timestamp := Timedelta_days 19768.
Definition mar15 : Timestamp := Timedelta_days 19797.

(** A view without completed sales: one cancelled and one pending. *)
Definition frame_sem_concluidas : DataFrame :=
  [venda_teste jan15 "Livros" Cancelada 100;
   venda_teste fev15 "Roupas" Pendente 50].

(** A view with one sale of each status. *)
Definition frame_misto : DataFrame :=
  [venda_teste jan15 "Livros" Concluida 100;
   venda_teste jan15 "Livros" Cancelada 30;
   venda_teste fev15 "Roupas" Pendente 50;
   venda_teste mar15 "Beleza" Concluida (1999 # 100)].

(** One completed sale whose net total has three decimals (0.004). *)
Definition frame_milesimos : DataFrame :=
  [venda_teste jan15 "Livros" Concluida (4 # 1000)].

(** Monthly completed revenue 1000, 1200, 1100. *)
Definition frame_serie : DataFrame :=
  [venda_teste jan15 "Livros" Concluida 1000;
   venda_teste fev15 "Livros" Concluida 700;
   venda_teste fev15 "Roupas" Concluida 500;
   venda_teste mar15 "Livros" Concluida 1100].

(** Monthly completed revenue 100000, 105004: growth 5.004 percent. *)
Definition frame_limiar : DataFrame :=
  [venda_teste jan15 "Livros" Concluida 100000;
   venda_teste fev15 "Livros" Concluida 105004].


(** Monthly completed revenue 0, 0. *)
Definition frame_meses_zero : DataFrame :=
  [venda_teste jan15 "Livros" Concluida 0;
   venda_teste fev15 "Livros" Concluida 0].

(** Monthly completed revenue 1.00, 1.05: growth 5 percent. *)
Definition frame_cinco_por_cento : DataFrame :=
  [venda_teste jan15 "Livros" Concluida 1;
   venda_teste fev15 "Livros" Concluida (105 # 100)].

(** Monthly completed revenue 8.00, 8.03: growth 0.375 percent. *)
Definition frame_meio_centesimo : DataFrame :=
  [venda_teste jan15 "Livros" Concluida 8;
   venda_teste fev15 "Livros" Concluida (803 # 100)].

(** Equality of float64 results: finite values compared as rationals. *)
Definition f64_eq (x y : f64) : Prop :=
  match x, y with
  | Fin a, Fin b => (a == b)%Q
  | PInf, PInf => True
  | NInf, NInf => True
  | NaN, NaN => True
  | _, _ => False
  end.

(** A value with at most two decimals: a whole number of hundredths. *)
Definition centesimo (q : Q) : Prop :=
  exists c : Z, (q == inject_Z c / 100)%Q.

(* ================================================================== *)
(** ** The filter chain of the application *)

(** The row test a filter call applies; [OpReset] is not a filter. *)
Definition teste_coluna (col : Venda -> string) (s : option selecao)
    (r : Venda) : bool :=
  if truthy s then
    match s with
    | Some (Lista l) => isin l (col r)
    | Some (Escalar x) => String.eqb (col r) x
    | None => true
    end
  else true.

Definition teste (o : operacao) (r : Venda) : bool :=
  match o with
  | OpPeriodo i f =>
      match i with
      | Some a => to_datetime a <=? Data r
      | None => true
      end &&
      match f with
      | Some b => Data r <=? fim_inclusivo b
      | None => true
      end
  | OpStatus s => teste_coluna Status s r
  | OpCategoria s => teste_coluna Categoria s r
  | OpRegiao s => teste_coluna Região s r
  | OpReset => true
  end.

Definition e_filtro (o : operacao) : bool :=
  match o with
  | OpReset => false
  | _ => true
  end.

(** [Series.min] and [Series.max] of the date column of a non-empty
    frame. *)
Definition Data_min (r : Venda) (d : DataFrame) : Timestamp :=
  fold_left Z.min (map Data d) (Data r).

Definition Data_max (r : Venda) (d : DataFrame) : Timestamp :=
  fold_left Z.max (map Data d) (Data r).

(** [Timestamp.date()]: the calendar day, in days since the epoch. *)
Definition date (t : Timestamp) : Z := dias_desde_epoca t.

(** What the sidebar widgets of [main] return. *)
Record Selecoes := mkSelecoes {
  sel_data_inicio : Z;
  sel_data_fim : Z;
  sel_status : list string;
  sel_categorias : list string;
  sel_regioes : list string
}.

(** The values of the widgets before the user touches them: the first and
    last day of the data and every option of the three multiselects.  An
    empty frame has no first day ([None]). *)
Definition selecoes_iniciais (df_original : DataFrame) : option Selecoes :=
  match df_original with
  | [] => None
  | r :: d =>
      Some {| sel_data_inicio := date (Data_min r d);
              sel_data_fim := date (Data_max r d);
              sel_status := unique String.eqb (map Status df_original);
              sel_categorias :=
                unique String.eqb (map Categoria df_original);
              sel_regioes := unique String.eqb (map Região df_original) |}
  end.

(** The four calls of [main] on a fresh processor, then
    [get_dataframe]. *)
Definition aplicar_filtros (df_original : DataFrame) (s : Selecoes)
  : DataFrame :=
  let p0 := init df_original in
  let p1 := filtrar_por_periodo (Some (ArgDate (sel_data_inicio s)))
                                (Some (ArgDate (sel_data_fim s))) p0 in
  let p2 := filtrar_por_status (Some (Lista (sel_status s))) p1 in
  let p3 := filtrar_por_categoria (Some (Lista (sel_categorias s))) p2 in
  let p4 := filtrar_por_regiao (Some (Lista (sel_regioes s))) p3 in
  get_dataframe p4.

(* ================================================================== *)
(** ** The other aggregate tables *)

(** [DataFrame.head(n)]: the first [n] rows, or all but the last [-n] for
    a negative [n]. *)
Definition head {A : Type} (n : Z) (l : list A) : list A :=
  if 0 <=? n then firstn (Z.to_nat n) l
  else firstn (Z.to_nat (len l + n)) l.

(** [Series.nunique]. *)
Definition nunique (l : list string) : Z := len (unique String.eqb l).

Record LinhaRegiao := mkLinhaRegiao {
  regiao_chave : string;
  regiao_Receita_Total : Q;
  regiao_Ticket_Medio : Q;
  regiao_Num_Vendas : Z;
  regiao_Num_Cidades : Z
}.

Definition agregar_regiao (g : string * DataFrame) : LinhaRegiao :=
  let (k, rows) := g in
  {| regiao_chave := k;
     regiao_Receita_Total := round2 (soma (map Valor_Final rows));
     regiao_Ticket_Medio := round2 (media (map Valor_Final rows));
     regiao_Num_Vendas := len rows;
     regiao_Num_Cidades := nunique (map Cidade rows) |}.

Definition analise_por_regiao (p : DataProcessor) : list LinhaRegiao :=
  let df_vendas := com_status Concluida (df p) in
  if len df_vendas =? 0 then []
  else
    ordenar (fun a b =>
               Qle_bool (regiao_Receita_Total b) (regiao_Receita_Total a))
            (map agregar_regiao (groupby Região df_vendas)).

Record LinhaVendedor := mkLinhaVendedor {
  vendedor_chave : string;
  vendedor_Receita_Total : Q;
  vendedor_Ticket_Medio : Q;
  vendedor_Num_Vendas : Z
}.

Definition agregar_vendedor (g : string * DataFrame) : LinhaVendedor :=
  let (k, rows) := g in
  {| vendedor_chave := k;
     vendedor_Receita_Total := round2 (soma (map Valor_Final rows));
     vendedor_Ticket_Medio := round2 (media (map Valor_Final rows));
     vendedor_Num_Vendas := len rows |}.

Definition top_vendedores (n : Z) (p : DataProcessor) : list LinhaVendedor :=
  let df_vendas := com_status Concluida (df p) in
  if len df_vendas =? 0 then []
  else
    head n
      (ordenar (fun a b =>
                  Qle_bool (vendedor_Receita_Total b)
                           (vendedor_Receita_Total a))
               (map agregar_vendedor (groupby Vendedor df_vendas))).

(** The table of payment methods before and after the percentage column is
    added. *)
Record AgregadoPagamento := mkAgregadoPagamento {
  agregado_chave : string;
  agregado_Receita_Total : Q;
  agregado_Ticket_Medio : Q;
  agregado_Num_Transacoes : Z
}.

Record LinhaPagamento := mkLinhaPagamento {
  pagamento_chave : string;
  pagamento_Receita_Total : Q;
  pagamento_Ticket_Medio : Q;
  pagamento_Num_Transacoes : Z;
  pagamento_Percentual : f64
}.

Definition agregar_pagamento (g : string * DataFrame) : AgregadoPagamento :=
  let (k, rows) := g in
  {| agregado_chave := k;
     agregado_Receita_Total := round2 (soma (map Valor_Final rows));
     agregado_Ticket_Medio := round2 (media (map Valor_Final rows));
     agregado_Num_Transacoes := len rows |}.

(** [analise['Percentual'] = (Receita_Total / Receita_Total.sum() * 100)
    .round(2)], row by row. *)
Definition com_percentual (total : Q) (l : AgregadoPagamento)
  : LinhaPagamento :=
  {| pagamento_chave := agregado_chave l;
     pagamento_Receita_Total := agregado_Receita_Total l;
     pagamento_Ticket_Medio := agregado_Ticket_Medio l;
     pagamento_Num_Transacoes := agregado_Num_Transacoes l;
     pagamento_Percentual :=
       f64_round2
         (f64_mul_pos (f64_div (agregado_Receita_Total l) total) 100) |}.

Definition analise_metodo_pagamento (p : DataProcessor)
  : list LinhaPagamento :=
  let df_vendas := com_status Concluida (df p) in
  if len df_vendas =? 0 then []
  else
    let analise := map agregar_pagamento
                       (groupby Método_Pagamento df_vendas) in
    let total := soma (map agregado_Receita_Total analise) in
    ordenar (fun a b =>
               Qle_bool (pagamento_Receita_Total b)
                        (pagamento_Receita_Total a))
            (map (com_percentual total) analise).

(** The series [groupby('Categoria')['Valor_Final'].sum()] of completed
    sales that [Visualizations.grafico_pizza_categorias] hands to the pie
    chart: the names and the values of the slices. *)
Definition fatias_pizza_categorias (d : DataFrame) : list (string * Q) :=
  map (fun g => (fst g, soma (map Valor_Final (snd g))))
      (groupby Categoria (com_status Concluida d)).

(* ================================================================== *)
(** ** Contracts of the remaining numpy draws *)

(** [np.random.randint(lo, hi)] is at least [lo] and below [hi]. *)
Definition randint_ok (S : Type) `{NpRandom S} : Prop :=
  forall (s : S) (lo hi : Z),
    lo < hi -> lo <= fst (np_randint s lo hi) < hi.

(** [np.random.uniform(lo, hi)] is at least [lo] and at most [hi]. *)
Definition uniform_ok (S : Type) `{NpRandom S} : Prop :=
  forall (s : S) (lo hi : Q),
    (lo <= hi)%Q ->
    (lo <= fst (np_uniform s lo hi))%Q /\ (fst (np_uniform s lo hi) <= hi)%Q.

(** The number written in an identifier ["V" ++ digits]. *)
Definition numero_do_ID (id : string) : option Z :=
  match id with
  | String "V" digits =>
      option_map Z.of_uint (NilEmpty.uint_of_string digits)
  | _ => None
  end.

(* ================================================================== *)
(** ** analise_temporal *)

(** The four values of [periodo] the method documents: 'D', 'W', 'M' and
    'Q'. *)
Inductive periodo :=
| PeriodoD
| PeriodoW
| PeriodoM
| PeriodoQ.

(** The bin of [resample(periodo)] a timestamp falls in, as the ordinal of
    the bin: the day; the week from Monday to Sunday ('W' ends its weeks on
    Sunday); the calendar month; the calendar quarter. *)
Definition balde (per : periodo) (t : Timestamp) : Z :=
  match per with
  | PeriodoD => date t
  | PeriodoW => (date t + 3) / 7
  | PeriodoM => periodo_mensal t
  | PeriodoQ => (ano_de t - 1970) * 4 + (trimestre_de t - 1)
  end.

(** The integers from [lo] to [hi], both included. *)
Definition intervalo (lo hi : Z) : list Z :=
  map (fun k => lo + Z.of_nat k) (seq 0 (Z.to_nat (hi - lo + 1))).

(** One row of the table, keyed by the ordinal of its bin. *)
Record LinhaTemporal := mkLinhaTemporal {
  temporal_balde : Z;
  temporal_Receita_Total : Q;
  temporal_Ticket_Medio : Q;
  temporal_Num_Vendas : Z;
  temporal_Total_Produtos : Z
}.

(** The aggregates of one bin after [round(2)] and [fillna(0)]: the mean of
    an empty bin is NaN and becomes 0, its sums and its count are 0. *)
Definition agregar_balde (b : Z) (rows : DataFrame) : LinhaTemporal :=
  {| temporal_balde := b;
     temporal_Receita_Total := round2 (soma (map Valor_Final rows));
     temporal_Ticket_Medio :=
       match rows with
       | [] => 0%Q
       | _ :: _ => round2 (media (map Valor_Final rows))
       end;
     temporal_Num_Vendas := len rows;
     temporal_Total_Produtos := soma_int (map Quantidade rows) |}.

(** [resample] makes one bin for every period from the first to the last
    period with a completed sale, in time order. *)
Definition analise_temporal (per : periodo) (p : DataProcessor)
  : list LinhaTemporal :=
  let df_vendas := com_status Concluida (df p) in
  match df_vendas with
  | [] => []
  | r :: d =>
      let baldes := map (fun x => balde per (Data x)) d in
      let primeiro := fold_left Z.min baldes (balde per (Data r)) in
      let ultimo := fold_left Z.max baldes (balde per (Data r)) in
      map (fun b =>
             agregar_balde b
               (filter (fun x => balde per (Data x) =? b) df_vendas))
          (intervalo primeiro ultimo)
  end.

(* ================================================================== *)
(** ** limpar_dados *)

(** Two rows with the same value in every column; float columns are
    compared by value. *)
Definition venda_eqb (a b : Venda) : bool :=
  String.eqb (ID a) (ID b) && (Data a =? Data b)
  && String.eqb (Categoria a) (Categoria b)
  && String.eqb (Produto a) (Produto b)
  && String.eqb (Região a) (Região b)
  && String.eqb (Cidade a) (Cidade b)
  && Qeq_bool (Valor_Unitário a) (Valor_Unitário b)
  && (Quantidade a =? Quantidade b)
  && Qeq_bool (Valor_Total a) (Valor_Total b)
  && (Desconto_pct a =? Desconto_pct b)
  && Qeq_bool (Valor_Final a) (Valor_Final b)
  && String.eqb (Status a) (Status b)
  && String.eqb (Método_Pagamento a) (Método_Pagamento b)
  && String.eqb (Vendedor a) (Vendedor b)
  && String.eqb (Cliente_ID a) (Cliente_ID b)
  && (Mês a =? Mês b) && (Ano a =? Ano b) && (Trimestre a =? Trimestre b)
  && String.eqb (Dia_Semana a) (Dia_Semana b)
  && String.eqb (Mês_Nome a) (Mês_Nome b).

(** [DataFrame.drop_duplicates()]: a row is dropped when an earlier row
    ([vistos], latest first) has the same values. *)
Fixpoint drop_duplicates_desde (vistos : list Venda) (d : DataFrame)
  : DataFrame :=
  match d with
  | [] => []
  | r :: d' =>
      if existsb (venda_eqb r) vistos then drop_duplicates_desde vistos d'
      else r :: drop_duplicates_desde (r :: vistos) d'
  end.

Definition drop_duplicates (d : DataFrame) : DataFrame :=
  drop_duplicates_desde [] d.

(** [dropna(subset=['Data', 'Valor_Final', 'Status'])].  A row of [Venda]
    holds a value in every column, and [dropna] keeps such rows. *)
Definition dropna (d : DataFrame) : DataFrame := d.

(** [limpar_dados]; the two counts it prints are not part of the state. *)
Definition limpar_dados (p : DataProcessor) : DataProcessor :=
  {| df := dropna (drop_duplicates (df p));
     df_original := df_original p |}.

(* ================================================================== *)
(** * Properties of the filters *)

Lemma subsequencia_refl {A : Type} (l : list A) : subsequencia l l.
Proof. induction l; constructor; assumption. Qed.

Lemma subsequencia_trans {A : Type} (l1 l2 l3 : list A) :
  subsequencia l1 l2 -> subsequencia l2 l3 -> subsequencia l1 l3.
Proof.
  intros H12 H23. revert l1 H12.
  induction H23 as [| x l2 l3 _ IH | x l2 l3 _ IH]; intros l1 H12.
  - assumption.
  - apply sub_skip. apply IH. assumption.
  - inversion H12; subst.
    + apply sub_skip. apply IH. assumption.
    + apply sub_keep. apply IH. assumption.
Qed.

Lemma subsequencia_filter {A : Type} (f : A -> bool) (l : list A) :
  subsequencia (filter f l) l.
Proof.
  induction l as [| x l IH]; simpl.
  - constructor.
  - destruct (f x); constructor; assumption.
Qed.

Lemma subsequencia_In {A : Type} (l1 l2 : list A) (x : A) :
  subsequencia l1 l2 -> In x l1 -> In x l2.
Proof.
  induction 1; simpl; intuition.
Qed.

Lemma filter_id {A : Type} (f : A -> bool) (l : list A) :
  (forall x, In x l -> f x = true) -> filter f l = l.
Proof.
  induction l as [| x l IH]; simpl; intros Hall.
  - reflexivity.
  - rewrite (Hall x (or_introl eq_refl)). f_equal. apply IH.
    intros y Hy. apply Hall. right. assumption.
Qed.

Lemma filter_filter {A : Type} (f g : A -> bool) (l : list A) :
  filter g (filter f l) = filter (fun x => f x && g x) l.
Proof.
  induction l as [| x l IH]; simpl.
  - reflexivity.
  - destruct (f x); simpl.
    + destruct (g x); rewrite IH; reflexivity.
    + assumption.
Qed.

Lemma isin_In (l : list string) (x : string) : isin l x = true <-> In x l.
Proof.
  unfold isin. rewrite existsb_exists. split.
  - intros [y [Hy Heq]]. apply String.eqb_eq in Heq. subst. assumption.
  - intros Hx. exists x. split; [assumption | apply String.eqb_refl].
Qed.

Lemma filtrar_coluna_subsequencia (col : Venda -> string) (s : option selecao)
    (d : DataFrame) :
  subsequencia (filtrar_coluna col s d) d.
Proof.
  unfold filtrar_coluna.
  destruct (truthy s); [| apply subsequencia_refl].
  destruct s as [[l | x] |];
    try apply subsequencia_filter; apply subsequencia_refl.
Qed.

Lemma filtrar_coluna_vazia (col : Venda -> string) (d : DataFrame) :
  filtrar_coluna col None d = d /\
  filtrar_coluna col (Some (Lista [])) d = d /\
  filtrar_coluna col (Some (Escalar "")) d = d.
Proof. repeat split. Qed.

Lemma filtrar_coluna_completa (col : Venda -> string) (full : list string)
    (d : DataFrame) :
  incl (map col d) full ->
  filtrar_coluna col (Some (Lista full)) d = d.
Proof.
  intros Hincl. unfold filtrar_coluna.
  destruct full as [| v full]; simpl; [reflexivity |].
  apply filter_id. intros r Hr.
  apply (isin_In (v :: full)). apply Hincl. apply in_map. assumption.
Qed.

Lemma executar_df_original (o : operacao) (p : DataProcessor) :
  df_original (executar p o) = df_original p.
Proof. destruct o; reflexivity. Qed.

Lemma executar_todas_df_original (ops : list operacao) (p : DataProcessor) :
  df_original (executar_todas ops p) = df_original p.
Proof.
  unfold executar_todas. revert p.
  induction ops as [| o ops IH]; intros p; simpl.
  - reflexivity.
  - rewrite IH. apply executar_df_original.
Qed.

(** C6: with an end bound the date filter keeps exactly the rows dated at or
    before the bound plus one day minus one millisecond, with a start bound
    exactly the rows dated at or after it, and with both exactly the rows
    between them; for an end date [d], a row stamped 23:59:59 on [d] is kept
    whenever it is in the view and a row stamped 00:00:00 on the next day is
    never kept. *)
Theorem filtrar_por_periodo_limites
    (p : DataProcessor) (ini fim : arg_data) (d : Z) (r : Venda) :
  df (filtrar_por_periodo None (Some fim) p) =
    filter (fun x => Data x <=?
              to_datetime fim + Timedelta_days 1 - Timedelta_milliseconds 1)
           (df p) /\
  df (filtrar_por_periodo (Some ini) None p) =
    filter (fun x => to_datetime ini <=? Data x) (df p) /\
  df (filtrar_por_periodo (Some ini) (Some fim) p) =
    filter (fun x => (to_datetime ini <=? Data x) &&
                     (Data x <=? to_datetime fim + Timedelta_days 1
                                 - Timedelta_milliseconds 1))
           (df p) /\
  (In r (df (filtrar_por_periodo None (Some fim) p)) <->
   In r (df p) /\
   Data r <= to_datetime fim + Timedelta_days 1 - Timedelta_milliseconds 1) /\
  (In r (df (filtrar_por_periodo (Some ini) None p)) <->
   In r (df p) /\ to_datetime ini <= Data r) /\
  (In (com_data (Timedelta_days d + Timedelta_seconds 86399) r)
      (df (filtrar_por_periodo None (Some (ArgDate d)) p)) <->
   In (com_data (Timedelta_days d + Timedelta_seconds 86399) r) (df p)) /\
  ~ In (com_data (Timedelta_days (d + 1)) r)
       (df (filtrar_por_periodo None (Some (ArgDate d)) p)).
Proof.
  unfold filtrar_por_periodo, fim_inclusivo; simpl.
  split; [reflexivity |].
  split; [reflexivity |].
  split; [apply filter_filter |].
  split.
  { rewrite filter_In, Z.leb_le. reflexivity. }
  split.
  { rewrite filter_In, Z.leb_le. reflexivity. }
  split.
  { rewrite filter_In, Z.leb_le. simpl.
    unfold Timedelta_days, Timedelta_seconds, Timedelta_milliseconds.
    split; [tauto |]. intros Hin. split; [assumption | lia]. }
  rewrite filter_In, Z.leb_le. simpl.
  unfold Timedelta_days, Timedelta_milliseconds. lia.
Qed.

(** C7: for each of the status, category and region filters, an omitted
    selection and an empty selection leave the processor unchanged, and so
    does filtering by any list that contains every value of the column in
    the view (the full set): the three give the same view. *)
Theorem filtros_selecao_vazia_sem_efeito
    (p : DataProcessor) (todos_status todas_categorias todas_regioes
                         : list string) :
  incl (map Status (df p)) todos_status ->
  incl (map Categoria (df p)) todas_categorias ->
  incl (map Região (df p)) todas_regioes ->
  (filtrar_por_status None p = p /\
   filtrar_por_status (Some (Lista [])) p = p /\
   filtrar_por_status (Some (Lista [])) p =
     filtrar_por_status (Some (Lista todos_status)) p) /\
  (filtrar_por_categoria None p = p /\
   filtrar_por_categoria (Some (Lista [])) p = p /\
   filtrar_por_categoria (Some (Lista [])) p =
     filtrar_por_categoria (Some (Lista todas_categorias)) p) /\
  (filtrar_por_regiao None p = p /\
   filtrar_por_regiao (Some (Lista [])) p = p /\
   filtrar_por_regiao (Some (Lista [])) p =
     filtrar_por_regiao (Some (Lista todas_regioes)) p).
Proof.
  intros Hs Hc Hr.
  unfold filtrar_por_status, filtrar_por_categoria, filtrar_por_regiao.
  rewrite (filtrar_coluna_completa Status todos_status (df p) Hs).
  rewrite (filtrar_coluna_completa Categoria todas_categorias (df p) Hc).
  rewrite (filtrar_coluna_completa Região todas_regioes (df p) Hr).
  destruct p as [v o]; simpl. repeat split.
Qed.

Lemma filtros_selecao_vazia_sem_efeito_witness :
  incl (map Status (df (init frame_misto))) [Concluida; Pendente; Cancelada] /\
  filtrar_por_status (Some (Lista [])) (init frame_misto) =
    filtrar_por_status (Some (Lista [Concluida; Pendente; Cancelada]))
                       (init frame_misto).
Proof.
  assert (Hs : incl (map Status (df (init frame_misto)))
                    [Concluida; Pendente; Cancelada]).
  { intros x Hx. simpl in Hx. simpl. tauto. }
  split; [exact Hs |].
  apply (filtros_selecao_vazia_sem_efeito (init frame_misto)
           [Concluida; Pendente; Cancelada]
           (map Categoria frame_misto) (map Região frame_misto) Hs
           (incl_refl _) (incl_refl _)).
Defined.

(** C9: after any sequence of filter and reset calls on a processor built
    from a frame, the kept original is still that frame, and a reset makes
    the current view equal to it. *)
Theorem original_preservado_e_reset (d : DataFrame) (ops : list operacao) :
  df_original (executar_todas ops (init d)) = d /\
  df (reset_filtros (executar_todas ops (init d))) = d /\
  reset_filtros (executar_todas ops (init d)) = init d.
Proof.
  pose proof (executar_todas_df_original ops (init d)) as H.
  change (df_original (init d)) with d in H.
  split; [exact H |].
  unfold reset_filtros. rewrite H. split; reflexivity.
Qed.

(** C10: the view after each of the four filters, whatever its arguments,
    is a subsequence of the view before it: rows are only removed, never
    added, repeated, reordered or changed. *)
Theorem filtros_produzem_subsequencia
    (p : DataProcessor) (ini fim : option arg_data) (s : option selecao) :
  subsequencia (df (filtrar_por_periodo ini fim p)) (df p) /\
  subsequencia (df (filtrar_por_status s p)) (df p) /\
  subsequencia (df (filtrar_por_categoria s p)) (df p) /\
  subsequencia (df (filtrar_por_regiao s p)) (df p).
Proof.
  repeat split; try apply filtrar_coluna_subsequencia.
  unfold filtrar_por_periodo; simpl.
  destruct ini as [a |], fim as [b |];
    repeat first [apply subsequencia_refl | apply subsequencia_filter
                 | eapply subsequencia_trans;
                   [apply subsequencia_filter |]].
Qed.

(* ================================================================== *)
(** * Properties of the metrics *)

Lemma len_nil_iff {A : Type} (l : list A) : (len l =? 0) = true <-> l = [].
Proof.
  unfold len. rewrite Z.eqb_eq. destruct l; simpl; split; intros H;
    try reflexivity; try discriminate; lia.
Qed.

(** The sibling branch: with at least one completed sale the two counts are
    taken over the whole view. *)
Lemma metricas_contagens_com_concluidas (p : DataProcessor) :
  com_status Concluida (df p) <> [] ->
  vendas_canceladas (calcular_metricas_vendas p) =
    len (com_status Cancelada (df p)) /\
  vendas_pendentes (calcular_metricas_vendas p) =
    len (com_status Pendente (df p)).
Proof.
  intros Hne. unfold calcular_metricas_vendas.
  destruct (len (com_status Concluida (df p)) =? 0) eqn:E.
  - apply len_nil_iff in E. contradiction.
  - split; reflexivity.
Qed.

(** The early return: without completed sales both counts are 0. *)
Lemma metricas_contagens_sem_concluidas (p : DataProcessor) :
  com_status Concluida (df p) = [] ->
  vendas_canceladas (calcular_metricas_vendas p) = 0 /\
  vendas_pendentes (calcular_metricas_vendas p) = 0.
Proof.
  intros He. unfold calcular_metricas_vendas. rewrite He. split; reflexivity.
Qed.

(** C2: on the view with one cancelled and one pending sale and no
    completed sale, the view holds one cancelled and one pending row, yet
    the metrics report 0 cancelled and 0 pending. *)
Theorem metricas_sem_concluidas_zera_contagens :
  len (com_status Cancelada (df (init frame_sem_concluidas))) = 1 /\
  len (com_status Pendente (df (init frame_sem_concluidas))) = 1 /\
  len (com_status Concluida (df (init frame_sem_concluidas))) = 0 /\
  vendas_canceladas (calcular_metricas_vendas (init frame_sem_concluidas))
    = 0 /\
  vendas_pendentes (calcular_metricas_vendas (init frame_sem_concluidas))
    = 0.
Proof. repeat split. Qed.

(* ================================================================== *)
(** * Properties of the category table *)

Lemma soma_perm (l l' : list Q) : Permutation l l' -> (soma l == soma l')%Q.
Proof.
  induction 1 as [| x l l' _ IH | x y l | l l' l'' _ IH1 _ IH2]; simpl.
  - reflexivity.
  - rewrite IH. reflexivity.
  - ring.
  - rewrite IH1. assumption.
Qed.

Lemma inserir_perm {A : Type} (leb : A -> A -> bool) (x : A) (l : list A) :
  Permutation (inserir leb x l) (x :: l).
Proof.
  induction l as [| y l IH]; simpl.
  - apply Permutation_refl.
  - destruct (leb x y).
    + apply Permutation_refl.
    + apply perm_trans with (y :: x :: l).
      * apply perm_skip. assumption.
      * apply perm_swap.
Qed.

Lemma ordenar_perm {A : Type} (leb : A -> A -> bool) (l : list A) :
  Permutation (ordenar leb l) l.
Proof.
  induction l as [| x l IH]; simpl.
  - apply Permutation_refl.
  - apply perm_trans with (x :: ordenar leb l).
    + apply inserir_perm.
    + apply perm_skip. assumption.
Qed.

Lemma unique_In (l : list string) (x : string) :
  In x (unique String.eqb l) <-> In x l.
Proof.
  induction l as [| y l IH]; simpl.
  - reflexivity.
  - rewrite filter_In, IH. split.
    + intros [H | [H _]]; [left | right]; assumption.
    + intros [H | H]; [left; assumption |].
      destruct (String.eqb x y) eqn:E.
      * left. apply String.eqb_eq in E. congruence.
      * right. split; [assumption | reflexivity].
Qed.

Lemma NoDup_filter {A : Type} (f : A -> bool) (l : list A) :
  NoDup l -> NoDup (filter f l).
Proof.
  induction 1 as [| x l Hx _ IH]; simpl.
  - constructor.
  - destruct (f x); [| assumption].
    constructor; [| assumption].
    intros Hin. apply filter_In in Hin. tauto.
Qed.

Lemma unique_NoDup (l : list string) : NoDup (unique String.eqb l).
Proof.
  induction l as [| y l IH]; simpl.
  - constructor.
  - constructor.
    + intros Hin. apply filter_In in Hin. destruct Hin as [_ Hneq].
      rewrite String.eqb_refl in Hneq. discriminate.
    + apply NoDup_filter. assumption.
Qed.

Lemma soma_map_ext {A : Type} (g h : A -> Q) (l : list A) :
  (forall k, In k l -> (g k == h k)%Q) ->
  (soma (map g l) == soma (map h l))%Q.
Proof.
  induction l as [| k l IH]; simpl; intros Hext.
  - reflexivity.
  - rewrite (Hext k (or_introl eq_refl)), IH; [reflexivity |].
    intros k' Hk'. apply Hext. right. assumption.
Qed.

Lemma soma_map_plus {A : Type} (g h : A -> Q) (l : list A) :
  (soma (map (fun k => g k + h k) l) == soma (map g l) + soma (map h l))%Q.
Proof.
  induction l as [| k l IH]; simpl.
  - ring.
  - rewrite IH. ring.
Qed.

Lemma soma_indicador_fora (x : string) (v : Q) (keys : list string) :
  ~ In x keys ->
  (soma (map (fun k => if String.eqb x k then v else 0) keys) == 0)%Q.
Proof.
  induction keys as [| k keys IH]; simpl; intros Hnot.
  - reflexivity.
  - destruct (String.eqb x k) eqn:E.
    + apply String.eqb_eq in E. exfalso. apply Hnot. left. congruence.
    + rewrite IH; [ring | tauto].
Qed.

Lemma soma_indicador (x : string) (v : Q) (keys : list string) :
  NoDup keys -> In x keys ->
  (soma (map (fun k => if String.eqb x k then v else 0) keys) == v)%Q.
Proof.
  induction 1 as [| k keys Hk Hnd IH]; simpl; intros Hin.
  - contradiction.
  - destruct (String.eqb x k) eqn:E.
    + apply String.eqb_eq in E. subst k.
      rewrite soma_indicador_fora; [ring | assumption].
    + destruct Hin as [Heq | Hin].
      * subst k. rewrite String.eqb_refl in E. discriminate.
      * rewrite IH; [ring | assumption].
Qed.

Lemma soma_zeros {A : Type} (l : list A) :
  (soma (map (fun _ => 0) l) == 0)%Q.
Proof.
  induction l as [| k l IH]; simpl.
  - reflexivity.
  - rewrite IH. ring.
Qed.

(** Summing the group sums over distinct keys that cover the column gives
    the sum over the whole frame. *)
Lemma soma_por_chave (col : Venda -> string) (f : Venda -> Q)
    (keys : list string) (d : DataFrame) :
  NoDup keys ->
  (forall r, In r d -> In (col r) keys) ->
  (soma (map (fun k =>
                soma (map f (filter (fun r => String.eqb (col r) k) d)))
             keys)
   == soma (map f d))%Q.
Proof.
  intros Hnd. induction d as [| a d IH]; intros Hcov.
  - simpl. apply soma_zeros.
  - rewrite (soma_map_ext _
       (fun k => (if String.eqb (col a) k then f a else 0) +
                 soma (map f (filter (fun r => String.eqb (col r) k) d)))%Q).
    + rewrite soma_map_plus.
      rewrite (soma_indicador (col a) (f a) keys Hnd
                 (Hcov a (or_introl eq_refl))).
      rewrite (IH (fun r Hr => Hcov r (or_intror Hr))).
      simpl. reflexivity.
    + intros k _. simpl. destruct (String.eqb (col a) k); simpl; ring.
Qed.

Lemma rint_inteiro (q : Q) (c : Z) : (q == inject_Z c)%Q -> rint q = c.
Proof.
  intros H. unfold rint.
  rewrite (Qfloor_comp _ _ H), Qfloor_Z.
  assert (Hr : (q - inject_Z c == 0)%Q) by (rewrite H; ring).
  unfold Qlt_bool.
  destruct (Qle_bool (1 # 2) (q - inject_Z c)) eqn:E; [| reflexivity].
  apply Qle_bool_iff in E. rewrite Hr in E.
  unfold Qle in E. simpl in E. lia.
Qed.

Lemma round2_centesimo (q : Q) : centesimo q -> (round2 q == q)%Q.
Proof.
  intros [c Hc]. unfold round2.
  rewrite (rint_inteiro (q * 100) c).
  - rewrite Hc. reflexivity.
  - rewrite Hc. field.
Qed.

Lemma centesimo_round2 (q : Q) : (round2 q == q)%Q -> centesimo q.
Proof.
  intros H. exists (rint (q * 100)). symmetry. exact H.
Qed.

Lemma centesimo_soma (l : list Q) :
  (forall q, In q l -> centesimo q) -> centesimo (soma l).
Proof.
  induction l as [| x l IH]; simpl; intros Hall.
  - exists 0. reflexivity.
  - destruct (Hall x (or_introl eq_refl)) as [a Ha].
    destruct IH as [b Hb].
    + intros q Hq. apply Hall. right. assumption.
    + exists (a + b). rewrite Ha, Hb, inject_Z_plus. field.
Qed.

Lemma map_agregar_receita (gs : list (string * DataFrame)) :
  map Receita_Total (map agregar_categoria gs) =
  map (fun g => round2 (soma (map Valor_Final (snd g)))) gs.
Proof.
  rewrite map_map. apply map_ext. intros [k rows]. reflexivity.
Qed.

Lemma chaves_groupby (col : Venda -> string) (d : DataFrame) :
  NoDup (ordenar String.leb (unique String.eqb (map col d))) /\
  (forall r, In r d ->
     In (col r) (ordenar String.leb (unique String.eqb (map col d)))).
Proof.
  split.
  - apply (Permutation_NoDup
             (Permutation_sym (ordenar_perm String.leb _))).
    apply unique_NoDup.
  - intros r Hr.
    apply (Permutation_in _ (Permutation_sym (ordenar_perm String.leb _))).
    apply unique_In. apply in_map. assumption.
Qed.

(** The revenue column of the table sums to the sum, over the categories
    present, of the rounded revenue of the category. *)
Lemma soma_receita_por_categoria (p : DataProcessor) :
  (soma_receita (analise_por_categoria p) ==
   soma (map (fun k =>
                round2 (soma (map Valor_Final
                  (filter (fun r => String.eqb (Categoria r) k)
                          (com_status Concluida (df p))))))
             (ordenar String.leb
                (unique String.eqb
                   (map Categoria (com_status Concluida (df p)))))))%Q.
Proof.
  unfold soma_receita, analise_por_categoria.
  destruct (len (com_status Concluida (df p)) =? 0) eqn:E.
  - apply len_nil_iff in E. rewrite E. reflexivity.
  - unfold sort_values_desc.
    rewrite (soma_perm _ _ (Permutation_map Receita_Total
                              (ordenar_perm _ _))).
    rewrite map_agregar_receita. unfold groupby. rewrite map_map.
    reflexivity.
Qed.

(** C4, as amended: when the net total of every completed sale of the view
    has at most two decimals (rounding it to two decimals leaves it
    unchanged), the revenue column of the category table sums to the total
    revenue of the metrics. *)
Theorem receita_por_categoria_soma_receita_total (p : DataProcessor) :
  (forall r, In r (df p) -> Status r = Concluida ->
             (round2 (Valor_Final r) == Valor_Final r)%Q) ->
  (soma_receita (analise_por_categoria p) ==
   receita_total (calcular_metricas_vendas p))%Q.
Proof.
  intros Hcent. rewrite soma_receita_por_categoria.
  unfold calcular_metricas_vendas.
  destruct (len (com_status Concluida (df p)) =? 0) eqn:E.
  - apply len_nil_iff in E. rewrite E. reflexivity.
  - cbn [receita_total].
    destruct (chaves_groupby Categoria (com_status Concluida (df p)))
      as [Hnd Hcov].
    rewrite <- (soma_por_chave Categoria Valor_Final _ _ Hnd Hcov).
    apply soma_map_ext. intros k _.
    apply round2_centesimo. apply centesimo_soma.
    intros q Hq. apply in_map_iff in Hq. destruct Hq as [r [Hq Hr]].
    subst q. apply filter_In in Hr. destruct Hr as [Hr _].
    unfold com_status in Hr. apply filter_In in Hr. destruct Hr as [Hr Hs].
    apply String.eqb_eq in Hs.
    apply centesimo_round2. apply Hcent; assumption.
Qed.

Lemma receita_por_categoria_soma_receita_total_witness :
  (soma_receita (analise_por_categoria (init frame_misto)) ==
   receita_total (calcular_metricas_vendas (init frame_misto)))%Q.
Proof.
  apply (receita_por_categoria_soma_receita_total (init frame_misto)).
  intros r Hr Hs. simpl in Hr.
  destruct Hr as [Hr | [Hr | [Hr | [Hr | []]]]]; subst r;
    vm_compute; reflexivity.
Defined.

(** C4, as stated, fails: for one completed sale of 0.004 the table has
    revenue 0.00 and the metrics have total revenue 0.004. *)
Lemma receita_por_categoria_contraexemplo :
  ~ (soma_receita (analise_por_categoria (init frame_milesimos)) ==
     receita_total (calcular_metricas_vendas (init frame_milesimos)))%Q.
Proof.
  vm_compute. discriminate.
Qed.

(* ================================================================== *)
(** * Properties of the trend *)


Lemma Qlt_bool_false_iff (a b : Q) : Qlt_bool a b = false <-> (b <= a)%Q.
Proof.
  unfold Qlt_bool. rewrite negb_false_iff. apply Qle_bool_iff.
Qed.



(** ** Comparisons of binary64 numbers *)

Lemma SFcompare_antisym (a b : spec_float) :
  SFcompare b a = option_map CompOpp (SFcompare a b).
Proof.
  destruct a as [sa | sa | | sa ma ea], b as [sb | sb | | sb mb eb];
    try reflexivity;
    try (destruct sa; reflexivity);
    try (destruct sb; reflexivity);
    try (destruct sa, sb; reflexivity).
  pose proof (Pos.compare_cont_antisym ma mb Eq) as Hm. simpl in Hm.
  simpl. destruct sa, sb; try reflexivity; simpl; f_equal;
    rewrite (Z.compare_antisym ea eb);
    destruct (ea ?= eb); simpl; try reflexivity;
    rewrite <- Hm; try rewrite CompOpp_involutive; reflexivity.
Qed.

Lemma SFcompare_finitos (s1 s2 : bool) (m1 m2 : positive) (e1 e2 : Z) :
  exists c, SFcompare (S754_finite s1 m1 e1) (S754_finite s2 m2 e2) = Some c.
Proof. simpl. eexists. reflexivity. Qed.

Lemma Prim2SF_cinco : Prim2SF 5 = S754_finite false 5629499534213120 (-50).
Proof. vm_compute. reflexivity. Qed.

Lemma Prim2SF_menos_cinco :
  Prim2SF (-5) = S754_finite true 5629499534213120 (-50).
Proof. vm_compute. reflexivity. Qed.

Lemma Prim2SF_zero : Prim2SF 0 = S754_zero false.
Proof. vm_compute. reflexivity. Qed.

Lemma is_nan_spec (x : float) : is_nan x = true <-> Prim2SF x = S754_nan.
Proof.
  unfold is_nan. rewrite FloatAxioms.eqb_spec. unfold SFeqb.
  destruct (Prim2SF x) as [s | s | | s m e]; simpl.
  - split; discriminate.
  - destruct s; simpl; split; discriminate.
  - split; reflexivity.
  - destruct s; rewrite Z.compare_refl, Pos.compare_cont_refl; simpl;
      split; discriminate.
Qed.

Ltac resolver_casos :=
  repeat split; intros;
  repeat match goal with
         | H : _ /\ _ |- _ => destruct H
         | H : _ \/ _ |- _ => destruct H
         end;
  try discriminate; try reflexivity; auto.

(** The label as a function of the binary64 growth: the four bands, with
    NaN falling through every comparison to the last label. *)
Lemma classificar_casos (g : float) :
  (F64.classificar g = "Crescimento Forte"%string <->
     (5 <? g)%float = true) /\
  (F64.classificar g = "Crescimento Moderado"%string <->
     (0 <? g)%float = true /\ (g <=? 5)%float = true) /\
  (F64.classificar g = "Estável"%string <->
     (-5 <? g)%float = true /\ (g <=? 0)%float = true) /\
  (F64.classificar g = "Declínio"%string <->
     (g <=? -5)%float = true \/ is_nan g = true).
Proof.
  unfold F64.classificar. rewrite is_nan_spec.
  rewrite !FloatAxioms.ltb_spec, !FloatAxioms.leb_spec.
  rewrite Prim2SF_cinco, Prim2SF_menos_cinco, Prim2SF_zero.
  unfold SFltb, SFleb.
  rewrite (SFcompare_antisym (S754_finite false 5629499534213120 (-50))
                             (Prim2SF g)).
  rewrite (SFcompare_antisym (S754_finite true 5629499534213120 (-50))
                             (Prim2SF g)).
  rewrite (SFcompare_antisym (S754_zero false) (Prim2SF g)).
  destruct (Prim2SF g) as [s | s | | s m e].
  - simpl. resolver_casos.
  - destruct s; simpl; resolver_casos.
  - simpl. resolver_casos.
  - destruct s.
    + replace (SFcompare (S754_finite false 5629499534213120 (-50))
                         (S754_finite true m e)) with (Some Gt)
        by reflexivity.
      replace (SFcompare (S754_zero false) (S754_finite true m e))
        with (Some Gt) by reflexivity.
      destruct (SFcompare_finitos true true 5629499534213120 m (-50) e)
        as [c Hc].
      rewrite Hc. destruct c; simpl; resolver_casos.
    + replace (SFcompare (S754_finite true 5629499534213120 (-50))
                         (S754_finite false m e)) with (Some Lt)
        by reflexivity.
      replace (SFcompare (S754_zero false) (S754_finite false m e))
        with (Some Lt) by reflexivity.
      destruct (SFcompare_finitos false false 5629499534213120 m (-50) e)
        as [c Hc].
      rewrite Hc. destruct c; simpl; resolver_casos.
Qed.

(** ** The trend in binary64 arithmetic *)

(** The binary64 embedding sees the months of the exact one and takes the
    same branch. *)
Lemma tendencias_f64_mesmo_caso (Series_sum : list float -> float)
    (p : DataProcessor) :
  map fst (F64.soma_mensal Series_sum (com_status Concluida (df p)))
    = map fst (soma_mensal (com_status Concluida (df p))) /\
  (F64.tendencias Series_sum p = None <-> tendencias p = None) /\
  ((exists t, F64.tendencias Series_sum p = Some t /\
              F64.tendencia t = "Insuficiente"%string) <->
   (exists t, tendencias p = Some t /\ tendencia t = "Insuficiente"%string)).
Proof.
  assert (Hfst : map fst (F64.soma_mensal Series_sum
                            (com_status Concluida (df p)))
                 = map fst (soma_mensal (com_status Concluida (df p)))).
  { unfold F64.soma_mensal, soma_mensal. rewrite !map_map. reflexivity. }
  assert (Hlen : len (F64.soma_mensal Series_sum
                        (com_status Concluida (df p)))
                 = len (soma_mensal (com_status Concluida (df p)))).
  { unfold len. rewrite <- (length_map fst), Hfst, length_map.
    reflexivity. }
  split; [exact Hfst |].
  unfold F64.tendencias, tendencias. rewrite Hlen.
  destruct (len (com_status Concluida (df p)) =? 0).
  - split; [split; reflexivity |].
    split; intros [t [Ht _]]; discriminate.
  - destruct (len (soma_mensal (com_status Concluida (df p))) <? 2).
    + split; [split; discriminate |].
      split; intros _; eexists; split; reflexivity.
    + split; [split; discriminate |].
      split; intros [t [Ht Hi]]; injection Ht as <-; exfalso;
        cbn [F64.tendencia tendencia] in Hi.
      * revert Hi. unfold F64.classificar.
        repeat match goal with
               | |- context [if ?b then _ else _] => destruct b
               end; discriminate.
      * revert Hi. unfold classificar.
        repeat match goal with
               | |- context [if ?b then _ else _] => destruct b
               end; discriminate.
Qed.

(** With two or more months the full dictionary is returned. *)
Lemma tendencias_f64_dois_meses (Series_sum : list float -> float)
    (p : DataProcessor) :
  2 <= len (F64.soma_mensal Series_sum (com_status Concluida (df p))) ->
  F64.tendencias Series_sum p =
    let m := F64.soma_mensal Series_sum (com_status Concluida (df p)) in
    let c := ((F64.iloc m (-1) - F64.iloc m (-2)) / F64.iloc m (-2)
              * 100)%float in
    Some {| F64.crescimento_mensal := F64.round2 c;
            F64.tendencia := F64.classificar c;
            F64.ultimo_mes := Some (F64.iloc m (-1));
            F64.penultimo_mes := Some (F64.iloc m (-2)) |}.
Proof.
  intros H2. unfold F64.tendencias.
  destruct (len (com_status Concluida (df p)) =? 0) eqn:E.
  - apply len_nil_iff in E. rewrite E in H2.
    unfold len in H2. simpl in H2. lia.
  - destruct (len (F64.soma_mensal Series_sum
                     (com_status Concluida (df p))) <? 2) eqn:E2.
    + apply Z.ltb_lt in E2. lia.
    + apply Z.leb_le in H2. rewrite H2. reflexivity.
Qed.

(** C8, as amended: with at least two distinct completed months the growth
    is (last - previous) / previous * 100 computed on the two float64 month
    totals in binary64 arithmetic; the dictionary reports it rounded to two
    decimals (scaled by 100, rounded to the nearest integer, divided by 100)
    and carries the two totals; the label is chosen on the unrounded binary64
    growth: 'Crescimento Forte' exactly when it is above 5, 'Crescimento
    Moderado' when in (0, 5], 'Estável' when in (-5, 0], 'Declínio' when at
    most -5 or NaN.  This holds however pandas sums a month.  For a
    summation that adds 1000, 700 + 500 and 1100 exactly, the series 1000,
    1200, 1100 reports -8.33 and 'Declínio'. *)
Theorem tendencias_crescimento_e_classificacao
    (Series_sum : list float -> float) (p : DataProcessor) :
  2 <= len (F64.soma_mensal Series_sum (com_status Concluida (df p))) ->
  (exists t u a g,
     F64.tendencias Series_sum p = Some t /\
     u = F64.iloc (F64.soma_mensal Series_sum
                     (com_status Concluida (df p))) (-1) /\
     a = F64.iloc (F64.soma_mensal Series_sum
                     (com_status Concluida (df p))) (-2) /\
     g = ((u - a) / a * 100)%float /\
     F64.ultimo_mes t = Some u /\
     F64.penultimo_mes t = Some a /\
     F64.crescimento_mensal t = F64.round2 g /\
     (F64.tendencia t = "Crescimento Forte"%string <->
        (5 <? g)%float = true) /\
     (F64.tendencia t = "Crescimento Moderado"%string <->
        (0 <? g)%float = true /\ (g <=? 5)%float = true) /\
     (F64.tendencia t = "Estável"%string <->
        (-5 <? g)%float = true /\ (g <=? 0)%float = true) /\
     (F64.tendencia t = "Declínio"%string <->
        (g <=? -5)%float = true \/ is_nan g = true)) /\
  (Series_sum [1000%float] = 1000%float ->
   Series_sum [700%float; 500%float] = 1200%float ->
   Series_sum [1100%float] = 1100%float ->
   exists t,
     F64.tendencias Series_sum (init frame_serie) = Some t /\
     F64.crescimento_mensal t = (-833 / 100)%float /\
     F64.tendencia t = "Declínio"%string /\
     F64.ultimo_mes t = Some 1100%float /\
     F64.penultimo_mes t = Some 1200%float).
Proof.
  intros H2. split.
  - rewrite (tendencias_f64_dois_meses Series_sum p H2). cbv zeta.
    set (m := F64.soma_mensal Series_sum (com_status Concluida (df p))).
    eexists. exists (F64.iloc m (-1)), (F64.iloc m (-2)).
    eexists. split; [reflexivity |].
    split; [reflexivity |]. split; [reflexivity |].
    split; [reflexivity |]. split; [reflexivity |].
    split; [reflexivity |]. split; [reflexivity |].
    cbn [F64.tendencia]. apply classificar_casos.
  - intros S1 S2 S3.
    assert (Hm : F64.soma_mensal Series_sum
                   (com_status Concluida (df (init frame_serie)))
                 = [(periodo_mensal jan15, 1000%float);
                    (periodo_mensal fev15, 1200%float);
                    (periodo_mensal mar15, 1100%float)]).
    { vm_compute. rewrite S1, S2, S3. reflexivity. }
    rewrite tendencias_f64_dois_meses
      by (rewrite Hm; vm_compute; discriminate).
    cbv zeta. rewrite Hm.
    eexists. split; [reflexivity |].
    split; [vm_compute; reflexivity |].
    split; [vm_compute; reflexivity |].
    split; reflexivity.
Qed.

Lemma tendencias_crescimento_e_classificacao_witness :
  exists t,
    F64.tendencias F64.soma_sequencial (init frame_limiar) = Some t /\
    F64.crescimento_mensal t = 5%float /\
    F64.tendencia t = "Crescimento Forte"%string.
Proof.
  assert (H2 : 2 <= len (F64.soma_mensal F64.soma_sequencial
                           (com_status Concluida (df (init frame_limiar)))))
    by (vm_compute; discriminate).
  destruct (tendencias_crescimento_e_classificacao
              F64.soma_sequencial (init frame_limiar) H2)
    as [(t & u & a & g & Ht & Hu & Ha & Hg & _ & _ & Hc & Hforte & _) _].
  exists t. split; [exact Ht |]. split.
  - rewrite Hc, Hg, Hu, Ha. vm_compute. reflexivity.
  - apply Hforte. rewrite Hg, Hu, Ha. vm_compute. reflexivity.
Defined.

(** C8, as stated, fails.  For monthly totals 100000 and 105004 the reported
    growth is 5.0, which is not (105004 - 100000) / 100000 * 100 and is not
    above 5, and the label is 'Crescimento Forte'.  For monthly totals 1.00
    and 1.05 the growth (1.05 - 1.00) / 1.00 * 100 is exactly 5, yet the
    binary64 growth is above 5 and the label is 'Crescimento Forte'.  For
    monthly totals 8.00 and 8.03 the growth is exactly 0.375, yet 0.37 is
    reported.  For monthly totals 0 and 0 the growth is NaN, not a number
    at most -5, and the label is 'Declínio'. *)
Lemma tendencias_classificacao_contraexemplo :
  (exists t,
     F64.tendencias F64.soma_sequencial (init frame_limiar) = Some t /\
     F64.crescimento_mensal t = 5%float /\
     (F64.crescimento_mensal t
        =? (105004 - 100000) / 100000 * 100)%float = false /\
     (5 <? F64.crescimento_mensal t)%float = false /\
     F64.tendencia t = "Crescimento Forte"%string) /\
  (exists t,
     F64.tendencias F64.soma_sequencial (init frame_cinco_por_cento)
       = Some t /\
     (((105 # 100) - 1) / 1 * 100 == 5)%Q /\
     F64.ultimo_mes t = Some (105 / 100)%float /\
     F64.penultimo_mes t = Some 1%float /\
     F64.tendencia t = "Crescimento Forte"%string) /\
  (exists t,
     F64.tendencias F64.soma_sequencial (init frame_meio_centesimo)
       = Some t /\
     (((803 # 100) - 8) / 8 * 100 == 375 # 1000)%Q /\
     F64.crescimento_mensal t = (37 / 100)%float) /\
  (exists t,
     F64.tendencias F64.soma_sequencial (init frame_meses_zero) = Some t /\
     is_nan (F64.crescimento_mensal t) = true /\
     (F64.crescimento_mensal t <=? -5)%float = false /\
     F64.tendencia t = "Declínio"%string).
Proof.
  split; [| split; [| split]].
  - eexists. split; [vm_compute; reflexivity |].
    repeat split; vm_compute; reflexivity.
  - eexists. split; [vm_compute; reflexivity |].
    repeat split; vm_compute; reflexivity.
  - eexists. split; [vm_compute; reflexivity |].
    split; vm_compute; reflexivity.
  - eexists. split; [vm_compute; reflexivity |].
    repeat split; vm_compute; reflexivity.
Qed.




(* ================================================================== *)
(** * Properties of the generator *)

(** ** The selection loop of random.sample returns a permutation *)

Lemma length_list_set {A : Type} (j : nat) (y : A) (l : list A) :
  length (list_set j y l) = length l.
Proof.
  revert j. induction l as [| x l IH]; intros [| j]; simpl; auto.
Qed.

Lemma list_set_same {A : Type} (j : nat) (y : A) (l : list A) :
  nth_error l j = Some y -> list_set j y l = l.
Proof.
  revert j. induction l as [| x l IH]; intros [| j]; simpl; intros H;
    try reflexivity.
  - congruence.
  - f_equal. apply IH. assumption.
Qed.

Lemma firstn_list_set {A : Type} (m j : nat) (y : A) (l : list A) :
  (j < m)%nat -> firstn m (list_set j y l) = list_set j y (firstn m l).
Proof.
  revert j l. induction m as [| m IH]; intros j l Hj; [lia |].
  destruct l as [| x l]; [destruct j; reflexivity |].
  destruct j as [| j]; simpl.
  - reflexivity.
  - f_equal. apply IH. lia.
Qed.

Lemma nth_error_firstn_lt {A : Type} (m j : nat) (l : list A) :
  (j < m)%nat -> nth_error (firstn m l) j = nth_error l j.
Proof.
  revert j l. induction m as [| m IH]; intros j l Hj; [lia |].
  destruct l as [| x l]; [destruct j; reflexivity |].
  destruct j as [| j]; simpl.
  - reflexivity.
  - apply IH. lia.
Qed.

Lemma firstn_succ_snoc {A : Type} (m : nat) (y : A) (l : list A) :
  nth_error l m = Some y -> firstn (S m) l = firstn m l ++ [y].
Proof.
  revert l. induction m as [| m IH]; intros [| x l] H; simpl in *;
    try discriminate.
  - congruence.
  - f_equal. apply IH. assumption.
Qed.

Lemma perm_nth_set {A : Type} (j : nat) (x y : A) (l : list A) :
  nth_error l j = Some x -> Permutation (x :: list_set j y l) (y :: l).
Proof.
  revert j. induction l as [| a l IH]; intros [| j] H; simpl in *;
    try discriminate.
  - injection H as ->. apply perm_swap.
  - apply perm_trans with (a :: x :: list_set j y l); [apply perm_swap |].
    apply perm_trans with (a :: y :: l); [| apply perm_swap].
    apply perm_skip. apply IH. assumption.
Qed.

Lemma nth_error_lt_Some {A : Type} (l : list A) (j : nat) :
  (j < length l)%nat -> exists x, nth_error l j = Some x.
Proof.
  intros H. destruct (nth_error l j) eqn:E; [eauto |].
  apply nth_error_None in E. lia.
Qed.

Section Amostra.
Context {S : Type} `{PyRandom S}.
Hypothesis Hrand : randbelow_ok S.

(** One pass of the loop from position [i] to the end selects, in some
    order, exactly the first [n - i] slots of the pool. *)
Lemma sample_loop_perm {A : Type} (n m : nat) :
  forall (i : nat) (pool : list A) (st : S),
    length pool = n -> (i + m = n)%nat ->
    exists res st',
      sample_loop n (seq i m) pool st = Ok (res, st') /\
      Permutation res (firstn m pool).
Proof.
  induction m as [| m IH]; intros i pool st Hlen Him.
  - exists [], st. split; [reflexivity | apply Permutation_refl].
  - cbn [seq sample_loop].
    assert (Hni : (n - i = Datatypes.S m)%nat) by lia.
    rewrite Hni.
    pose proof (Hrand st (Datatypes.S m) ltac:(lia)) as Hj.
    destruct (py_randbelow st (Datatypes.S m)) as [j st1]. simpl in Hj.
    destruct (nth_error_lt_Some pool j ltac:(lia)) as [x Hx].
    destruct (nth_error_lt_Some pool m ltac:(lia)) as [y Hy].
    replace (Datatypes.S m - 1)%nat with m by lia.
    rewrite Hx, Hy.
    destruct (IH (Datatypes.S i) (list_set j y pool) st1) as
      [res [st2 [Hres Hperm]]].
    + rewrite length_list_set. assumption.
    + lia.
    + rewrite Hres. exists (x :: res), st2. split; [reflexivity |].
      apply perm_trans with (x :: firstn m (list_set j y pool)).
      * apply perm_skip. assumption.
      * rewrite (firstn_succ_snoc m y pool Hy).
        destruct (Nat.eq_dec j m) as [-> | Hne].
        -- rewrite (list_set_same m y pool Hy).
           assert (x = y) by congruence. subst x.
           apply Permutation_cons_append.
        -- rewrite firstn_list_set by lia.
           apply perm_trans with (y :: firstn m pool).
           ++ apply perm_nth_set.
              rewrite nth_error_firstn_lt by lia. assumption.
           ++ apply Permutation_cons_append.
Qed.

(** Sampling as many items as the population holds gives a permutation
    of the population. *)
Lemma random_sample_tudo {A : Type} (population : list A) (st : S) :
  exists res st',
    random_sample population (len population) st = Ok (res, st') /\
    Permutation res population.
Proof.
  unfold random_sample.
  assert (Hk : (0 <=? len population) && (len population <=? len population)
               = true).
  { unfold len. apply andb_true_intro. split; apply Z.leb_le; lia. }
  rewrite Hk. simpl negb. cbv iota.
  unfold len at 1. rewrite Nat2Z.id.
  destruct (sample_loop_perm (length population) (length population) 0
              population st eq_refl eq_refl) as [res [st' [Hres Hperm]]].
  exists res, st'. split; [assumption |].
  rewrite firstn_all in Hperm. assumption.
Qed.
End Amostra.

(** ** Sorting the sample gives back the ascending list of days *)

Lemma inserir_sorted (x : Z) (l : list Z) :
  StronglySorted Z.le l -> StronglySorted Z.le (inserir Z.leb x l).
Proof.
  induction 1 as [| y l Hs IH Hy]; simpl.
  - repeat constructor.
  - destruct (x <=? y) eqn:E.
    + apply Z.leb_le in E. constructor.
      * constructor; assumption.
      * constructor; [assumption |].
        eapply Forall_impl; [| exact Hy]. intros z Hz. simpl in Hz. lia.
    + apply Z.leb_gt in E. constructor; [assumption |].
      apply Forall_forall. intros z Hz.
      apply (Permutation_in _ (inserir_perm Z.leb x l)) in Hz.
      destruct Hz as [<- | Hz]; [lia |].
      rewrite Forall_forall in Hy. apply Hy. assumption.
Qed.

Lemma ordenar_sorted (l : list Z) : StronglySorted Z.le (ordenar Z.leb l).
Proof.
  induction l as [| x l IH]; simpl.
  - constructor.
  - apply inserir_sorted. assumption.
Qed.

Lemma sorted_perm_eq (l1 l2 : list Z) :
  StronglySorted Z.le l1 -> StronglySorted Z.le l2 -> Permutation l1 l2 ->
  l1 = l2.
Proof.
  intros H1. revert l2.
  induction H1 as [| a l1 Hs1 IH Ha]; intros l2 H2 Hp.
  - apply Permutation_nil in Hp. congruence.
  - destruct H2 as [| b l2 Hs2 Hb].
    + apply Permutation_sym, Permutation_nil in Hp. discriminate.
    + assert (Hab : a = b).
      { rewrite Forall_forall in Ha, Hb.
        assert (Hin_a : In a (b :: l2))
          by (apply (Permutation_in _ Hp); left; reflexivity).
        assert (Hin_b : In b (a :: l1))
          by (apply (Permutation_in _ (Permutation_sym Hp)); left;
              reflexivity).
        destruct Hin_a as [-> | Hin_a]; [reflexivity |].
        destruct Hin_b as [-> | Hin_b]; [reflexivity |].
        apply Hb in Hin_a. apply Ha in Hin_b. lia. }
      subst b. f_equal. apply IH; [assumption |].
      apply Permutation_cons_inv with a. assumption.
Qed.

Lemma sorted_de_permutacao (l datas : list Timestamp) :
  StronglySorted Z.lt datas -> Permutation l datas -> sorted l = datas.
Proof.
  intros Hs Hp. unfold sorted. apply sorted_perm_eq.
  - apply ordenar_sorted.
  - clear Hp. induction Hs as [| a d Hd IH Ha]; constructor.
    + assumption.
    + eapply Forall_impl; [| exact Ha]. intros z Hz. simpl in Hz. lia.
  - apply perm_trans with l; [apply ordenar_perm | assumption].
Qed.

(** The list comprehension of days: strictly ascending. *)
Lemma dias_crescentes (inicio : Timestamp) (s k : nat) :
  StronglySorted Z.lt
    (map (fun x => inicio + Timedelta_days x) (map Z.of_nat (seq s k))).
Proof.
  revert s. induction k as [| k IH]; intros s; simpl.
  - constructor.
  - constructor; [apply IH |].
    apply Forall_forall. intros t Ht.
    apply in_map_iff in Ht. destruct Ht as [x [<- Hx]].
    apply in_map_iff in Hx. destruct Hx as [j [<- Hj]].
    apply in_seq in Hj. unfold Timedelta_days. lia.
Qed.

Lemma crescente_NoDup (l : list Z) : StronglySorted Z.lt l -> NoDup l.
Proof.
  induction 1 as [| a l Hs IH Ha]; constructor; [| assumption].
  intros Hin. rewrite Forall_forall in Ha. apply Ha in Hin. lia.
Qed.

Lemma len_range (n : Z) : 0 <= n -> len (range n) = n.
Proof.
  intros Hn. unfold len, range. rewrite length_map, length_seq.
  apply Z2Nat.id. assumption.
Qed.

Lemma In_range (n x : Z) : In x (range n) <-> 0 <= x < n.
Proof.
  unfold range. rewrite in_map_iff. split.
  - intros [j [<- Hj]]. apply in_seq in Hj. lia.
  - intros Hx. exists (Z.to_nat x). split; [lia |]. apply in_seq. lia.
Qed.

(** ** The record loop succeeds and assigns the dates in order *)

Lemma bind_Ok {S A B : Type} (c : Rand S A) (k : A -> Rand S B)
    (s s' : S) (a : A) :
  c s = Ok (a, s') -> bind c k s = k a s'.
Proof. intros Hc. unfold bind. rewrite Hc. reflexivity. Qed.

Lemma bind_lift {S A B : Type} (f : S -> A * S) (k : A -> Rand S B) (s : S) :
  bind (lift f) k s = k (fst (f s)) (snd (f s)).
Proof. unfold bind, lift. destruct (f s). reflexivity. Qed.

Lemma cidades_nao_vazia (regiao : string) :
  In regiao regioes -> cidades regiao <> [].
Proof.
  unfold regioes. simpl.
  intros [<- | [<- | [<- | [<- | [<- | []]]]]]; vm_compute; discriminate.
Qed.

Lemma map_nth_error_seq {A : Type} (l : list A) :
  map (fun j => nth_error l j) (seq 0 (length l)) = map Some l.
Proof.
  induction l as [| a l IH]; simpl.
  - reflexivity.
  - f_equal. rewrite <- seq_shift, map_map. simpl. assumption.
Qed.

Lemma map_Some_inj {A : Type} (l1 l2 : list A) :
  map Some l1 = map Some l2 -> l1 = l2.
Proof.
  revert l2. induction l1 as [| a l1 IH]; intros [| b l2] H; simpl in H;
    try discriminate.
  - reflexivity.
  - injection H as -> H. f_equal. apply IH. assumption.
Qed.

Section Registros.
Context {S : Type} `{NpRandom S}.
Hypothesis Hchoice : choice_ok S.

Lemma choice_Ok {A : Type} (l : list A) (s : S) :
  l <> [] -> exists x s', choice l s = Ok (x, s') /\ In x l.
Proof.
  intros Hne. unfold choice. rewrite bind_lift.
  destruct Hchoice as [Hc _].
  assert (Hlen : (0 < length l)%nat)
    by (destruct l; [congruence | simpl; lia]).
  pose proof (Hc s (length l) Hlen) as Hi.
  destruct (nth_error_lt_Some l _ Hi) as [x Hx].
  rewrite Hx. exists x, (snd (np_choice s (length l))).
  split; [reflexivity |]. eapply nth_error_In. eassumption.
Qed.

Lemma choice_p_Ok {A : Type} (l : list A) (p : list Q) (s : S) :
  length l = length p -> l <> [] ->
  exists x s', choice_p l p s = Ok (x, s') /\ In x l.
Proof.
  intros Hlp Hne. unfold choice_p. rewrite bind_lift.
  destruct Hchoice as [_ Hc].
  assert (Hlen : (0 < length p)%nat)
    by (rewrite <- Hlp; destruct l; [congruence | simpl; lia]).
  pose proof (Hc s p Hlen) as Hi. rewrite <- Hlp in Hi.
  destruct (nth_error_lt_Some l _ Hi) as [x Hx].
  rewrite Hx. exists x, (snd (np_choice_p s p)).
  split; [reflexivity |]. eapply nth_error_In. eassumption.
Qed.

Lemma gerar_registro_Ok (datas : list Timestamp) (i : Z) (d : Timestamp)
    (s : S) :
  nth_error datas (Z.to_nat i) = Some d ->
  exists r s', gerar_registro datas i s = Ok (r, s') /\ r_Data r = d.
Proof.
  intros Hd. unfold gerar_registro.
  destruct (choice_Ok categorias s ltac:(discriminate))
    as [cat [s1 [Hcat _]]].
  rewrite (bind_Ok _ _ _ _ _ Hcat).
  destruct (choice_Ok regioes s1 ltac:(discriminate))
    as [reg [s2 [Hreg Hin]]].
  rewrite (bind_Ok _ _ _ _ _ Hreg).
  destruct (choice_Ok (cidades reg) s2 (cidades_nao_vazia reg Hin))
    as [cid [s3 [Hcid _]]].
  rewrite (bind_Ok _ _ _ _ _ Hcid).
  destruct (precos_base cat) as [preco_min preco_max].
  rewrite bind_lift.
  set (s4 := snd (np_uniform s3 preco_min preco_max)).
  rewrite bind_lift.
  set (s5 := snd (np_randint s4 1 10)).
  destruct (choice_p_Ok [0; 5; 10; 15; 20; 25; 30]
              [3 # 10; 2 # 10; 15 # 100; 15 # 100; 1 # 10; 5 # 100;
               5 # 100]%Q s5 eq_refl ltac:(discriminate))
    as [desc [s6 [Hdesc _]]].
  rewrite (bind_Ok _ _ _ _ _ Hdesc).
  destruct (choice_p_Ok [Concluida; Pendente; Cancelada]
              [85 # 100; 1 # 10; 5 # 100]%Q s6 eq_refl ltac:(discriminate))
    as [st [s7 [Hst _]]].
  rewrite (bind_Ok _ _ _ _ _ Hst).
  destruct (choice_p_Ok
              ["Cartão Crédito"; "Cartão Débito"; "PIX"; "Boleto"]%string
              [4 # 10; 2 # 10; 3 # 10; 1 # 10]%Q s7 eq_refl
              ltac:(discriminate))
    as [met [s8 [Hmet _]]].
  rewrite (bind_Ok _ _ _ _ _ Hmet).
  rewrite Hd. rewrite bind_lift. rewrite bind_lift.
  unfold ret. eexists. eexists. split; reflexivity.
Qed.

Lemma mapM_gerar_registro_Ok (datas : list Timestamp) (idx : list Z) :
  (forall i, In i idx -> (Z.to_nat i < length datas)%nat) ->
  forall s : S,
  exists dados s',
    mapM (gerar_registro datas) idx s = Ok (dados, s') /\
    map (fun r => Some (r_Data r)) dados =
    map (fun i => nth_error datas (Z.to_nat i)) idx.
Proof.
  induction idx as [| i idx IH]; intros Hidx s.
  - exists [], s. split; reflexivity.
  - destruct (nth_error_lt_Some datas (Z.to_nat i)
                (Hidx i (or_introl eq_refl))) as [d Hd].
    destruct (gerar_registro_Ok datas i d s Hd) as [r [s1 [Hr Hdata]]].
    destruct (IH (fun j Hj => Hidx j (or_intror Hj)) s1)
      as [dados [s2 [Hdados Hmap]]].
    exists (r :: dados), s2. split.
    + cbn [mapM]. rewrite (bind_Ok _ _ _ _ _ Hr).
      rewrite (bind_Ok _ _ _ _ _ Hdados). reflexivity.
    + simpl. rewrite Hdata, Hd, Hmap. reflexivity.
Qed.

(** Over the positions [range n] of a list of [n] dates the loop writes
    the dates in list order. *)
Lemma mapM_gerar_registro_datas (datas : list Timestamp) (s : S) :
  exists dados s',
    mapM (gerar_registro datas) (range (len datas)) s = Ok (dados, s') /\
    map r_Data dados = datas.
Proof.
  destruct (mapM_gerar_registro_Ok datas (range (len datas))) with (s := s)
    as [dados [s' [Hm Hmap]]].
  - intros i Hi. apply In_range in Hi. unfold len in Hi. lia.
  - exists dados, s'. split; [assumption |].
    apply map_Some_inj. rewrite map_map.
    rewrite Hmap. unfold range, len. rewrite Nat2Z.id, map_map.
    rewrite <- map_nth_error_seq. apply map_ext.
    intros j. rewrite Nat2Z.id. reflexivity.
Qed.
End Registros.

(** ** The generator as a whole *)

Lemma construir_frame_Ok (dados : list Registro) :
  dados <> [] ->
  (forall r, In r dados -> Timestamp_min <= r_Data r <= Timestamp_max) ->
  construir_frame dados = Ok (map linha dados).
Proof.
  intros Hne Hall. unfold construir_frame.
  destruct dados as [| r0 dados0] eqn:Ed; [congruence |]. rewrite <- Ed in *.
  assert (Hf : forallb (fun r => no_intervalo (r_Data r)) dados = true).
  { apply forallb_forall. intros r Hr. unfold no_intervalo.
    apply andb_true_intro. split; apply Z.leb_le; apply Hall; assumption. }
  rewrite Hf. reflexivity.
Qed.

Lemma map_Data_linha (dados : list Registro) :
  map Data (map linha dados) = map r_Data dados.
Proof. rewrite map_map. reflexivity. Qed.

(** Counting the rows dated from [t] on is counting in the date column. *)
Lemma conta_por_data (t : Timestamp) (d : DataFrame) :
  len (filter (fun r => t <=? Data r) d)
    = len (filter (fun x => t <=? x) (map Data d)).
Proof.
  unfold len. f_equal.
  induction d as [| r d IH]; [reflexivity |]. simpl.
  destruct (t <=? Data r); simpl; rewrite IH; reflexivity.
Qed.

(** Of the consecutive days [inicio], [inicio + 1 day], ..., the ones from
    day [c] on. *)
Lemma conta_dias_a_partir_nat (inicio : Z) (c k : nat) :
  length (filter (fun x => inicio + Timedelta_days (Z.of_nat c) <=? x)
                 (map (fun x => inicio + Timedelta_days x)
                      (map Z.of_nat (seq 0 k))))
    = (k - c)%nat.
Proof.
  induction k as [| k IH]; [reflexivity |].
  rewrite seq_S, !map_app, filter_app, length_app, IH.
  cbn [map filter Nat.add].
  match goal with
  | |- context [if ?b then _ else _] => destruct b eqn:El
  end;
    [apply Z.leb_le in El | apply Z.leb_gt in El];
    unfold Timedelta_days in El; cbn [length]; lia.
Qed.

Lemma conta_dias_a_partir (inicio t c n : Z) :
  0 <= c <= n ->
  t = inicio + Timedelta_days c ->
  len (filter (fun x => t <=? x)
              (map (fun x => inicio + Timedelta_days x) (range n)))
    = n - c.
Proof.
  intros Hc ->. unfold range, len.
  pose proof (conta_dias_a_partir_nat inicio (Z.to_nat c) (Z.to_nat n))
    as Hk.
  rewrite Z2Nat.id in Hk by lia. rewrite Hk. lia.
Qed.

Section Gerador.
Context {SPy SNp : Type} `{PyRandom SPy} `{NpRandom SNp}.
Hypothesis Hrand : randbelow_ok SPy.
Hypothesis Hchoice : choice_ok SNp.

(** For a valid seed, a count of at least 1 and dates inside the
    datetime64[ns] range, the generator returns a frame whose dates are
    the consecutive days from 365 days before the clock reading. *)
Lemma gerar_dados_vendas_Ok (w : Mundo SPy SNp) (n seed : Z) :
  0 <= seed <= 2 ^ 32 - 1 ->
  1 <= n ->
  Timestamp_min <= relogio w - Timedelta_days 365 ->
  relogio w + Timedelta_days (n - 366) <= Timestamp_max ->
  exists d,
    gerar_dados_vendas w n seed = Ok d /\
    map Data d =
      map (fun x => relogio w - Timedelta_days 365 + Timedelta_days x)
          (range n).
Proof.
  intros Hseed Hn Hmin Hmax. unfold gerar_dados_vendas.
  assert (Hs : (0 <=? seed) && (seed <=? 2 ^ 32 - 1) = true)
    by (apply andb_true_intro; split; apply Z.leb_le; lia).
  rewrite Hs. cbn [negb relogio estado_py estado_np].
  set (datas := map (fun x => relogio w - Timedelta_days 365
                              + Timedelta_days x) (range n)).
  assert (Hlen : len datas = n).
  { unfold datas, len. rewrite length_map. apply (len_range n). lia. }
  replace (random_sample datas n (py_seed seed))
    with (random_sample datas (len datas) (py_seed seed))
    by (rewrite Hlen; reflexivity).
  destruct (random_sample_tudo Hrand datas (py_seed seed))
    as [amostra [st' [Ha Hperm]]].
  rewrite Ha.
  assert (Hsorted : sorted amostra = datas)
    by (apply sorted_de_permutacao; [apply dias_crescentes | assumption]).
  rewrite Hsorted.
  replace (range n) with (range (len datas))
    by (rewrite Hlen; reflexivity).
  destruct (mapM_gerar_registro_datas Hchoice datas (np_seed seed))
    as [dados [s' [Hm Hdatas]]].
  unfold Timestamp in *. rewrite Hm.
  rewrite construir_frame_Ok.
  - exists (map linha dados). split; [reflexivity |].
    rewrite map_Data_linha. assumption.
  - intros Hnil. rewrite Hnil in Hdatas. simpl in Hdatas.
    rewrite <- Hdatas in Hlen. unfold len in Hlen. simpl in Hlen. lia.
  - intros r Hr.
    assert (Hin : In (r_Data r) datas)
      by (rewrite <- Hdatas; apply in_map; assumption).
    unfold datas in Hin. apply in_map_iff in Hin.
    destruct Hin as [x [Hx Hxr]]. apply In_range in Hxr.
    unfold Timedelta_days in *. lia.
Qed.

(** What the dates of a generated frame do satisfy: for every count of at
    least 1 and every seed numpy accepts, with the dates inside the
    timestamp range, the generator returns exactly [n] records, their dates
    are strictly ascending, hence distinct, each a whole number of days
    after the start of the window; and for a count of at most 365 every
    date is in the 365-day window that ends at the clock reading. *)
Theorem gerar_dados_vendas_datas_distintas
    (w : Mundo SPy SNp) (n seed : Z) :
  0 <= seed <= 2 ^ 32 - 1 ->
  1 <= n ->
  Timestamp_min <= relogio w - Timedelta_days 365 ->
  relogio w + Timedelta_days (n - 366) <= Timestamp_max ->
  exists d,
    gerar_dados_vendas w n seed = Ok d /\
    len d = n /\
    StronglySorted Z.lt (map Data d) /\
    NoDup (map Data d) /\
    (forall r, In r d ->
       exists k, 0 <= k /\
         Data r = relogio w - Timedelta_days 365 + Timedelta_days k) /\
    (n <= 365 ->
     forall r, In r d ->
       relogio w - Timedelta_days 365 <= Data r < relogio w).
Proof.
  intros Hseed Hn Hmin Hmax.
  destruct (gerar_dados_vendas_Ok w n seed Hseed Hn Hmin Hmax)
    as [d [Hd Hdatas]].
  assert (Hdia : forall r, In r d ->
            exists k, 0 <= k < n /\
              Data r = relogio w - Timedelta_days 365 + Timedelta_days k).
  { intros r Hr.
    assert (Hin : In (Data r) (map Data d)) by (apply in_map; assumption).
    rewrite Hdatas in Hin. apply in_map_iff in Hin.
    destruct Hin as [k [Hk Hkr]]. apply In_range in Hkr.
    exists k. split; [assumption | symmetry; assumption]. }
  assert (Hsort : StronglySorted Z.lt (map Data d))
    by (rewrite Hdatas; apply dias_crescentes).
  exists d. split; [assumption |]. split.
  { unfold len. rewrite <- (length_map Data d), Hdatas, length_map.
    apply (len_range n). lia. }
  split; [assumption |].
  split; [apply crescente_NoDup; assumption |].
  split.
  - intros r Hr. destruct (Hdia r Hr) as [k [Hk Hkr]].
    exists k. split; [lia | assumption].
  - intros H365 r Hr. destruct (Hdia r Hr) as [k [Hk Hkr]].
    rewrite Hkr. unfold Timedelta_days. lia.
Qed.

(** C1: the dates are meant to be drawn from the last twelve months, and
    the code samples and sorts them to that end, but its population is one
    day per record, not the days of the window.  For every count above 365
    (valid seed, dates inside the timestamp range) nothing is refused: the
    generator returns [n] records, of which [n - 365] are dated at or after
    the clock reading, one on each of the [n - 365] days from the clock
    reading on. *)
Theorem gerar_dados_vendas_fora_da_janela (w : Mundo SPy SNp) (n seed : Z) :
  0 <= seed <= 2 ^ 32 - 1 ->
  365 < n ->
  Timestamp_min <= relogio w - Timedelta_days 365 ->
  relogio w + Timedelta_days (n - 366) <= Timestamp_max ->
  exists d,
    gerar_dados_vendas w n seed = Ok d /\
    len d = n /\
    len (filter (fun r => relogio w <=? Data r) d) = n - 365 /\
    (forall k, 0 <= k < n - 365 ->
       exists r, In r d /\ Data r = relogio w + Timedelta_days k).
Proof.
  intros Hseed Hn Hmin Hmax.
  destruct (gerar_dados_vendas_Ok w n seed Hseed ltac:(lia) Hmin Hmax)
    as [d [Hd Hdatas]].
  exists d. split; [assumption |]. split.
  { unfold len. rewrite <- (length_map Data d), Hdatas, length_map.
    apply (len_range n). lia. }
  split.
  - rewrite (conta_por_data (relogio w) d), Hdatas.
    rewrite (conta_dias_a_partir (relogio w - Timedelta_days 365)
                                 (relogio w) 365 n);
      [lia | lia | unfold Timedelta_days; lia].
  - intros k Hk.
    assert (Hin : In (relogio w + Timedelta_days k) (map Data d)).
    { rewrite Hdatas. apply in_map_iff. exists (k + 365). split.
      - unfold Timedelta_days. lia.
      - apply In_range. lia. }
    apply in_map_iff in Hin. destruct Hin as [r [Hr Hrd]].
    exists r. split; assumption.
Qed.
End Gerador.

(** ** The draws do not depend on the dates *)

Section Independencia.
Context {S : Type} `{NpRandom S}.

Lemma gerar_registro_sem_data (da db : list Timestamp) (i : Z) (s : S)
    (ra rb : Registro) (sa sb : S) :
  gerar_registro da i s = Ok (ra, sa) ->
  gerar_registro db i s = Ok (rb, sb) ->
  sa = sb /\ sem_data (linha ra) = sem_data (linha rb).
Proof.
  unfold gerar_registro, bind, lift, ret, raise.
  intros Ha Hb.
  destruct (nth_error da (Z.to_nat i)) as [ta |];
  destruct (nth_error db (Z.to_nat i)) as [tb |];
  repeat match type of Ha with
         | context [match ?x with Ok _ => _ | Erro _ => _ end] =>
             destruct x as [[? ?] | ?]; try discriminate
         | context [let (_, _) := ?x in _] => destruct x
         | context [match ?x with Some _ => _ | None => _ end] =>
             destruct x; try discriminate
         end;
  try discriminate.
  injection Ha as <- <-. injection Hb as <- <-.
  split; reflexivity.
Qed.

Lemma mapM_gerar_registro_sem_data (da db : list Timestamp) (idx : list Z) :
  forall (s : S) (la lb : list Registro) (sa sb : S),
    mapM (gerar_registro da) idx s = Ok (la, sa) ->
    mapM (gerar_registro db) idx s = Ok (lb, sb) ->
    sa = sb /\
    map sem_data (map linha la) = map sem_data (map linha lb).
Proof.
  induction idx as [| i idx IH]; intros s la lb sa sb Ha Hb.
  - cbn in Ha, Hb. unfold ret in Ha, Hb.
    injection Ha as <- <-. injection Hb as <- <-. split; reflexivity.
  - cbn [mapM] in Ha, Hb. unfold bind at 1 in Ha. unfold bind at 1 in Hb.
    destruct (gerar_registro da i s) as [[ra s1] |] eqn:Ea;
      [| discriminate].
    destruct (gerar_registro db i s) as [[rb s2] |] eqn:Eb;
      [| discriminate].
    destruct (gerar_registro_sem_data da db i s ra rb s1 s2 Ea Eb)
      as [<- Hr].
    unfold bind at 1 in Ha. unfold bind at 1 in Hb.
    destruct (mapM (gerar_registro da) idx s1) as [[la' sa'] |] eqn:Ema;
      [| discriminate].
    destruct (mapM (gerar_registro db) idx s1) as [[lb' sb'] |] eqn:Emb;
      [| discriminate].
    destruct (IH s1 la' lb' sa' sb' Ema Emb) as [<- Hl].
    unfold ret in Ha, Hb.
    injection Ha as <- <-. injection Hb as <- <-.
    split; [reflexivity |]. simpl. rewrite Hr, Hl. reflexivity.
Qed.
End Independencia.

Section Determinismo.
Context {SPy SNp : Type} `{PyRandom SPy} `{NpRandom SNp}.

(** C5, as amended: two calls with the same count and seed whose clock
    readings agree return the same result, whatever the state of the two
    global generators before each call; and whatever the clock readings,
    two returned frames agree on every column except the date and the
    calendar columns derived from it. *)
Theorem gerar_dados_vendas_deterministico
    (w1 w2 : Mundo SPy SNp) (n seed : Z) :
  (relogio w1 = relogio w2 ->
   gerar_dados_vendas w1 n seed = gerar_dados_vendas w2 n seed) /\
  (forall d1 d2,
     gerar_dados_vendas w1 n seed = Ok d1 ->
     gerar_dados_vendas w2 n seed = Ok d2 ->
     map sem_data d1 = map sem_data d2).
Proof.
  split.
  - intros Hclock. unfold gerar_dados_vendas.
    cbn [relogio estado_py estado_np]. rewrite Hclock. reflexivity.
  - intros d1 d2. unfold gerar_dados_vendas.
    cbn [relogio estado_py estado_np].
    destruct (negb ((0 <=? seed) && (seed <=? 2 ^ 32 - 1)));
      [discriminate |].
    destruct (random_sample _ n (py_seed seed)) as [[a1 p1] |];
      [| discriminate].
    destruct (random_sample _ n (py_seed seed)) as [[a2 p2] |];
      [| discriminate].
    destruct (mapM (gerar_registro (sorted a1)) (range n) (np_seed seed))
      as [[l1 s1] |] eqn:E1; [| discriminate].
    destruct (mapM (gerar_registro (sorted a2)) (range n) (np_seed seed))
      as [[l2 s2] |] eqn:E2; [| discriminate].
    destruct (mapM_gerar_registro_sem_data _ _ _ _ _ _ _ _ E1 E2)
      as [_ Hl].
    unfold construir_frame.
    destruct l1 as [| r1 l1]; [discriminate |].
    destruct l2 as [| r2 l2]; [discriminate |].
    destruct (forallb _ (r1 :: l1)); [| discriminate].
    destruct (forallb _ (r2 :: l2)); [| discriminate].
    intros Hd1 Hd2. injection Hd1 as <-. injection Hd2 as <-.
    exact Hl.
Qed.
End Determinismo.

(** ** The model run on the concrete generator *)

Lemma PyLcg_randbelow_ok : randbelow_ok Z.
Proof.
  intros s n Hn. simpl.
  pose proof (Z.mod_pos_bound s (Z.of_nat n) ltac:(lia)). lia.
Qed.

Lemma NpLcg_choice_ok : choice_ok Z.
Proof.
  split.
  - intros s n Hn. simpl.
    pose proof (Z.mod_pos_bound s (Z.of_nat n) ltac:(lia)). lia.
  - intros s p Hp. simpl. unfold len.
    pose proof (Z.mod_pos_bound s (Z.of_nat (length p)) ltac:(lia)). lia.
Qed.

Lemma gerar_dados_vendas_datas_distintas_witness :
  exists d,
    gerar_dados_vendas (mundo_teste agora_teste 0) 100 7 = Ok d /\
    len d = 100 /\
    NoDup (map Data d) /\
    (forall r, In r d ->
       agora_teste - Timedelta_days 365 <= Data r < agora_teste).
Proof.
  destruct (gerar_dados_vendas_datas_distintas
              PyLcg_randbelow_ok NpLcg_choice_ok
              (mundo_teste agora_teste 0) 100 7)
    as [d [Hd [Hlen [_ [Hnd [_ Hwin]]]]]].
  - vm_compute. split; discriminate.
  - lia.
  - vm_compute. discriminate.
  - vm_compute. discriminate.
  - exists d. split; [exact Hd |]. split; [exact Hlen |].
    split; [exact Hnd |]. apply Hwin. lia.
Defined.

Lemma gerar_dados_vendas_fora_da_janela_witness :
  exists d,
    gerar_dados_vendas (mundo_teste agora_teste 0) 2000 42 = Ok d /\
    len d = 2000 /\
    len (filter (fun r => agora_teste <=? Data r) d) = 1635.
Proof.
  destruct (gerar_dados_vendas_fora_da_janela
              PyLcg_randbelow_ok NpLcg_choice_ok
              (mundo_teste agora_teste 0) 2000 42)
    as (d & Hd & Hlen & Hfora & _).
  - vm_compute. split; discriminate.
  - lia.
  - vm_compute. discriminate.
  - vm_compute. discriminate.
  - exists d. split; [exact Hd |]. split; [exact Hlen | exact Hfora].
Defined.

(** The same at a count of 367 with seed 7, by running the generator: 367
    records are returned, not a failure, and one of the dates is after the
    clock reading. *)
Lemma gerar_dados_vendas_contraexemplo :
  match gerar_dados_vendas (mundo_teste agora_teste 0) 367 7 with
  | Ok d => (len d =? 367) && existsb (fun r => agora_teste <? Data r) d
  | Erro _ => false
  end = true.
Proof. vm_compute. reflexivity. Qed.

Lemma gerar_dados_vendas_deterministico_witness :
  gerar_dados_vendas (mundo_teste agora_teste 1) 100 7 =
  gerar_dados_vendas (mundo_teste agora_teste 2) 100 7.
Proof.
  apply (gerar_dados_vendas_deterministico
           (mundo_teste agora_teste 1) (mundo_teste agora_teste 2) 100 7).
  reflexivity.
Defined.

(** C5, as stated, fails: the same count and seed at two clock readings one
    second apart give different frames. *)
Lemma gerar_dados_vendas_relogio_contraexemplo :
  gerar_dados_vendas (mundo_teste agora_teste 0) 1 42 <>
  gerar_dados_vendas
    (mundo_teste (agora_teste + Timedelta_seconds 1) 0) 1 42.
Proof. vm_compute. discriminate. Qed.

(* ================================================================== *)
(** * Further properties of the filters *)

Lemma filter_true {A : Type} (l : list A) : filter (fun _ => true) l = l.
Proof. apply filter_id. reflexivity. Qed.

Lemma filtrar_coluna_teste (col : Venda -> string) (s : option selecao)
    (d : DataFrame) :
  filtrar_coluna col s d = filter (teste_coluna col s) d.
Proof.
  unfold filtrar_coluna, teste_coluna.
  destruct (truthy s) eqn:E.
  - destruct s as [[l | x] |]; try reflexivity. discriminate.
  - symmetry. apply filter_true.
Qed.

(** Every filter call keeps the rows that pass its test. *)
Lemma executar_filtro_df (o : operacao) (p : DataProcessor) :
  e_filtro o = true -> df (executar p o) = filter (teste o) (df p).
Proof.
  destruct o as [i f | s | s | s |]; intros Hf; try discriminate;
    unfold teste; simpl; try apply filtrar_coluna_teste.
  destruct i as [a |], f as [b |]; simpl.
  - apply filter_filter.
  - apply filter_ext. intros r. rewrite andb_true_r. reflexivity.
  - reflexivity.
  - symmetry. apply filter_true.
Qed.

(** A chain of filter calls keeps the rows that pass every test. *)
Lemma executar_todas_df (ops : list operacao) :
  forallb e_filtro ops = true ->
  forall p : DataProcessor,
    df (executar_todas ops p) =
    filter (fun r => forallb (fun o => teste o r) ops) (df p).
Proof.
  unfold executar_todas.
  induction ops as [| o ops IH]; intros Hf p.
  - simpl. symmetry. apply filter_true.
  - simpl in Hf. apply andb_prop in Hf. destruct Hf as [Ho Hops].
    simpl. rewrite (IH Hops), (executar_filtro_df o p Ho).
    apply filter_filter.
Qed.

Lemma forallb_perm {A : Type} (f : A -> bool) (l l' : list A) :
  Permutation l l' -> forallb f l = forallb f l'.
Proof.
  induction 1 as [| x l l' _ IH | x y l | l l' l'' _ IH1 _ IH2]; simpl.
  - reflexivity.
  - rewrite IH. reflexivity.
  - destruct (f x), (f y); reflexivity.
  - congruence.
Qed.

Lemma processor_eq (p q : DataProcessor) :
  df p = df q -> df_original p = df_original q -> p = q.
Proof. destruct p, q. simpl. intros -> ->. reflexivity. Qed.

(** X1: the filter calls commute.  Two chains of date, status, category and
    region filter calls that differ only in the order of the calls leave the
    processor in the same state. *)
Theorem filtros_comutam (ops ops' : list operacao) (p : DataProcessor) :
  forallb e_filtro ops = true ->
  Permutation ops ops' ->
  executar_todas ops p = executar_todas ops' p.
Proof.
  intros Hf Hperm.
  assert (Hf' : forallb e_filtro ops' = true)
    by (rewrite <- (forallb_perm e_filtro _ _ Hperm); assumption).
  apply processor_eq.
  - rewrite (executar_todas_df ops Hf), (executar_todas_df ops' Hf').
    apply filter_ext. intros r. apply forallb_perm. assumption.
  - rewrite !executar_todas_df_original. reflexivity.
Qed.

Lemma filtros_comutam_witness :
  executar_todas
    [OpStatus (Some (Lista [Concluida]));
     OpPeriodo (Some (ArgDate 19737)) None] (init frame_misto) =
  executar_todas
    [OpPeriodo (Some (ArgDate 19737)) None;
     OpStatus (Some (Lista [Concluida]))] (init frame_misto).
Proof.
  apply filtros_comutam.
  - reflexivity.
  - apply perm_swap.
Defined.

(** X2: repeating filter calls changes nothing.  A chain of filter calls
    run twice in a row leaves the processor as after the first run. *)
Theorem filtros_idempotentes (ops : list operacao) (p : DataProcessor) :
  forallb e_filtro ops = true ->
  executar_todas (ops ++ ops) p = executar_todas ops p.
Proof.
  intros Hf.
  assert (Hff : forallb e_filtro (ops ++ ops) = true)
    by (rewrite forallb_app, Hf; reflexivity).
  apply processor_eq.
  - rewrite (executar_todas_df _ Hff), (executar_todas_df _ Hf).
    apply filter_ext. intros r. rewrite forallb_app.
    destruct (forallb (fun o => teste o r) ops); reflexivity.
  - rewrite !executar_todas_df_original. reflexivity.
Qed.

Lemma filtros_idempotentes_witness :
  executar_todas
    [OpCategoria (Some (Escalar "Livros"));
     OpCategoria (Some (Escalar "Livros"))] (init frame_misto) =
  executar_todas [OpCategoria (Some (Escalar "Livros"))] (init frame_misto).
Proof.
  apply (filtros_idempotentes [OpCategoria (Some (Escalar "Livros"))]).
  reflexivity.
Defined.

(** X3: a label filter with a non-empty list keeps, in their order, exactly
    the rows whose label is in the list, and a single non-empty label
    behaves as the list holding it. *)
Theorem filtro_por_lista_exato
    (col : Venda -> string) (v : string) (l : list string) (x : string)
    (d : DataFrame) (r : Venda) :
  x <> ""%string ->
  (In r (filtrar_coluna col (Some (Lista (v :: l))) d) <->
   In r d /\ In (col r) (v :: l)) /\
  filtrar_coluna col (Some (Escalar x)) d =
    filtrar_coluna col (Some (Lista [x])) d /\
  (In r (filtrar_coluna col (Some (Escalar x)) d) <->
   In r d /\ col r = x).
Proof.
  intros Hx. split; [| split].
  - unfold filtrar_coluna. simpl truthy. cbv iota.
    rewrite filter_In, isin_In. reflexivity.
  - destruct x as [| c x]; [congruence |].
    unfold filtrar_coluna. simpl truthy. cbv iota.
    apply filter_ext. intros a. unfold isin. simpl.
    symmetry. apply orb_false_r.
  - destruct x as [| c x]; [congruence |].
    unfold filtrar_coluna. simpl truthy. cbv iota.
    rewrite filter_In, String.eqb_eq. reflexivity.
Qed.

Lemma filtro_por_lista_exato_witness :
  filtrar_coluna Status (Some (Escalar Cancelada)) frame_misto =
  filtrar_coluna Status (Some (Lista [Cancelada])) frame_misto.
Proof.
  apply (filtro_por_lista_exato Status Concluida [] Cancelada frame_misto
           (venda_teste jan15 "Livros" Cancelada 30)).
  discriminate.
Defined.

(** ** The date filter and the application's initial selection *)

Lemma date_limites (t : Timestamp) :
  Timedelta_days (date t) <= t < Timedelta_days (date t) + Timedelta_days 1.
Proof.
  unfold date, dias_desde_epoca, Timedelta_days.
  pose proof (Z.div_mod t (1 * 86400000000000) ltac:(lia)) as Hdm.
  pose proof (Z.mod_pos_bound t (1 * 86400000000000) ltac:(lia)) as Hb.
  lia.
Qed.

(** X4: on timestamps that are whole milliseconds, the date filter between
    two dates keeps exactly the rows whose calendar day lies between them,
    both days included. *)
Theorem filtrar_por_periodo_dias_inteiros
    (p : DataProcessor) (d1 d2 : Z) :
  (forall r, In r (df p) -> Data r mod Timedelta_milliseconds 1 = 0) ->
  df (filtrar_por_periodo (Some (ArgDate d1)) (Some (ArgDate d2)) p) =
  filter (fun r => (d1 <=? date (Data r)) && (date (Data r) <=? d2)) (df p).
Proof.
  intros Hms. unfold filtrar_por_periodo. cbn [df]. rewrite filter_filter.
  assert (Hgen : forall l : DataFrame,
    (forall r, In r l -> Data r mod Timedelta_milliseconds 1 = 0) ->
    filter (fun x => (to_datetime (ArgDate d1) <=? Data x) &&
                     (Data x <=? fim_inclusivo (ArgDate d2))) l =
    filter (fun r => (d1 <=? date (Data r)) && (date (Data r) <=? d2)) l).
  { induction l as [| a l IH]; intros Hl; [reflexivity |].
    cbn [filter]. rewrite IH by (intros r Hr; apply Hl; right; assumption).
    assert (Hbool : (to_datetime (ArgDate d1) <=? Data a) &&
                    (Data a <=? fim_inclusivo (ArgDate d2)) =
                    (d1 <=? date (Data a)) && (date (Data a) <=? d2)).
    { pose proof (date_limites (Data a)) as Hd.
      pose proof (Hl a (or_introl eq_refl)) as Hm.
      apply Z.mod_divide in Hm;
        [| unfold Timedelta_milliseconds; lia].
      destruct Hm as [k Hk].
      unfold fim_inclusivo, to_datetime, Timedelta_days,
        Timedelta_milliseconds in *.
      apply eq_true_iff_eq.
      rewrite !andb_true_iff, !Z.leb_le. lia. }
    rewrite Hbool. reflexivity. }
  apply Hgen. assumption.
Qed.

Lemma filtrar_por_periodo_dias_inteiros_witness :
  df (filtrar_por_periodo (Some (ArgDate 19737)) (Some (ArgDate 19768))
        (init frame_misto)) =
  filter (fun r => (19737 <=? date (Data r)) && (date (Data r) <=? 19768))
         frame_misto.
Proof.
  apply (filtrar_por_periodo_dias_inteiros (init frame_misto)).
  intros r Hr. simpl in Hr.
  destruct Hr as [Hr | [Hr | [Hr | [Hr | []]]]]; subst r; reflexivity.
Defined.

Lemma fold_max_ge (l : list Z) (a : Z) :
  a <= fold_left Z.max l a /\
  (forall x, In x l -> x <= fold_left Z.max l a).
Proof.
  revert a. induction l as [| y l IH]; intros a; simpl.
  - split; [lia | contradiction].
  - destruct (IH (Z.max a y)) as [H1 H2]. split; [lia |].
    intros x [<- | Hx]; [lia | apply H2; assumption].
Qed.

Lemma fold_max_In (l : list Z) (a : Z) :
  fold_left Z.max l a = a \/ In (fold_left Z.max l a) l.
Proof.
  revert a. induction l as [| y l IH]; intros a; simpl.
  - left. reflexivity.
  - destruct (IH (Z.max a y)) as [H | H]; [| right; right; assumption].
    rewrite H. destruct (Z.max_spec a y) as [[_ ->] | [_ ->]];
      [right; left; reflexivity | left; reflexivity].
Qed.

Lemma fold_min_le (l : list Z) (a : Z) :
  fold_left Z.min l a <= a /\
  (forall x, In x l -> fold_left Z.min l a <= x).
Proof.
  revert a. induction l as [| y l IH]; intros a; simpl.
  - split; [lia | contradiction].
  - destruct (IH (Z.min a y)) as [H1 H2]. split; [lia |].
    intros x [<- | Hx]; [lia | apply H2; assumption].
Qed.

Lemma unique_incl_sub (col : Venda -> string) (v d : DataFrame) :
  subsequencia v d ->
  incl (map col v) (unique String.eqb (map col d)).
Proof.
  intros Hsub x Hx. apply unique_In.
  apply in_map_iff in Hx. destruct Hx as [r [<- Hr]].
  apply in_map. apply (subsequencia_In v d); assumption.
Qed.

Lemma subsequencia_length {A : Type} (l1 l2 : list A) :
  subsequencia l1 l2 -> (length l1 <= length l2)%nat.
Proof. induction 1; simpl; lia. Qed.

Lemma filtrar_por_periodo_subsequencia
    (ini fim : option arg_data) (p : DataProcessor) :
  subsequencia (df (filtrar_por_periodo ini fim p)) (df p).
Proof.
  change (filtrar_por_periodo ini fim p) with (executar p (OpPeriodo ini fim)).
  rewrite (executar_filtro_df (OpPeriodo ini fim) p eq_refl).
  apply subsequencia_filter.
Qed.

Lemma filter_eq_all {A : Type} (f : A -> bool) (l : list A) :
  filter f l = l -> forall x, In x l -> f x = true.
Proof.
  induction l as [| a l IH]; intros Heq x Hx; [contradiction |].
  simpl in Heq. destruct (f a) eqn:E.
  - injection Heq as Heq. destruct Hx as [<- | Hx]; [assumption |].
    apply IH; assumption.
  - exfalso.
    pose proof (subsequencia_length _ _ (subsequencia_filter f l)) as Hlen.
    rewrite Heq in Hlen. simpl in Hlen. lia.
Qed.

(** With the initial selection, the label filters of the chain keep every
    row the date filter kept. *)
Lemma aplicar_filtros_iniciais (r0 : Venda) (d0 : DataFrame) :
  exists s,
    selecoes_iniciais (r0 :: d0) = Some s /\
    aplicar_filtros (r0 :: d0) s =
    filter (fun r => (Timedelta_days (date (Data_min r0 d0)) <=? Data r) &&
                     (Data r <=? fim_inclusivo
                                   (ArgDate (date (Data_max r0 d0)))))
           (r0 :: d0).
Proof.
  eexists. split; [reflexivity |].
  unfold aplicar_filtros, get_dataframe.
  cbn [sel_data_inicio sel_data_fim sel_status sel_categorias sel_regioes].
  unfold filtrar_por_regiao, filtrar_por_categoria, filtrar_por_status.
  cbn [df].
  set (v := df (filtrar_por_periodo _ _ (init (r0 :: d0)))).
  assert (Hv : subsequencia v (r0 :: d0))
    by (apply (filtrar_por_periodo_subsequencia _ _ (init (r0 :: d0)))).
  rewrite (filtrar_coluna_completa Status _ v (unique_incl_sub Status _ _ Hv)).
  rewrite (filtrar_coluna_completa Categoria _ v
             (unique_incl_sub Categoria _ _ Hv)).
  rewrite (filtrar_coluna_completa Região _ v
             (unique_incl_sub Região _ _ Hv)).
  unfold v, filtrar_por_periodo. cbn [df init]. apply filter_filter.
Qed.

(** X5: with the widgets of the application untouched (first and last day
    of the data, every option selected), the filter chain of [main] shows
    every row of a non-empty frame exactly when the latest timestamp is not
    in the last millisecond of its day; otherwise the latest rows are
    missing from the view. *)
Theorem selecao_inicial_mostra_tudo (r0 : Venda) (d0 : DataFrame) :
  exists s,
    selecoes_iniciais (r0 :: d0) = Some s /\
    (aplicar_filtros (r0 :: d0) s = r0 :: d0 <->
     Data_max r0 d0 mod Timedelta_days 1
       <= Timedelta_days 1 - Timedelta_milliseconds 1).
Proof.
  destruct (aplicar_filtros_iniciais r0 d0) as [s [Hs Hf]].
  exists s. split; [assumption |]. rewrite Hf.
  pose proof (fold_max_ge (map Data d0) (Data r0)) as [Hmax0 Hmax].
  pose proof (fold_min_le (map Data d0) (Data r0)) as [Hmin0 Hmin].
  fold (Data_max r0 d0) in Hmax0, Hmax. fold (Data_min r0 d0) in Hmin0, Hmin.
  pose proof (date_limites (Data_min r0 d0)) as Hdmin.
  pose proof (Z.div_mod (Data_max r0 d0) (Timedelta_days 1)
                ltac:(unfold Timedelta_days; lia)) as Hdm.
  fold (dias_desde_epoca (Data_max r0 d0)) in Hdm.
  fold (date (Data_max r0 d0)) in Hdm.
  split.
  - intros Hall.
    assert (Hin : In (Data_max r0 d0) (map Data (r0 :: d0))).
    { unfold Data_max. simpl.
      destruct (fold_max_In (map Data d0) (Data r0)) as [-> | H];
        [left; reflexivity | right; assumption]. }
    apply in_map_iff in Hin. destruct Hin as [r [Hr Hrin]].
    pose proof (filter_eq_all _ _ Hall r Hrin) as Ht.
    apply andb_prop in Ht. destruct Ht as [_ Ht]. apply Z.leb_le in Ht.
    rewrite Hr in Ht.
    unfold fim_inclusivo, to_datetime, Timedelta_days,
      Timedelta_milliseconds in *. lia.
  - intros Htod. apply filter_id. intros r Hr.
    assert (Hle : Data_min r0 d0 <= Data r <= Data_max r0 d0).
    { destruct Hr as [<- | Hr]; [lia |].
      split; [apply Hmin | apply Hmax]; apply in_map; assumption. }
    apply andb_true_intro. split; apply Z.leb_le.
    + lia.
    + unfold fim_inclusivo, to_datetime, Timedelta_days,
        Timedelta_milliseconds in *. lia.
Qed.

(* ================================================================== *)
(** * Further properties of the metrics *)

Lemma len_cons {A : Type} (a : A) (l : list A) : len (a :: l) = len l + 1.
Proof. unfold len. simpl length. lia. Qed.

Lemma len_nonneg {A : Type} (l : list A) : 0 <= len l.
Proof. unfold len. lia. Qed.

(** The three status counts never exceed the size of the frame, and reach
    it when every status is one of the three labels. *)
Lemma contagens_por_status (d : DataFrame) :
  len (com_status Concluida d) + len (com_status Cancelada d)
    + len (com_status Pendente d) <= len d /\
  ((forall r, In r d -> In (Status r) [Concluida; Pendente; Cancelada]) ->
   len (com_status Concluida d) + len (com_status Cancelada d)
     + len (com_status Pendente d) = len d).
Proof.
  unfold com_status. induction d as [| a d [IHle IHeq]].
  - split; [unfold len; simpl; lia | reflexivity].
  - cbn [filter].
    destruct (String.eqb (Status a) Concluida) eqn:Ec;
    destruct (String.eqb (Status a) Cancelada) eqn:Ex;
    destruct (String.eqb (Status a) Pendente) eqn:Ep;
    try (apply String.eqb_eq in Ec); try (apply String.eqb_eq in Ex);
    try (apply String.eqb_eq in Ep);
    try (rewrite Ec in Ex; discriminate);
    try (rewrite Ec in Ep; discriminate);
    try (rewrite Ex in Ep; discriminate);
    rewrite ?len_cons;
    (split;
     [lia
     | intros Hall;
       try (specialize (IHeq (fun r Hr => Hall r (or_intror Hr))); lia)]).
    exfalso.
    destruct (Hall a (or_introl eq_refl)) as [H | [H | [H | []]]];
      symmetry in H; apply String.eqb_eq in H; congruence.
Qed.

(** X6: the completed, cancelled and pending counts of the metrics never
    add up to more than the rows of the view; when the view has a completed
    sale and no status other than the three labels, they add up to exactly
    the rows of the view. *)
Theorem metricas_contagens_particao (p : DataProcessor) :
  total_vendas (calcular_metricas_vendas p)
    + vendas_canceladas (calcular_metricas_vendas p)
    + vendas_pendentes (calcular_metricas_vendas p) <= len (df p) /\
  (com_status Concluida (df p) <> [] ->
   (forall r, In r (df p) -> In (Status r) [Concluida; Pendente; Cancelada]) ->
   total_vendas (calcular_metricas_vendas p)
     + vendas_canceladas (calcular_metricas_vendas p)
     + vendas_pendentes (calcular_metricas_vendas p) = len (df p)).
Proof.
  destruct (contagens_por_status (df p)) as [Hle Heq].
  unfold calcular_metricas_vendas.
  destruct (len (com_status Concluida (df p)) =? 0) eqn:E.
  - apply len_nil_iff in E. split.
    + cbn [total_vendas vendas_canceladas vendas_pendentes].
      pose proof (len_nonneg (df p)). lia.
    + intros Hne. contradiction.
  - cbn [total_vendas vendas_canceladas vendas_pendentes].
    split; [assumption |]. intros _ Hall. apply Heq. assumption.
Qed.

Lemma Qmax_spec (a b : Q) : (a <= Qmax a b)%Q /\ (b <= Qmax a b)%Q.
Proof.
  unfold Qmax. destruct (Qle_bool a b) eqn:E.
  - apply Qle_bool_iff in E. split; [assumption | apply Qle_refl].
  - split; [apply Qle_refl |].
    apply Qlt_le_weak. apply Qnot_le_lt. intros H.
    apply Qle_bool_iff in H. congruence.
Qed.

Lemma Qmin_spec (a b : Q) : (Qmin a b <= a)%Q /\ (Qmin a b <= b)%Q.
Proof.
  unfold Qmin. destruct (Qle_bool a b) eqn:E.
  - apply Qle_bool_iff in E. split; [apply Qle_refl | assumption].
  - split; [| apply Qle_refl].
    apply Qlt_le_weak. apply Qnot_le_lt. intros H.
    apply Qle_bool_iff in H. congruence.
Qed.

Lemma fold_Qmax_ge (l : list Q) (a : Q) :
  (a <= fold_left Qmax l a)%Q /\
  (forall x, In x l -> (x <= fold_left Qmax l a)%Q).
Proof.
  revert a. induction l as [| y l IH]; intros a; simpl.
  - split; [apply Qle_refl | contradiction].
  - destruct (IH (Qmax a y)) as [H1 H2].
    destruct (Qmax_spec a y) as [Ha Hy]. split.
    + eapply Qle_trans; eassumption.
    + intros x [<- | Hx]; [eapply Qle_trans; eassumption | apply H2, Hx].
Qed.

Lemma fold_Qmin_le (l : list Q) (a : Q) :
  (fold_left Qmin l a <= a)%Q /\
  (forall x, In x l -> (fold_left Qmin l a <= x)%Q).
Proof.
  revert a. induction l as [| y l IH]; intros a; simpl.
  - split; [apply Qle_refl | contradiction].
  - destruct (IH (Qmin a y)) as [H1 H2].
    destruct (Qmin_spec a y) as [Ha Hy]. split.
    + eapply Qle_trans; eassumption.
    + intros x [<- | Hx]; [eapply Qle_trans; eassumption | apply H2, Hx].
Qed.

Lemma minimo_maximo (l : list Q) (x : Q) :
  In x l -> (minimo l <= x)%Q /\ (x <= maximo l)%Q.
Proof.
  destruct l as [| a l]; [contradiction |]. simpl.
  destruct (fold_Qmin_le l a) as [Hm0 Hm].
  destruct (fold_Qmax_ge l a) as [HM0 HM].
  intros [<- | Hx]; split; auto.
Qed.

Lemma fold_Qmin_In (l : list Q) (a : Q) : In (fold_left Qmin l a) (a :: l).
Proof.
  revert a. induction l as [| y l IH]; intros a; [left; reflexivity |].
  cbn [fold_left].
  assert (Hc : Qmin a y = a \/ Qmin a y = y)
    by (unfold Qmin; destruct (Qle_bool a y); auto).
  destruct (IH (Qmin a y)) as [H | H].
  - rewrite <- H. destruct Hc as [Hc | Hc]; rewrite Hc.
    + left. reflexivity.
    + right. left. reflexivity.
  - right. right. exact H.
Qed.

Lemma fold_Qmax_In (l : list Q) (a : Q) : In (fold_left Qmax l a) (a :: l).
Proof.
  revert a. induction l as [| y l IH]; intros a; [left; reflexivity |].
  cbn [fold_left].
  assert (Hc : Qmax a y = a \/ Qmax a y = y)
    by (unfold Qmax; destruct (Qle_bool a y); auto).
  destruct (IH (Qmax a y)) as [H | H].
  - rewrite <- H. destruct Hc as [Hc | Hc]; rewrite Hc.
    + left. reflexivity.
    + right. left. reflexivity.
  - right. right. exact H.
Qed.

(** The minimum and the maximum of a non-empty column are entries of it. *)
Lemma minimo_maximo_In (l : list Q) :
  l <> [] -> In (minimo l) l /\ In (maximo l) l.
Proof.
  destruct l as [| a l]; [congruence |]. intros _.
  split; [apply fold_Qmin_In | apply fold_Qmax_In].
Qed.

(** The median of a column of odd length is an entry of it. *)
Lemma mediana_impar_In (l : list Q) :
  Nat.odd (length l) = true -> In (mediana l) l.
Proof.
  intros Hodd. unfold mediana.
  assert (Hlen : length (ordenar Qle_bool l) = length l)
    by (apply Permutation_length, ordenar_perm).
  rewrite Hlen, <- Nat.negb_odd, Hodd. cbn [negb].
  apply (Permutation_in _ (ordenar_perm Qle_bool l)).
  apply nth_In. rewrite Hlen.
  apply Nat.div_lt; [| lia].
  destruct l; [discriminate | simpl; lia].
Qed.

Lemma mediana_limites (l : list Q) (lo hi : Q) :
  l <> [] ->
  (forall x, In x l -> (lo <= x)%Q /\ (x <= hi)%Q) ->
  (lo <= mediana l)%Q /\ (mediana l <= hi)%Q.
Proof.
  intros Hne Hall. unfold mediana.
  set (s := ordenar Qle_bool l).
  assert (Hs : forall x, In x s -> (lo <= x)%Q /\ (x <= hi)%Q).
  { intros x Hx. apply Hall.
    apply (Permutation_in _ (ordenar_perm Qle_bool l)). assumption. }
  assert (Hlen : (0 < length s)%nat).
  { unfold s. rewrite (Permutation_length (ordenar_perm Qle_bool l)).
    destruct l; [congruence | simpl; lia]. }
  assert (Hhalf : (length s / 2 < length s)%nat)
    by (apply Nat.div_lt; lia).
  destruct (Nat.even (length s)).
  - destruct (Hs _ (nth_In s 0%Q Hhalf)) as [H1 H2].
    assert (Hprev : (length s / 2 - 1 < length s)%nat) by lia.
    destruct (Hs _ (nth_In s 0%Q Hprev)) as [H3 H4].
    split.
    + apply Qle_shift_div_l; [reflexivity |].
      setoid_replace (lo * 2)%Q with (lo + lo)%Q by ring.
      apply Qplus_le_compat; assumption.
    + apply Qle_shift_div_r; [reflexivity |].
      setoid_replace (hi * 2)%Q with (hi + hi)%Q by ring.
      apply Qplus_le_compat; assumption.
  - apply Hs. apply nth_In. assumption.
Qed.

(** X7: when the view has a completed sale, the smallest and the largest
    revenue reported are net totals of completed sales and every net total
    of a completed sale lies between them; with an odd number of completed
    sales the median ticket is the net total of a completed sale too; and
    when no net total exceeds 10^300 in absolute value, so that the sum of
    two of them is a float64 number, the median ticket lies between the
    smallest and the largest revenue. *)
Theorem metricas_ticket_entre_minimo_e_maximo (p : DataProcessor) :
  com_status Concluida (df p) <> [] ->
  In (receita_minima (calcular_metricas_vendas p))
     (map Valor_Final (com_status Concluida (df p))) /\
  In (receita_maxima (calcular_metricas_vendas p))
     (map Valor_Final (com_status Concluida (df p))) /\
  (forall r, In r (com_status Concluida (df p)) ->
     (receita_minima (calcular_metricas_vendas p) <= Valor_Final r)%Q /\
     (Valor_Final r <= receita_maxima (calcular_metricas_vendas p))%Q) /\
  (Nat.odd (length (com_status Concluida (df p))) = true ->
   In (ticket_mediano (calcular_metricas_vendas p))
      (map Valor_Final (com_status Concluida (df p)))) /\
  ((forall r, In r (com_status Concluida (df p)) ->
      (- inject_Z (10 ^ 300) <= Valor_Final r)%Q /\
      (Valor_Final r <= inject_Z (10 ^ 300))%Q) ->
   (receita_minima (calcular_metricas_vendas p)
      <= ticket_mediano (calcular_metricas_vendas p))%Q /\
   (ticket_mediano (calcular_metricas_vendas p)
      <= receita_maxima (calcular_metricas_vendas p))%Q).
Proof.
  intros Hne. unfold calcular_metricas_vendas.
  destruct (len (com_status Concluida (df p)) =? 0) eqn:E.
  - apply len_nil_iff in E. contradiction.
  - cbn [receita_minima receita_maxima ticket_mediano].
    set (v := map Valor_Final (com_status Concluida (df p))).
    assert (Hv : v <> []).
    { unfold v. destruct (com_status Concluida (df p));
        [congruence | discriminate]. }
    destruct (minimo_maximo_In v Hv) as [Hmin Hmax].
    split; [exact Hmin |]. split; [exact Hmax |]. split.
    { intros r Hr. apply minimo_maximo. unfold v. apply in_map. exact Hr. }
    split.
    { intros Hodd. apply mediana_impar_In. unfold v.
      rewrite length_map. exact Hodd. }
    intros _. apply mediana_limites; [exact Hv | apply minimo_maximo].
Qed.

Lemma metricas_ticket_entre_minimo_e_maximo_witness :
  In (receita_minima (calcular_metricas_vendas (init frame_misto)))
     (map Valor_Final (com_status Concluida (df (init frame_misto)))) /\
  (receita_minima (calcular_metricas_vendas (init frame_misto))
     <= ticket_mediano (calcular_metricas_vendas (init frame_misto)))%Q.
Proof.
  destruct (metricas_ticket_entre_minimo_e_maximo (init frame_misto))
    as (Hmin & _ & _ & _ & Hmed).
  - discriminate.
  - split; [exact Hmin |]. apply Hmed.
    intros r Hr. vm_compute in Hr.
    destruct Hr as [<- | [<- | []]]; split; vm_compute; discriminate.
Defined.

Lemma filter_false {A : Type} (f : A -> bool) (l : list A) :
  (forall x, In x l -> f x = false) -> filter f l = [].
Proof.
  induction l as [| a l IH]; intros Hall; simpl; [reflexivity |].
  rewrite (Hall a (or_introl eq_refl)). apply IH.
  intros x Hx. apply Hall. right. assumption.
Qed.

(** The rows of one status in a view filtered by a non-empty status list:
    the rows of that status if it is in the list, none otherwise. *)
Lemma com_status_filtrado (s v : string) (l : list string) (d : DataFrame) :
  com_status s (filtrar_coluna Status (Some (Lista (v :: l))) d) =
  if isin (v :: l) s then com_status s d else [].
Proof.
  unfold com_status, filtrar_coluna. simpl truthy. cbv iota.
  rewrite filter_filter.
  destruct (isin (v :: l) s) eqn:E.
  - apply filter_ext. intros r.
    destruct (String.eqb (Status r) s) eqn:Es.
    + apply String.eqb_eq in Es. rewrite Es, E. reflexivity.
    + apply andb_false_r.
  - apply filter_false. intros r _.
    destruct (String.eqb (Status r) s) eqn:Es.
    + apply String.eqb_eq in Es. rewrite Es, E. reflexivity.
    + apply andb_false_r.
Qed.

(** X8: a status filter that keeps 'Concluída' selected does not change any
    revenue metric (count of sales, total revenue, mean and median ticket,
    units, largest and smallest net total, mean discount); if the view has a
    completed sale, the cancelled count becomes 0 when 'Cancelada' is not
    selected and is unchanged when it is. *)
Theorem metricas_apos_filtro_de_status
    (p : DataProcessor) (l : list string) :
  In Concluida l ->
  total_vendas (calcular_metricas_vendas
                  (filtrar_por_status (Some (Lista l)) p))
    = total_vendas (calcular_metricas_vendas p) /\
  receita_total (calcular_metricas_vendas
                   (filtrar_por_status (Some (Lista l)) p))
    = receita_total (calcular_metricas_vendas p) /\
  ticket_medio (calcular_metricas_vendas
                  (filtrar_por_status (Some (Lista l)) p))
    = ticket_medio (calcular_metricas_vendas p) /\
  ticket_mediano (calcular_metricas_vendas
                    (filtrar_por_status (Some (Lista l)) p))
    = ticket_mediano (calcular_metricas_vendas p) /\
  total_produtos (calcular_metricas_vendas
                    (filtrar_por_status (Some (Lista l)) p))
    = total_produtos (calcular_metricas_vendas p) /\
  receita_maxima (calcular_metricas_vendas
                    (filtrar_por_status (Some (Lista l)) p))
    = receita_maxima (calcular_metricas_vendas p) /\
  receita_minima (calcular_metricas_vendas
                    (filtrar_por_status (Some (Lista l)) p))
    = receita_minima (calcular_metricas_vendas p) /\
  desconto_medio (calcular_metricas_vendas
                    (filtrar_por_status (Some (Lista l)) p))
    = desconto_medio (calcular_metricas_vendas p) /\
  vendas_canceladas (calcular_metricas_vendas
                       (filtrar_por_status (Some (Lista l)) p))
    = (if isin l Cancelada
       then vendas_canceladas (calcular_metricas_vendas p) else 0).
Proof.
  intros Hin. destruct l as [| v l]; [contradiction |].
  apply isin_In in Hin.
  unfold calcular_metricas_vendas, filtrar_por_status. cbn [df].
  rewrite !com_status_filtrado, Hin.
  destruct (len (com_status Concluida (df p)) =? 0);
    cbn [total_vendas receita_total ticket_medio ticket_mediano
         total_produtos receita_maxima receita_minima desconto_medio
         vendas_canceladas];
    repeat (split; [reflexivity |]);
    destruct (isin (v :: l) Cancelada); reflexivity.
Qed.

Lemma metricas_apos_filtro_de_status_witness :
  receita_total (calcular_metricas_vendas
                   (filtrar_por_status (Some (Lista [Concluida]))
                                       (init frame_misto)))
    = receita_total (calcular_metricas_vendas (init frame_misto)).
Proof.
  apply (metricas_apos_filtro_de_status (init frame_misto) [Concluida]).
  left. reflexivity.
Defined.

(* ================================================================== *)
(** * Further properties of the aggregate tables *)

(** Insertion sort under a total and transitive boolean order gives a
    sorted list. *)
Section Ordenacao.
Context {A : Type} (leb : A -> A -> bool).
Hypothesis leb_total : forall a b, leb a b = true \/ leb b a = true.
Hypothesis leb_trans :
  forall a b c, leb a b = true -> leb b c = true -> leb a c = true.

Lemma inserir_ordenado (x : A) (l : list A) :
  StronglySorted (fun a b => leb a b = true) l ->
  StronglySorted (fun a b => leb a b = true) (inserir leb x l).
Proof.
  induction 1 as [| y l Hs IH Hy]; simpl.
  - repeat constructor.
  - destruct (leb x y) eqn:E.
    + constructor; [constructor; assumption |].
      constructor; [assumption |].
      eapply Forall_impl; [| exact Hy]. intros z Hz. simpl in Hz.
      eapply leb_trans; eassumption.
    + constructor; [assumption |].
      apply Forall_forall. intros z Hz.
      apply (Permutation_in _ (inserir_perm leb x l)) in Hz.
      destruct Hz as [<- | Hz].
      * destruct (leb_total x y) as [H | H]; [congruence | assumption].
      * rewrite Forall_forall in Hy. apply Hy. assumption.
Qed.

Lemma ordenar_ordenado (l : list A) :
  StronglySorted (fun a b => leb a b = true) (ordenar leb l).
Proof.
  induction l as [| x l IH]; simpl.
  - constructor.
  - apply inserir_ordenado. assumption.
Qed.
End Ordenacao.

Lemma StronglySorted_mono {A : Type} (R R' : A -> A -> Prop) (l : list A) :
  (forall a b, R a b -> R' a b) -> StronglySorted R l -> StronglySorted R' l.
Proof.
  intros Himp. induction 1 as [| a l Hs IH Ha]; constructor.
  - assumption.
  - eapply Forall_impl; [| exact Ha]. intros b. apply Himp.
Qed.

Lemma ordenar_desc_ordenado {A : Type} (rev : A -> Q) (l : list A) :
  StronglySorted (fun a b => (rev b <= rev a)%Q)
    (ordenar (fun a b => Qle_bool (rev b) (rev a)) l).
Proof.
  apply (StronglySorted_mono
           (fun a b => Qle_bool (rev b) (rev a) = true)).
  { intros a b H. apply Qle_bool_iff. exact H. }
  apply (ordenar_ordenado (fun a b => Qle_bool (rev b) (rev a))).
  - intros a b.
    destruct (Qle_bool (rev b) (rev a)) eqn:E; [left; reflexivity |].
    right. apply Qle_bool_iff. apply Qlt_le_weak. apply Qnot_le_lt.
    intros H. apply Qle_bool_iff in H. congruence.
  - intros a b c Hab Hbc. apply Qle_bool_iff in Hab, Hbc.
    apply Qle_bool_iff. eapply Qle_trans; eassumption.
Qed.

Lemma soma_int_indicador_fora (x : string) (v : Z) (keys : list string) :
  ~ In x keys ->
  soma_int (map (fun k => if String.eqb x k then v else 0) keys) = 0.
Proof.
  induction keys as [| k keys IH]; simpl; intros Hnot.
  - reflexivity.
  - destruct (String.eqb x k) eqn:E.
    + apply String.eqb_eq in E. exfalso. apply Hnot. left. congruence.
    + rewrite IH; [reflexivity | tauto].
Qed.

Lemma soma_int_indicador (x : string) (v : Z) (keys : list string) :
  NoDup keys -> In x keys ->
  soma_int (map (fun k => if String.eqb x k then v else 0) keys) = v.
Proof.
  induction 1 as [| k keys Hk Hnd IH]; simpl; intros Hin.
  - contradiction.
  - destruct (String.eqb x k) eqn:E.
    + apply String.eqb_eq in E. subst k.
      rewrite soma_int_indicador_fora; [lia | assumption].
    + destruct Hin as [Heq | Hin].
      * subst k. rewrite String.eqb_refl in E. discriminate.
      * rewrite IH; [lia | assumption].
Qed.

Lemma soma_int_map_plus {A : Type} (g h : A -> Z) (l : list A) :
  soma_int (map (fun k => g k + h k) l) =
  soma_int (map g l) + soma_int (map h l).
Proof.
  induction l as [| k l IH]; simpl; [reflexivity | rewrite IH; lia].
Qed.

(** The integer counterpart of [soma_por_chave]. *)
Lemma soma_int_por_chave (col : Venda -> string) (f : Venda -> Z)
    (keys : list string) (d : DataFrame) :
  NoDup keys ->
  (forall r, In r d -> In (col r) keys) ->
  soma_int (map (fun k =>
              soma_int (map f (filter (fun r => String.eqb (col r) k) d)))
            keys)
  = soma_int (map f d).
Proof.
  intros Hnd. induction d as [| a d IH]; intros Hcov.
  - simpl. clear Hnd Hcov.
    induction keys as [| k keys IHk]; simpl; [reflexivity | assumption].
  - transitivity
      (soma_int (map (fun k =>
         (if String.eqb (col a) k then f a else 0) +
         soma_int (map f (filter (fun r => String.eqb (col r) k) d)))
         keys)).
    + apply f_equal. apply map_ext. intros k. simpl.
      destruct (String.eqb (col a) k); simpl; lia.
    + rewrite soma_int_map_plus.
      rewrite (soma_int_indicador (col a) (f a) keys Hnd
                 (Hcov a (or_introl eq_refl))).
      rewrite (IH (fun r Hr => Hcov r (or_intror Hr))).
      reflexivity.
Qed.

Lemma soma_int_uns {A : Type} (l : list A) :
  soma_int (map (fun _ => 1) l) = len l.
Proof.
  induction l as [| a l IH]; [reflexivity |].
  change (soma_int (map (fun _ => 1) (a :: l)))
    with (1 + soma_int (map (fun _ : A => 1) l)).
  rewrite IH, len_cons. lia.
Qed.

Lemma soma_int_perm (l l' : list Z) :
  Permutation l l' -> soma_int l = soma_int l'.
Proof.
  unfold soma_int. induction 1; simpl; lia.
Qed.

(** Over the groups of [groupby], the group sizes add up to the size of
    the frame and the group sums of an integer column to its sum. *)
Lemma groupby_somas (col : Venda -> string) (f : Venda -> Z)
    (d : DataFrame) :
  soma_int (map (fun g => soma_int (map f (snd g))) (groupby col d))
    = soma_int (map f d) /\
  soma_int (map (fun g => len (snd g)) (groupby col d)) = len d.
Proof.
  destruct (chaves_groupby col d) as [Hnd Hcov].
  unfold groupby. rewrite !map_map. cbn [snd]. split.
  - apply soma_int_por_chave; assumption.
  - rewrite <- (soma_int_uns d).
    rewrite <- (soma_int_por_chave col (fun _ => 1) _ d Hnd Hcov).
    apply f_equal. apply map_ext. intros k. symmetry. apply soma_int_uns.
Qed.

Lemma groupby_chaves (col : Venda -> string) (d : DataFrame) :
  map fst (groupby col d) =
  ordenar String.leb (unique String.eqb (map col d)).
Proof.
  unfold groupby. rewrite map_map. cbn [fst]. apply map_id.
Qed.

Lemma groupby_grupo (col : Venda -> string) (d : DataFrame)
    (g : string * DataFrame) :
  In g (groupby col d) ->
  snd g = filter (fun r => String.eqb (col r) (fst g)) d /\
  snd g <> [] /\
  subsequencia (snd g) d.
Proof.
  unfold groupby. intros Hg. apply in_map_iff in Hg.
  destruct Hg as [k [<- Hk]]. cbn [fst snd].
  split; [reflexivity |]. split; [| apply subsequencia_filter].
  apply (Permutation_in _ (ordenar_perm String.leb _)) in Hk.
  rewrite unique_In in Hk. apply in_map_iff in Hk.
  destruct Hk as [r [Hr Hin]].
  intros Hnil.
  assert (Hrin : In r (filter (fun r0 => String.eqb (col r0) k) d)).
  { apply filter_In. split; [assumption |]. apply String.eqb_eq.
    assumption. }
  rewrite Hnil in Hrin. contradiction.
Qed.

Lemma len_pos {A : Type} (l : list A) : l <> [] -> 1 <= len l.
Proof.
  destruct l; [congruence |]. intros _. rewrite len_cons.
  pose proof (len_nonneg l). lia.
Qed.

(** X9: the category table has exactly one row for each category with a
    completed sale, rows ordered by revenue from the largest down, and each
    row counts the completed sales of its category, at least one. *)
Theorem analise_por_categoria_estrutura (p : DataProcessor) :
  NoDup (map chave (analise_por_categoria p)) /\
  (forall k, In k (map chave (analise_por_categoria p)) <->
             In k (map Categoria (com_status Concluida (df p)))) /\
  StronglySorted (fun a b => (Receita_Total b <= Receita_Total a)%Q)
                 (analise_por_categoria p) /\
  (forall row, In row (analise_por_categoria p) ->
     1 <= Num_Vendas row /\
     Num_Vendas row =
       len (filter (fun r => String.eqb (Categoria r) (chave row))
                   (com_status Concluida (df p)))).
Proof.
  unfold analise_por_categoria.
  destruct (len (com_status Concluida (df p)) =? 0) eqn:E.
  - apply len_nil_iff in E. rewrite E. simpl.
    split; [constructor |]. split; [tauto |].
    split; [constructor | contradiction].
  - set (d := com_status Concluida (df p)).
    unfold sort_values_desc.
    set (leb := fun a b => Qle_bool (Receita_Total b) (Receita_Total a)).
    assert (Hperm : Permutation
                      (map chave (ordenar leb
                                    (map agregar_categoria
                                         (groupby Categoria d))))
                      (ordenar String.leb
                               (unique String.eqb (map Categoria d)))).
    { eapply perm_trans;
        [apply Permutation_map; apply ordenar_perm |].
      rewrite map_map.
      replace (map (fun x => chave (agregar_categoria x))
                   (groupby Categoria d))
        with (map fst (groupby Categoria d))
        by (apply map_ext; intros [k rows]; reflexivity).
      rewrite groupby_chaves. apply Permutation_refl. }
    destruct (chaves_groupby Categoria d) as [Hnd _].
    split; [apply (Permutation_NoDup (Permutation_sym Hperm) Hnd) |].
    split.
    { intros k. split; intros Hk.
      - apply (Permutation_in _ Hperm) in Hk.
        apply (Permutation_in _ (ordenar_perm String.leb _)) in Hk.
        rewrite unique_In in Hk. assumption.
      - apply (Permutation_in _ (Permutation_sym Hperm)).
        apply (Permutation_in _ (Permutation_sym
                                   (ordenar_perm String.leb _))).
        apply unique_In. assumption. }
    split; [apply (ordenar_desc_ordenado Receita_Total) |].
    intros row Hrow.
    apply (Permutation_in _ (ordenar_perm leb _)) in Hrow.
    apply in_map_iff in Hrow. destruct Hrow as [[k rows] [<- Hg]].
    destruct (groupby_grupo Categoria d (k, rows) Hg) as [Hrows [Hne _]].
    cbn [fst snd] in Hrows, Hne. cbn [agregar_categoria Num_Vendas chave].
    split; [apply len_pos; assumption | rewrite Hrows; reflexivity].
Qed.

(** X10: in the category, region and payment tables the sale counts of the
    rows add up to the number of completed sales of the metrics, and the
    units of the category table add up to the total units. *)
Theorem tabelas_somam_as_contagens (p : DataProcessor) :
  soma_int (map Num_Vendas (analise_por_categoria p))
    = total_vendas (calcular_metricas_vendas p) /\
  soma_int (map Total_Produtos (analise_por_categoria p))
    = total_produtos (calcular_metricas_vendas p) /\
  soma_int (map regiao_Num_Vendas (analise_por_regiao p))
    = total_vendas (calcular_metricas_vendas p) /\
  soma_int (map pagamento_Num_Transacoes (analise_metodo_pagamento p))
    = total_vendas (calcular_metricas_vendas p).
Proof.
  unfold analise_por_categoria, analise_por_regiao,
    analise_metodo_pagamento, calcular_metricas_vendas, sort_values_desc.
  destruct (len (com_status Concluida (df p)) =? 0) eqn:E.
  - repeat split.
  - cbn [total_vendas total_produtos].
    set (d := com_status Concluida (df p)).
    repeat split.
    + rewrite (soma_int_perm _ _
                 (Permutation_map Num_Vendas (ordenar_perm _ _))).
      rewrite map_map.
      rewrite <- (proj2 (groupby_somas Categoria (fun _ => 0) d)).
      apply f_equal. apply map_ext. intros [k rows]. reflexivity.
    + rewrite (soma_int_perm _ _
                 (Permutation_map Total_Produtos (ordenar_perm _ _))).
      rewrite map_map.
      rewrite <- (proj1 (groupby_somas Categoria Quantidade d)).
      apply f_equal. apply map_ext. intros [k rows]. reflexivity.
    + rewrite (soma_int_perm _ _
                 (Permutation_map regiao_Num_Vendas (ordenar_perm _ _))).
      rewrite map_map.
      rewrite <- (proj2 (groupby_somas Região (fun _ => 0) d)).
      apply f_equal. apply map_ext. intros [k rows]. reflexivity.
    + rewrite (soma_int_perm _ _
                 (Permutation_map pagamento_Num_Transacoes
                                  (ordenar_perm _ _))).
      rewrite !map_map.
      rewrite <- (proj2 (groupby_somas Método_Pagamento (fun _ => 0) d)).
      apply f_equal. apply map_ext. intros [k rows]. reflexivity.
Qed.

Lemma length_unique_le (l : list string) :
  (length (unique String.eqb l) <= length l)%nat.
Proof.
  induction l as [| x l IH]; simpl; [lia |].
  pose proof (subsequencia_length _ _
                (subsequencia_filter
                   (fun y => negb (String.eqb y x))
                   (unique String.eqb l))).
  lia.
Qed.

(** X11: every row of the region table counts between one city and as many
    cities as it counts sales. *)
Theorem analise_por_regiao_cidades (p : DataProcessor) (row : LinhaRegiao) :
  In row (analise_por_regiao p) ->
  1 <= regiao_Num_Cidades row <= regiao_Num_Vendas row.
Proof.
  unfold analise_por_regiao.
  destruct (len (com_status Concluida (df p)) =? 0); [contradiction |].
  intros Hrow. apply (Permutation_in _ (ordenar_perm _ _)) in Hrow.
  apply in_map_iff in Hrow. destruct Hrow as [[k rows] [<- Hg]].
  destruct (groupby_grupo Região _ (k, rows) Hg) as [_ [Hne _]].
  cbn [snd] in Hne. cbn [agregar_regiao regiao_Num_Cidades regiao_Num_Vendas].
  unfold nunique, len. split.
  - destruct rows as [| r rows]; [congruence |]. simpl. lia.
  - pose proof (length_unique_le (map Cidade rows)) as H.
    rewrite length_map in H. lia.
Qed.

Lemma analise_por_regiao_cidades_witness :
  exists row, In row (analise_por_regiao (init frame_misto)) /\
              1 <= regiao_Num_Cidades row <= regiao_Num_Vendas row.
Proof.
  eexists. split.
  - vm_compute. left. reflexivity.
  - apply (analise_por_regiao_cidades (init frame_misto)).
    vm_compute. left. reflexivity.
Defined.

Lemma StronglySorted_firstn {A : Type} (R : A -> A -> Prop) (n : nat)
    (l : list A) :
  StronglySorted R l -> StronglySorted R (firstn n l).
Proof.
  intros Hs. revert n. induction Hs as [| a l Hs IH Ha]; intros [| n];
    simpl; try constructor.
  - apply IH.
  - apply Forall_forall. intros x Hx.
    rewrite Forall_forall in Ha. apply Ha.
    rewrite <- (firstn_skipn n l). apply in_or_app. left. assumption.
Qed.

(** The seller ranking before [head]. *)
Lemma top_vendedores_ranking (n : Z) (p : DataProcessor) :
  exists ranking,
    top_vendedores n p = head n ranking /\
    (forall m, top_vendedores m p = head m ranking) /\
    len ranking = nunique (map Vendedor (com_status Concluida (df p))) /\
    StronglySorted
      (fun a b => (vendedor_Receita_Total b <= vendedor_Receita_Total a)%Q)
      ranking.
Proof.
  unfold top_vendedores.
  destruct (len (com_status Concluida (df p)) =? 0) eqn:E.
  - exists []. apply len_nil_iff in E. rewrite E.
    split; [unfold head; destruct (0 <=? n); rewrite firstn_nil;
            reflexivity |].
    split; [intros m; unfold head; destruct (0 <=? m); rewrite firstn_nil;
            reflexivity |].
    split; [reflexivity | constructor].
  - eexists. split; [reflexivity |]. split; [reflexivity |].
    split; [| apply (ordenar_desc_ordenado vendedor_Receita_Total)].
    unfold len, nunique, len.
    rewrite (Permutation_length (ordenar_perm _ _)), length_map.
    rewrite <- (length_map fst), groupby_chaves.
    rewrite (Permutation_length (ordenar_perm _ _)). reflexivity.
Qed.

(** X12: [top_vendedores(n)] for [n >= 0] has [n] rows, or one per seller
    with a completed sale if those are fewer; it is ordered by revenue from
    the largest down and is the beginning of the table for any larger [n].
    For a negative [n] nothing is raised: the table of all sellers without
    its last [-n] rows is returned, that is, the table of all sellers is the
    table returned followed by [-n] more rows (by all of its rows when it
    has fewer than [-n], the table returned being empty then). *)
Theorem top_vendedores_primeiros (n m : Z) (p : DataProcessor) :
  (0 <= n ->
   len (top_vendedores n p) =
     Z.min n (nunique (map Vendedor (com_status Concluida (df p))))) /\
  (0 <= n <= m ->
   top_vendedores n p = firstn (Z.to_nat n) (top_vendedores m p)) /\
  (n < 0 ->
   len (top_vendedores n p) =
     Z.max 0 (nunique (map Vendedor (com_status Concluida (df p))) + n)) /\
  StronglySorted
    (fun a b => (vendedor_Receita_Total b <= vendedor_Receita_Total a)%Q)
    (top_vendedores n p) /\
  (n < 0 ->
   exists fim,
     top_vendedores
       (nunique (map Vendedor (com_status Concluida (df p)))) p
       = top_vendedores n p ++ fim /\
     len fim
       = Z.min (- n) (nunique (map Vendedor (com_status Concluida (df p))))).
Proof.
  destruct (top_vendedores_ranking n p) as [rk [Hn [Hall [Hlen Hsort]]]].
  rewrite Hn, (Hall m),
    (Hall (nunique (map Vendedor (com_status Concluida (df p))))), <- Hlen.
  unfold head.
  split; [| split; [| split; [| split]]].
  - intros H0. apply Z.leb_le in H0. rewrite H0.
    unfold len. rewrite length_firstn. lia.
  - intros [H0 Hm].
    assert (H0m : 0 <= m) by lia.
    apply Z.leb_le in H0, H0m. rewrite H0, H0m.
    rewrite firstn_firstn. f_equal. lia.
  - intros Hneg. apply Z.leb_gt in Hneg. rewrite Hneg.
    unfold len. rewrite length_firstn. lia.
  - destruct (0 <=? n); apply StronglySorted_firstn; assumption.
  - intros Hneg. apply Z.leb_gt in Hneg. rewrite Hneg.
    assert (H0 : (0 <=? len rk) = true)
      by (apply Z.leb_le; apply len_nonneg).
    rewrite H0.
    exists (skipn (Z.to_nat (len rk + n)) rk). split.
    + rewrite firstn_skipn. unfold len. rewrite Nat2Z.id.
      apply firstn_all.
    + unfold len. rewrite length_skipn. apply Z.leb_gt in Hneg. lia.
Qed.

(** X13: the slices of the category pie chart, the unrounded revenue of the
    completed sales of each category, add up to the total revenue of the
    metrics, for every view. *)
Theorem fatias_pizza_somam_receita_total (p : DataProcessor) :
  (soma (map snd (fatias_pizza_categorias (df p)))
   == receita_total (calcular_metricas_vendas p))%Q.
Proof.
  unfold fatias_pizza_categorias, calcular_metricas_vendas.
  destruct (chaves_groupby Categoria (com_status Concluida (df p)))
    as [Hnd Hcov].
  rewrite map_map. cbn [snd]. unfold groupby. rewrite map_map. cbn [snd].
  rewrite (soma_por_chave Categoria Valor_Final _ _ Hnd Hcov).
  destruct (len (com_status Concluida (df p)) =? 0) eqn:E.
  - apply len_nil_iff in E. rewrite E. reflexivity.
  - reflexivity.
Qed.

(** ** Rounding keeps integer bounds *)

Lemma rint_limites (q : Q) (a b : Z) :
  (inject_Z a <= q)%Q -> (q <= inject_Z b)%Q -> a <= rint q <= b.
Proof.
  intros Ha Hb.
  assert (Hfa : a <= Qfloor q)
    by (rewrite <- (Qfloor_Z a); apply Qfloor_resp_le; assumption).
  assert (Hfb : Qfloor q <= b)
    by (rewrite <- (Qfloor_Z b); apply Qfloor_resp_le; assumption).
  assert (Hup : (0 < q - inject_Z (Qfloor q))%Q -> Qfloor q + 1 <= b).
  { intros Hr.
    assert (Hlt : (inject_Z (Qfloor q) < inject_Z b)%Q).
    { eapply Qlt_le_trans; [| exact Hb].
      setoid_replace q with (inject_Z (Qfloor q) + (q - inject_Z (Qfloor q)))%Q
        at 2 by ring.
      setoid_replace (inject_Z (Qfloor q))
        with (inject_Z (Qfloor q) + 0)%Q at 1 by ring.
      apply Qplus_lt_r. assumption. }
    rewrite <- Zlt_Qlt in Hlt. lia. }
  unfold rint.
  destruct (Qlt_bool (q - inject_Z (Qfloor q)) (1 # 2)) eqn:E1; [lia |].
  apply Qlt_bool_false_iff in E1.
  assert (Hr : (0 < q - inject_Z (Qfloor q))%Q)
    by (eapply Qlt_le_trans; [| exact E1]; reflexivity).
  specialize (Hup Hr).
  destruct (Qlt_bool (1 # 2) (q - inject_Z (Qfloor q))); [lia |].
  destruct (Z.even (Qfloor q)); lia.
Qed.

Lemma round2_limites (q : Q) (a b : Z) :
  (inject_Z a <= q)%Q -> (q <= inject_Z b)%Q ->
  (inject_Z a <= round2 q)%Q /\ (round2 q <= inject_Z b)%Q.
Proof.
  intros Ha Hb. unfold round2.
  destruct (rint_limites (q * 100) (a * 100) (b * 100)) as [H1 H2].
  - rewrite inject_Z_mult. apply Qmult_le_compat_r; [assumption |].
    discriminate.
  - rewrite inject_Z_mult. apply Qmult_le_compat_r; [assumption |].
    discriminate.
  - split.
    + apply Qle_shift_div_l; [reflexivity |].
      change 100%Q with (inject_Z 100). rewrite <- inject_Z_mult.
      rewrite <- Zle_Qle. assumption.
    + apply Qle_shift_div_r; [reflexivity |].
      change 100%Q with (inject_Z 100). rewrite <- inject_Z_mult.
      rewrite <- Zle_Qle. assumption.
Qed.

Lemma round2_nao_negativo (q : Q) : (0 <= q)%Q -> (0 <= round2 q)%Q.
Proof.
  intros Hq. unfold round2.
  assert (H : 0 <= rint (q * 100)).
  { unfold rint.
    assert (Hf : 0 <= Qfloor (q * 100)).
    { rewrite <- (Qfloor_Z 0). apply Qfloor_resp_le.
      apply Qmult_le_0_compat; [assumption | discriminate]. }
    destruct (Qlt_bool _ _); [lia |].
    destruct (Qlt_bool _ _); [lia |].
    destruct (Z.even _); lia. }
  apply Qle_shift_div_l; [reflexivity |].
  setoid_replace (0 * 100)%Q with (inject_Z 0) by reflexivity.
  rewrite <- Zle_Qle. assumption.
Qed.

Lemma soma_nao_negativa (l : list Q) :
  (forall x, In x l -> (0 <= x)%Q) ->
  (0 <= soma l)%Q /\ (forall x, In x l -> (x <= soma l)%Q).
Proof.
  induction l as [| a l IH]; intros Hall.
  - split; [apply Qle_refl | contradiction].
  - destruct IH as [IH0 IHx];
      [intros x Hx; apply Hall; right; assumption |].
    pose proof (Hall a (or_introl eq_refl)) as Ha. simpl soma. split.
    + setoid_replace 0%Q with (0 + 0)%Q by ring.
      apply Qplus_le_compat; assumption.
    + intros x [<- | Hx].
      * setoid_replace a with (a + 0)%Q at 1 by ring.
        apply Qplus_le_compat; [apply Qle_refl | assumption].
      * setoid_replace x with (0 + x)%Q at 1 by ring.
        apply Qplus_le_compat; [assumption | apply IHx; assumption].
Qed.

(** The percentage of one row, by the sign of the total. *)
Lemma percentual_limites (x total : Q) :
  (0 <= x)%Q -> (x <= total)%Q ->
  ((0 < total)%Q ->
   exists q,
     f64_round2 (f64_mul_pos (f64_div x total) 100) = Fin q /\
     (0 <= q)%Q /\ (q <= 100)%Q) /\
  ((total == 0)%Q ->
   f64_round2 (f64_mul_pos (f64_div x total) 100) = NaN).
Proof.
  intros Hx Hxt. unfold f64_div. split.
  - intros Hpos.
    destruct (Qeq_bool total 0) eqn:E.
    + apply Qeq_bool_iff in E. rewrite E in Hpos.
      exfalso. apply (Qlt_irrefl 0). assumption.
    + eexists. split; [reflexivity |].
      apply (round2_limites (x / total * 100) 0 100).
      * apply Qmult_le_0_compat; [| discriminate].
        apply Qle_shift_div_l; [assumption |].
        setoid_replace (0 * total)%Q with 0%Q by ring. assumption.
      * setoid_replace (inject_Z 100) with (1 * 100)%Q by reflexivity.
        apply Qmult_le_compat_r; [| discriminate].
        apply Qle_shift_div_r; [assumption |].
        setoid_replace (1 * total)%Q with total by ring. assumption.
  - intros Hz.
    assert (Hx0 : (x == 0)%Q).
    { apply Qle_antisym; [rewrite <- Hz; assumption | assumption]. }
    apply Qeq_bool_iff in Hz. apply Qeq_bool_iff in Hx0.
    rewrite Hz, Hx0. reflexivity.
Qed.

(** X14: when no completed sale has a negative net total, every percentage
    of the payment table is a number from 0 to 100 if the revenue column of
    the table has a positive sum, and is NaN, without any exception, if it
    sums to 0. *)
Theorem analise_metodo_pagamento_percentual
    (p : DataProcessor) (row : LinhaPagamento) :
  (forall r, In r (df p) -> Status r = Concluida ->
             (0 <= Valor_Final r)%Q) ->
  In row (analise_metodo_pagamento p) ->
  ((0 < soma (map pagamento_Receita_Total (analise_metodo_pagamento p)))%Q ->
   exists q, pagamento_Percentual row = Fin q /\
             (0 <= q)%Q /\ (q <= 100)%Q) /\
  ((soma (map pagamento_Receita_Total (analise_metodo_pagamento p)) == 0)%Q ->
   pagamento_Percentual row = NaN).
Proof.
  intros Hpos. unfold analise_metodo_pagamento.
  destruct (len (com_status Concluida (df p)) =? 0); [contradiction |].
  cbv zeta.
  set (analise := map agregar_pagamento
                      (groupby Método_Pagamento
                               (com_status Concluida (df p)))).
  set (total := soma (map agregado_Receita_Total analise)).
  intros Hrow. apply (Permutation_in _ (ordenar_perm _ _)) in Hrow.
  apply in_map_iff in Hrow. destruct Hrow as [a [<- Ha]].
  assert (Htot : (soma (map pagamento_Receita_Total
                          (ordenar
                             (fun a0 b =>
                                Qle_bool (pagamento_Receita_Total b)
                                         (pagamento_Receita_Total a0))
                             (map (com_percentual total) analise)))
                  == total)%Q).
  { rewrite (soma_perm _ _ (Permutation_map pagamento_Receita_Total
                              (ordenar_perm _ _))).
    rewrite map_map. reflexivity. }
  assert (Hnn : forall x, In x (map agregado_Receita_Total analise) ->
                          (0 <= x)%Q).
  { intros x Hx. apply in_map_iff in Hx. destruct Hx as [b [<- Hb]].
    unfold analise in Hb. apply in_map_iff in Hb.
    destruct Hb as [[k rows] [<- Hg]].
    destruct (groupby_grupo _ _ (k, rows) Hg) as [_ [_ Hsub]].
    cbn [snd] in Hsub. cbn [agregar_pagamento agregado_Receita_Total].
    apply round2_nao_negativo. refine (proj1 (soma_nao_negativa _ _)).
    intros v Hv. apply in_map_iff in Hv. destruct Hv as [r [<- Hr]].
    apply (subsequencia_In _ _ r Hsub) in Hr.
    unfold com_status in Hr. apply filter_In in Hr. destruct Hr as [Hr Hs].
    apply String.eqb_eq in Hs. apply Hpos; assumption. }
  destruct (soma_nao_negativa _ Hnn) as [_ Hle].
  assert (Hx : (0 <= agregado_Receita_Total a)%Q)
    by (apply Hnn; apply in_map; assumption).
  assert (Hxt : (agregado_Receita_Total a <= total)%Q)
    by (apply Hle; apply in_map; assumption).
  destruct (percentual_limites _ _ Hx Hxt) as [H1 H2].
  cbn [com_percentual pagamento_Percentual].
  split.
  - intros Ht. rewrite Htot in Ht. apply H1. assumption.
  - intros Ht. rewrite Htot in Ht. apply H2. assumption.
Qed.

Lemma analise_metodo_pagamento_percentual_witness :
  exists row q,
    In row (analise_metodo_pagamento (init frame_misto)) /\
    pagamento_Percentual row = Fin q /\ (0 <= q)%Q /\ (q <= 100)%Q.
Proof.
  assert (Hnn : forall r, In r (df (init frame_misto)) ->
                  Status r = Concluida -> (0 <= Valor_Final r)%Q).
  { intros r Hr _. simpl in Hr.
    destruct Hr as [Hr | [Hr | [Hr | [Hr | []]]]]; subst r;
      vm_compute; discriminate. }
  assert (Hex : exists row, In row (analise_metodo_pagamento
                                      (init frame_misto)))
    by (vm_compute; eexists; left; reflexivity).
  destruct Hex as [row Hrow].
  destruct (analise_metodo_pagamento_percentual
              (init frame_misto) row Hnn Hrow) as [H1 _].
  destruct H1 as [q Hq]; [vm_compute; reflexivity |].
  exists row, q. split; [exact Hrow | exact Hq].
Defined.

(* ================================================================== *)
(** * Further properties of the trend *)

Lemma unique_Z_In (l : list Z) (x : Z) : In x (unique Z.eqb l) <-> In x l.
Proof.
  induction l as [| y l IH]; simpl.
  - reflexivity.
  - rewrite filter_In, IH. split.
    + intros [H | [H _]]; [left | right]; assumption.
    + intros [H | H]; [left; assumption |].
      destruct (Z.eqb x y) eqn:E.
      * left. apply Z.eqb_eq in E. congruence.
      * right. split; [assumption | reflexivity].
Qed.

Lemma unique_Z_NoDup (l : list Z) : NoDup (unique Z.eqb l).
Proof.
  induction l as [| y l IH]; simpl.
  - constructor.
  - constructor.
    + intros Hin. apply filter_In in Hin. destruct Hin as [_ Hneq].
      rewrite Z.eqb_refl in Hneq. discriminate.
    + apply NoDup_filter. assumption.
Qed.

Lemma unique_Z_um (l : list Z) :
  (length (unique Z.eqb l) < 2)%nat <->
  (forall x y, In x l -> In y l -> x = y).
Proof.
  destruct l as [| a l]; simpl.
  - split; [contradiction | lia].
  - split.
    + intros Hlen.
      assert (Hnil : filter (fun y => negb (Z.eqb y a)) (unique Z.eqb l) = [])
        by (destruct (filter _ _); [reflexivity | simpl in Hlen; lia]).
      assert (Ha : forall x, In x l -> x = a).
      { intros x Hx. destruct (Z.eqb x a) eqn:E;
          [apply Z.eqb_eq; assumption |].
        assert (Hin : In x (filter (fun y => negb (Z.eqb y a))
                                   (unique Z.eqb l))).
        { apply filter_In. split; [apply unique_Z_In; assumption |].
          rewrite E. reflexivity. }
        rewrite Hnil in Hin. contradiction. }
      intros x y [<- | Hx] [<- | Hy]; try reflexivity.
      * symmetry. apply Ha. assumption.
      * apply Ha. assumption.
      * rewrite (Ha x Hx), (Ha y Hy). reflexivity.
    + intros Hall. rewrite filter_false; [simpl; lia |].
      intros x Hx. rewrite unique_Z_In in Hx.
      rewrite (Hall x a (or_intror Hx) (or_introl eq_refl)).
      rewrite Z.eqb_refl. reflexivity.
Qed.

Lemma sorted_NoDup_crescente (l : list Z) :
  StronglySorted Z.le l -> NoDup l -> StronglySorted Z.lt l.
Proof.
  induction 1 as [| a l Hs IH Ha]; intros Hnd.
  - constructor.
  - inversion Hnd as [| ? ? Hnot Hnd']; subst.
    constructor; [apply IH; assumption |].
    apply Forall_forall. intros x Hx.
    rewrite Forall_forall in Ha. specialize (Ha x Hx).
    assert (x <> a) by (intros ->; contradiction). simpl in Ha. lia.
Qed.

(** The months of [soma_mensal]: those of the frame, ascending without
    repetition. *)
Lemma soma_mensal_meses (d : DataFrame) :
  map fst (soma_mensal d) =
    ordenar Z.leb (unique Z.eqb (map (fun r => periodo_mensal (Data r)) d)) /\
  StronglySorted Z.lt (map fst (soma_mensal d)) /\
  (forall m, In m (map fst (soma_mensal d)) <->
             In m (map (fun r => periodo_mensal (Data r)) d)) /\
  length (soma_mensal d) =
    length (unique Z.eqb (map (fun r => periodo_mensal (Data r)) d)).
Proof.
  assert (Hk : map fst (soma_mensal d) =
    ordenar Z.leb (unique Z.eqb (map (fun r => periodo_mensal (Data r)) d))).
  { unfold soma_mensal. rewrite map_map. cbn [fst]. apply map_id. }
  split; [exact Hk |].
  pose proof (ordenar_perm Z.leb
                (unique Z.eqb (map (fun r => periodo_mensal (Data r)) d)))
    as Hperm.
  split; [| split].
  - rewrite Hk.
    assert (Hnd : NoDup (ordenar Z.leb (unique Z.eqb
                    (map (fun r => periodo_mensal (Data r)) d))))
      by (apply (Permutation_NoDup (Permutation_sym Hperm));
          apply unique_Z_NoDup).
    apply sorted_NoDup_crescente; [apply ordenar_sorted | assumption].
  - intros m. rewrite Hk. split; intros Hm.
    + apply (Permutation_in _ Hperm) in Hm. rewrite unique_Z_In in Hm.
      assumption.
    + apply (Permutation_in _ (Permutation_sym Hperm)).
      rewrite unique_Z_In. assumption.
  - rewrite <- (length_map fst), Hk. apply Permutation_length. assumption.
Qed.

Lemma classificar_nao_insuficiente (c : f64) :
  classificar c <> "Insuficiente"%string.
Proof.
  unfold classificar.
  destruct (f64_gt c 5); [discriminate |].
  destruct (f64_gt c 0); [discriminate |].
  destruct (f64_gt c (-5)); discriminate.
Qed.

(** X15: the trend is the empty dictionary exactly when the view has no
    completed sale; it is the 'Insuficiente' dictionary, with growth 0 and
    no month totals, exactly when the view has completed sales and all of
    them fall in one calendar month. *)
Theorem tendencias_casos_degenerados (p : DataProcessor) :
  (tendencias p = None <-> com_status Concluida (df p) = []) /\
  ((exists t, tendencias p = Some t /\
              tendencia t = "Insuficiente"%string) <->
   com_status Concluida (df p) <> [] /\
   (forall r r', In r (com_status Concluida (df p)) ->
                 In r' (com_status Concluida (df p)) ->
                 periodo_mensal (Data r) = periodo_mensal (Data r'))) /\
  (forall t, tendencias p = Some t ->
             tendencia t = "Insuficiente"%string ->
             crescimento_mensal t = Fin 0 /\
             ultimo_mes t = None /\ penultimo_mes t = None).
Proof.
  set (d := com_status Concluida (df p)).
  assert (Hum : (len (soma_mensal d) <? 2) = true <->
                (forall r r', In r d -> In r' d ->
                   periodo_mensal (Data r) = periodo_mensal (Data r'))).
  { destruct (soma_mensal_meses d) as [_ [_ [_ Hlen]]].
    rewrite Z.ltb_lt. unfold len. rewrite Hlen.
    pose proof (unique_Z_um (map (fun r => periodo_mensal (Data r)) d))
      as Hu.
    split.
    - intros H r r' Hr Hr'.
      apply (proj1 Hu); [lia | |];
        apply (in_map (fun r => periodo_mensal (Data r))); assumption.
    - intros H.
      assert (Hlt : (length (unique Z.eqb
                       (map (fun r => periodo_mensal (Data r)) d)) < 2)%nat).
      { apply (proj2 Hu). intros x y Hx Hy.
        apply in_map_iff in Hx. destruct Hx as [r [<- Hr]].
        apply in_map_iff in Hy. destruct Hy as [r' [<- Hr']].
        apply H; assumption. }
      lia. }
  unfold tendencias. fold d.
  destruct (len d =? 0) eqn:E.
  - apply len_nil_iff in E. split; [tauto |]. split.
    + split; [intros [t [Ht _]]; discriminate | tauto].
    + intros t Ht. discriminate.
  - assert (Hne : d <> []).
    { intros Hd. rewrite Hd in E. discriminate. }
    destruct (len (soma_mensal d) <? 2) eqn:E2.
    + split; [split; [discriminate | contradiction] |]. split.
      * split; [intros _; split; [assumption | apply Hum; reflexivity] |].
        intros _. eexists. split; reflexivity.
      * intros t Ht _. injection Ht as <-. repeat split.
    + split; [split; [discriminate | contradiction] |]. split.
      * split.
        -- intros [t [Ht Hl]]. injection Ht as <-. cbn [tendencia] in Hl.
           exfalso. exact (classificar_nao_insuficiente _ Hl).
        -- intros [_ Hall]. apply Hum in Hall. discriminate.
      * intros t Ht Hl. injection Ht as <-. cbn [tendencia] in Hl.
        exfalso. exact (classificar_nao_insuficiente _ Hl).
Qed.






(* ================================================================== *)
(** * Further properties of the generator *)

Lemma bind_inv {S A B : Type} (c : Rand S A) (k : A -> Rand S B)
    (s s2 : S) (b : B) :
  bind c k s = Ok (b, s2) ->
  exists a s1, c s = Ok (a, s1) /\ k a s1 = Ok (b, s2).
Proof.
  unfold bind. destruct (c s) as [[a s1] | e]; [| discriminate].
  intros Hk. exists a, s1. split; [reflexivity | assumption].
Qed.

Lemma lift_inv {S A : Type} (f : S -> A * S) (s s1 : S) (a : A) :
  lift f s = Ok (a, s1) -> a = fst (f s) /\ s1 = snd (f s).
Proof.
  unfold lift. intros [= H]. rewrite H. split; reflexivity.
Qed.

Section Campos.
Context {S : Type} `{NpRandom S}.

Lemma choice_In {A : Type} (l : list A) (s s1 : S) (x : A) :
  choice l s = Ok (x, s1) -> In x l.
Proof.
  unfold choice. intros Hc. apply bind_inv in Hc.
  destruct Hc as [i [s0 [_ Hc]]].
  destruct (nth_error l i) as [y |] eqn:E; [| discriminate].
  injection Hc as <- _. eapply nth_error_In. eassumption.
Qed.

Lemma choice_p_In {A : Type} (l : list A) (p : list Q) (s s1 : S) (x : A) :
  choice_p l p s = Ok (x, s1) -> In x l.
Proof.
  unfold choice_p. intros Hc. apply bind_inv in Hc.
  destruct Hc as [i [s0 [_ Hc]]].
  destruct (nth_error l i) as [y |] eqn:E; [| discriminate].
  injection Hc as <- _. eapply nth_error_In. eassumption.
Qed.

(** What one pass of the loop body writes into the dictionary. *)
Lemma gerar_registro_campos (datas : list Timestamp) (i : Z) (s s' : S)
    (r : Registro) :
  gerar_registro datas i s = Ok (r, s') ->
  In (r_Categoria r) categorias /\
  In (r_Região r) regioes /\
  In (r_Cidade r) (cidades (r_Região r)) /\
  In (r_Desconto_pct r) [0; 5; 10; 15; 20; 25; 30] /\
  In (r_Status r) [Concluida; Pendente; Cancelada] /\
  In (r_Método_Pagamento r)
     ["Cartão Crédito"; "Cartão Débito"; "PIX"; "Boleto"]%string /\
  r_Valor_Total r
    = round2 (r_Valor_Unitário r * inject_Z (r_Quantidade r)) /\
  r_Valor_Final r
    = round2 (r_Valor_Total r * (1 - inject_Z (r_Desconto_pct r) / 100)) /\
  r_ID r = ("V" ++ fmt_05d (i + 1))%string /\
  r_Produto r
    = ("Produto " ++ r_Categoria r ++ " " ++ str_int (i + 1))%string /\
  nth_error datas (Z.to_nat i) = Some (r_Data r) /\
  (exists su, r_Valor_Unitário r
     = round2 (fst (np_uniform su (fst (precos_base (r_Categoria r)))
                               (snd (precos_base (r_Categoria r)))))) /\
  (exists sq, r_Quantidade r = fst (np_randint sq 1 10)).
Proof.
  unfold gerar_registro. intros Hg.
  apply bind_inv in Hg. destruct Hg as [cat [s1 [Hcat Hg]]].
  apply bind_inv in Hg. destruct Hg as [reg [s2 [Hreg Hg]]].
  apply bind_inv in Hg. destruct Hg as [cid [s3 [Hcid Hg]]].
  destruct (precos_base cat) as [preco_min preco_max] eqn:Hpre.
  apply bind_inv in Hg. destruct Hg as [u [s4 [Hu Hg]]].
  apply lift_inv in Hu. destruct Hu as [Hu _].
  apply bind_inv in Hg. destruct Hg as [q [s5 [Hq Hg]]].
  apply lift_inv in Hq. destruct Hq as [Hq _].
  apply bind_inv in Hg. destruct Hg as [desc [s6 [Hdesc Hg]]].
  apply bind_inv in Hg. destruct Hg as [st [s7 [Hst Hg]]].
  apply bind_inv in Hg. destruct Hg as [met [s8 [Hmet Hg]]].
  destruct (nth_error datas (Z.to_nat i)) as [data |] eqn:Hd;
    [| discriminate].
  apply bind_inv in Hg. destruct Hg as [vend [s9 [_ Hg]]].
  apply bind_inv in Hg. destruct Hg as [cli [s10 [_ Hg]]].
  unfold ret in Hg. injection Hg as <- _.
  cbn [r_Categoria r_Região r_Cidade r_Desconto_pct r_Status
       r_Método_Pagamento r_Valor_Total r_Valor_Unitário r_Quantidade
       r_Valor_Final r_ID r_Produto r_Data].
  rewrite Hpre. cbn [fst snd].
  repeat split;
    try (eapply choice_In; eassumption);
    try (eapply choice_p_In; eassumption).
  - exists s3. rewrite Hu. reflexivity.
  - exists s4. rewrite Hq. reflexivity.
Qed.

Lemma mapM_Forall2 {A B : Type} (f : A -> Rand S B) (l : list A) :
  forall (s s' : S) (bs : list B),
    mapM f l s = Ok (bs, s') ->
    Forall2 (fun a b => exists s1 s2, f a s1 = Ok (b, s2)) l bs.
Proof.
  induction l as [| a l IH]; intros s s' bs Hm.
  - cbn in Hm. unfold ret in Hm. injection Hm as <- _. constructor.
  - cbn [mapM] in Hm.
    apply bind_inv in Hm. destruct Hm as [b [s1 [Hb Hm]]].
    apply bind_inv in Hm. destruct Hm as [bs' [s2 [Hbs Hm]]].
    unfold ret in Hm. injection Hm as <- _.
    constructor; [exists s, s1; assumption |].
    eapply IH. eassumption.
Qed.
End Campos.

Lemma Forall2_In_r {A B : Type} (R : A -> B -> Prop) (l : list A)
    (bs : list B) (b : B) :
  Forall2 R l bs -> In b bs -> exists a, In a l /\ R a b.
Proof.
  induction 1 as [| a b' l bs Hab _ IH]; intros Hin; [contradiction |].
  destruct Hin as [<- | Hin].
  - exists a. split; [left; reflexivity | assumption].
  - destruct (IH Hin) as [a' [Ha' HR]]. exists a'.
    split; [right; assumption | assumption].
Qed.

(** A returned frame comes, row by row, from the loop body run on the
    positions [range n]. *)
Lemma gerar_dados_vendas_inv {SPy SNp : Type} `{PyRandom SPy} `{NpRandom SNp}
    (w : Mundo SPy SNp) (n seed : Z) (d : DataFrame) :
  gerar_dados_vendas w n seed = Ok d ->
  exists datas dados,
    d = map linha dados /\
    Forall2 (fun i r => exists s1 s2,
                gerar_registro datas i s1 = Ok (r, s2))
            (range n) dados.
Proof.
  unfold gerar_dados_vendas.
  destruct (negb _); [discriminate |].
  cbn [relogio estado_py estado_np].
  destruct (random_sample _ n (py_seed seed)) as [[amostra st] |];
    [| discriminate].
  destruct (mapM (gerar_registro (sorted amostra)) (range n) (np_seed seed))
    as [[dados s'] |] eqn:Hm; [| discriminate].
  unfold construir_frame.
  destruct dados as [| r0 dados0] eqn:Ed; [discriminate |].
  rewrite <- Ed in *.
  destruct (forallb _ dados); [| discriminate].
  intros [= <-]. exists (sorted amostra), dados.
  split; [reflexivity |]. eapply mapM_Forall2. eassumption.
Qed.

(** X17: every row of a generated frame has its category, region, status,
    payment method and discount among the fixed values of the generator,
    its city among the cities of its region, and its five calendar columns
    computed from its date. *)
Theorem gerar_dados_vendas_campos_validos
    {SPy SNp : Type} `{PyRandom SPy} `{NpRandom SNp}
    (w : Mundo SPy SNp) (n seed : Z) (d : DataFrame) (r : Venda) :
  gerar_dados_vendas w n seed = Ok d ->
  In r d ->
  In (Categoria r) categorias /\
  In (Região r) regioes /\
  In (Cidade r) (cidades (Região r)) /\
  In (Desconto_pct r) [0; 5; 10; 15; 20; 25; 30] /\
  In (Status r) [Concluida; Pendente; Cancelada] /\
  In (Método_Pagamento r)
     ["Cartão Crédito"; "Cartão Débito"; "PIX"; "Boleto"]%string /\
  Mês r = periodo_mensal (Data r) /\
  Ano r = ano_de (Data r) /\
  Trimestre r = trimestre_de (Data r) /\
  Dia_Semana r = day_name (Data r) /\
  Mês_Nome r = month_name (Data r).
Proof.
  intros Hg Hr.
  destruct (gerar_dados_vendas_inv w n seed d Hg)
    as [datas [dados [Hd Hall]]].
  subst d. apply in_map_iff in Hr. destruct Hr as [reg [<- Hreg]].
  destruct (Forall2_In_r _ _ _ _ Hall Hreg)
    as [i [_ [s1 [s2 Hi]]]].
  destruct (gerar_registro_campos datas i s1 s2 reg Hi)
    as [H1 [H2 [H3 [H4 [H5 [H6 _]]]]]].
  cbn [linha Categoria Região Cidade Desconto_pct Status Método_Pagamento
       Mês Ano Trimestre Dia_Semana Mês_Nome Data].
  repeat split; assumption.
Qed.

Lemma gerar_dados_vendas_campos_validos_witness :
  exists d r,
    gerar_dados_vendas (mundo_teste agora_teste 0) 3 7 = Ok d /\
    In r d /\ In (Cidade r) (cidades (Região r)).
Proof.
  assert (Hex : exists d r,
             gerar_dados_vendas (mundo_teste agora_teste 0) 3 7 = Ok d /\
             In r d)
    by (vm_compute; eexists; eexists;
        split; [reflexivity | left; reflexivity]).
  destruct Hex as [d [r [Hg Hr]]]. exists d, r.
  split; [exact Hg |]. split; [exact Hr |].
  apply (gerar_dados_vendas_campos_validos
           (mundo_teste agora_teste 0) 3 7 d r Hg Hr).
Defined.

(** ** Ranges of the generated values *)

Lemma round2_inferior (q : Q) (a : Z) :
  (inject_Z a <= q)%Q -> (inject_Z a <= round2 q)%Q.
Proof.
  intros Ha.
  apply (round2_limites q a (Qfloor q + 1)); [assumption |].
  apply Qlt_le_weak. apply Qlt_floor.
Qed.

Lemma round2_superior (q : Q) (b : Z) :
  (q <= inject_Z b)%Q -> (round2 q <= inject_Z b)%Q.
Proof.
  intros Hb.
  apply (round2_limites q (Qfloor q) b); [apply Qfloor_le | assumption].
Qed.

Lemma precos_base_inteiros (categoria : string) :
  In categoria categorias ->
  exists a b, precos_base categoria = (inject_Z a, inject_Z b) /\
              10 <= a <= b.
Proof.
  unfold categorias. simpl.
  intros [<- | [<- | [<- | [<- | [<- | [<- | [<- | [<- | []]]]]]]]];
    eexists; eexists; (split; [vm_compute; reflexivity | lia]).
Qed.

Lemma desconto_fator (desconto : Z) :
  In desconto [0; 5; 10; 15; 20; 25; 30] ->
  (7 # 10 <= 1 - inject_Z desconto / 100)%Q /\
  (1 - inject_Z desconto / 100 <= 1)%Q.
Proof.
  simpl. intros [<- | [<- | [<- | [<- | [<- | [<- | [<- | []]]]]]]];
    split; vm_compute; discriminate.
Qed.

(** The net total of a gross total of at least 10 with one of the
    discounts of the generator. *)
Lemma valor_final_limites (bruto fator : Q) :
  (10 <= bruto)%Q -> (7 # 10 <= fator)%Q -> (fator <= 1)%Q ->
  (0 < round2 (round2 bruto * fator))%Q /\
  (round2 (round2 bruto * fator) <= round2 bruto)%Q.
Proof.
  intros Hb Hf1 Hf2.
  assert (Ht : (inject_Z 10 <= round2 bruto)%Q)
    by (apply (round2_inferior bruto 10); assumption).
  split.
  - apply Qlt_le_trans with (inject_Z 7); [reflexivity |].
    apply round2_inferior.
    setoid_replace (inject_Z 7) with (inject_Z 10 * (7 # 10))%Q
      by reflexivity.
    apply Qmult_le_compat_nonneg; split;
      try assumption; discriminate.
  - unfold round2 at 1 3. unfold round2 in Ht.
    set (k := rint (bruto * 100)) in *.
    apply Qmult_le_compat_r; [| discriminate].
    rewrite <- Zle_Qle.
    apply rint_limites with (a := Qfloor (round2 bruto * fator * 100)).
    + apply Qfloor_le.
    + unfold round2. fold k.
      setoid_replace (inject_Z k / 100 * fator * 100)%Q
        with (inject_Z k * fator)%Q by field.
      assert (Hk : (inject_Z 0 <= inject_Z k)%Q).
      { rewrite <- Zle_Qle. unfold k.
        apply (rint_limites (bruto * 100) 0 (Qfloor (bruto * 100) + 1)).
        - apply Qmult_le_0_compat; [| discriminate].
          eapply Qle_trans; [| exact Hb]. discriminate.
        - apply Qlt_le_weak. apply Qlt_floor. }
      setoid_replace (inject_Z k) with (inject_Z k * 1)%Q at 2 by ring.
      apply Qmult_le_compat_nonneg; split;
        try assumption; try apply Qle_refl.
      eapply Qle_trans; [| exact Hf1]. discriminate.
Qed.

(** X18: when [randint] and [uniform] keep to their ranges, every row of a
    generated frame has a quantity from 1 to 9, a unit price inside the
    price range of its category, a positive net total, and a net total no
    larger than its gross total. *)
Theorem gerar_dados_vendas_valores
    {SPy SNp : Type} `{PyRandom SPy} `{NpRandom SNp}
    (w : Mundo SPy SNp) (n seed : Z) (d : DataFrame) (r : Venda) :
  randint_ok SNp ->
  uniform_ok SNp ->
  gerar_dados_vendas w n seed = Ok d ->
  In r d ->
  1 <= Quantidade r <= 9 /\
  (fst (precos_base (Categoria r)) <= Valor_Unitário r)%Q /\
  (Valor_Unitário r <= snd (precos_base (Categoria r)))%Q /\
  (0 < Valor_Final r)%Q /\
  (Valor_Final r <= Valor_Total r)%Q.
Proof.
  intros Hrandint Huniform Hg Hr.
  destruct (gerar_dados_vendas_inv w n seed d Hg)
    as [datas [dados [Hd Hall]]].
  subst d. apply in_map_iff in Hr. destruct Hr as [reg [<- Hreg]].
  destruct (Forall2_In_r _ _ _ _ Hall Hreg) as [i [_ [s1 [s2 Hi]]]].
  destruct (gerar_registro_campos datas i s1 s2 reg Hi)
    as (Hcat & _ & _ & Hdesc & _ & _ & Htot & Hfin & _ & _ & _
        & (su & Hu) & (sq & Hq)).
  cbn [linha Quantidade Categoria Valor_Unitário Valor_Final Valor_Total].
  destruct (precos_base_inteiros _ Hcat) as [a [b [Hpre Hab]]].
  rewrite Hpre in *. cbn [fst snd] in *.
  assert (Hlohi : (inject_Z a <= inject_Z b)%Q)
    by (rewrite <- Zle_Qle; lia).
  destruct (Huniform su _ _ Hlohi) as [Hu1 Hu2].
  destruct (round2_limites _ a b Hu1 Hu2) as [Hv1 Hv2].
  rewrite <- Hu in Hv1, Hv2.
  pose proof (Hrandint sq 1 10 ltac:(lia)) as Hqr. rewrite <- Hq in Hqr.
  split; [lia |]. split; [assumption |]. split; [assumption |].
  assert (Hbruto : (10 <= r_Valor_Unitário reg
                          * inject_Z (r_Quantidade reg))%Q).
  { setoid_replace 10%Q with (inject_Z 10 * inject_Z 1)%Q by reflexivity.
    apply Qmult_le_compat_nonneg; split; try discriminate.
    - eapply Qle_trans; [| exact Hv1]. rewrite <- Zle_Qle. lia.
    - rewrite <- Zle_Qle. lia. }
  destruct (desconto_fator _ Hdesc) as [Hf1 Hf2].
  rewrite Hfin, Htot.
  apply valor_final_limites; assumption.
Qed.

Lemma NpLcg_randint_ok : randint_ok Z.
Proof.
  intros s lo hi Hlt. simpl.
  pose proof (Z.mod_pos_bound s (hi - lo) ltac:(lia)). lia.
Qed.

Lemma NpLcg_uniform_ok : uniform_ok Z.
Proof.
  intros s lo hi Hle. simpl.
  pose proof (Z.mod_pos_bound s 1000 ltac:(lia)) as Hm.
  assert (H0 : (0 <= s mod 1000 # 1000)%Q)
    by (unfold Qle; simpl; lia).
  assert (H1 : (s mod 1000 # 1000 <= 1)%Q)
    by (unfold Qle; simpl; lia).
  assert (Hd : (0 <= hi - lo)%Q).
  { setoid_replace 0%Q with (lo - lo)%Q by ring.
    apply Qplus_le_compat; [assumption | apply Qle_refl]. }
  split.
  - setoid_replace lo with (lo + 0)%Q at 1 by ring.
    apply Qplus_le_compat; [apply Qle_refl |].
    apply Qmult_le_0_compat; assumption.
  - setoid_replace hi with (lo + (hi - lo) * 1)%Q at 2 by ring.
    apply Qplus_le_compat; [apply Qle_refl |].
    apply Qmult_le_compat_nonneg; split;
      try assumption; apply Qle_refl.
Qed.

Lemma gerar_dados_vendas_valores_witness :
  exists d r,
    gerar_dados_vendas (mundo_teste agora_teste 0) 3 7 = Ok d /\
    In r d /\ 1 <= Quantidade r <= 9 /\ (0 < Valor_Final r)%Q.
Proof.
  assert (Hex : exists d r,
             gerar_dados_vendas (mundo_teste agora_teste 0) 3 7 = Ok d /\
             In r d)
    by (vm_compute; eexists; eexists;
        split; [reflexivity | left; reflexivity]).
  destruct Hex as [d [r [Hg Hr]]]. exists d, r.
  split; [exact Hg |]. split; [exact Hr |].
  destruct (gerar_dados_vendas_valores
              (mundo_teste agora_teste 0) 3 7 d r
              NpLcg_randint_ok NpLcg_uniform_ok Hg Hr)
    as [Hq [_ [_ [Hf _]]]].
  split; [exact Hq | exact Hf].
Defined.

(** X19: the generator ends with [ValueError] for a seed outside
    [0, 2**32 - 1], whatever the count, and for a negative count; for a
    count of 0 it ends with [KeyError], the empty frame having no date
    column. *)
Theorem gerar_dados_vendas_erros
    {SPy SNp : Type} `{PyRandom SPy} `{NpRandom SNp}
    (w : Mundo SPy SNp) (n seed : Z) :
  (~ 0 <= seed <= 2 ^ 32 - 1 ->
   gerar_dados_vendas w n seed = Erro ValueError) /\
  (0 <= seed <= 2 ^ 32 - 1 -> n < 0 ->
   gerar_dados_vendas w n seed = Erro ValueError) /\
  (0 <= seed <= 2 ^ 32 - 1 ->
   gerar_dados_vendas w 0 seed = Erro KeyError).
Proof.
  unfold gerar_dados_vendas. split; [| split].
  - intros Hseed.
    destruct ((0 <=? seed) && (seed <=? 2 ^ 32 - 1)) eqn:E;
      [| reflexivity].
    apply andb_prop in E. destruct E as [E1 E2].
    apply Z.leb_le in E1, E2. exfalso. apply Hseed. lia.
  - intros Hseed Hn.
    assert (Hs : (0 <=? seed) && (seed <=? 2 ^ 32 - 1) = true)
      by (apply andb_true_intro; split; apply Z.leb_le; lia).
    rewrite Hs. cbn [negb relogio estado_py estado_np].
    unfold random_sample.
    assert (Hk : (0 <=? n) = false) by (apply Z.leb_gt; assumption).
    rewrite Hk. reflexivity.
  - intros Hseed.
    assert (Hs : (0 <=? seed) && (seed <=? 2 ^ 32 - 1) = true)
      by (apply andb_true_intro; split; apply Z.leb_le; lia).
    rewrite Hs. reflexivity.
Qed.

Section DatasConsecutivas.
Context {SPy SNp : Type} `{PyRandom SPy} `{NpRandom SNp}.
Hypothesis Hrand : randbelow_ok SPy.
Hypothesis Hchoice : choice_ok SNp.

(** X20: whatever the seed, the dates of a generated frame are, in row
    order, the consecutive days that start 365 days before the clock
    reading, one per row: sampling and sorting leave no trace.  So every
    date is before the clock reading exactly when the count is at most
    365. *)
Theorem gerar_dados_vendas_datas_consecutivas
    (w : Mundo SPy SNp) (n seed : Z) :
  0 <= seed <= 2 ^ 32 - 1 ->
  1 <= n ->
  Timestamp_min <= relogio w - Timedelta_days 365 ->
  relogio w + Timedelta_days (n - 366) <= Timestamp_max ->
  exists d,
    gerar_dados_vendas w n seed = Ok d /\
    map Data d =
      map (fun x => relogio w - Timedelta_days 365 + Timedelta_days x)
          (range n) /\
    ((forall r, In r d -> Data r < relogio w) <-> n <= 365).
Proof.
  intros Hseed Hn Hmin Hmax.
  destruct (gerar_dados_vendas_Ok Hrand Hchoice w n seed Hseed Hn Hmin Hmax)
    as [d [Hd Hdatas]].
  exists d. split; [assumption |]. split; [assumption |]. split.
  - intros Hall.
    destruct (Z_le_gt_dec n 365) as [Hle | Hgt]; [assumption |].
    exfalso.
    assert (Hin : In (relogio w - Timedelta_days 365 + Timedelta_days 365)
                     (map Data d)).
    { rewrite Hdatas.
      apply (in_map (fun x => relogio w - Timedelta_days 365
                              + Timedelta_days x)).
      apply In_range. lia. }
    apply in_map_iff in Hin. destruct Hin as [r [Hr Hrin]].
    specialize (Hall r Hrin). unfold Timedelta_days in *. lia.
  - intros Hle r Hr.
    assert (Hin : In (Data r) (map Data d)) by (apply in_map; assumption).
    rewrite Hdatas in Hin. apply in_map_iff in Hin.
    destruct Hin as [k [Hk Hkr]]. apply In_range in Hkr.
    unfold Timedelta_days in *. lia.
Qed.
End DatasConsecutivas.

Lemma gerar_dados_vendas_datas_consecutivas_witness :
  exists d,
    gerar_dados_vendas (mundo_teste agora_teste 0) 1000 42 = Ok d /\
    ~ (forall r, In r d -> Data r < agora_teste).
Proof.
  destruct (gerar_dados_vendas_datas_consecutivas
              PyLcg_randbelow_ok NpLcg_choice_ok
              (mundo_teste agora_teste 0) 1000 42)
    as [d [Hd [_ Hiff]]].
  - vm_compute. split; discriminate.
  - lia.
  - vm_compute. discriminate.
  - vm_compute. discriminate.
  - exists d. split; [exact Hd |]. intros Hall.
    apply Hiff in Hall. lia.
Defined.

(** ** Identifiers *)

Lemma uint_of_string_zeros (k : nat) (s : string) (u : Decimal.uint) :
  NilEmpty.uint_of_string s = Some u ->
  exists u',
    NilEmpty.uint_of_string
      (string_of_list_ascii (repeat "0"%char k) ++ s) = Some u' /\
    Z.of_uint u' = Z.of_uint u.
Proof.
  intros Hs. induction k as [| k [u' [Hu' Hz]]]; simpl.
  - exists u. split; [assumption | reflexivity].
  - rewrite Hu'. simpl. exists (Decimal.D0 u').
    split; [reflexivity | exact Hz].
Qed.

Lemma str_int_positivo (p : positive) :
  str_int (Z.pos p) = NilEmpty.string_of_uint (Pos.to_uint p).
Proof.
  unfold str_int. simpl Z.to_int.
  unfold NilZero.string_of_int, NilZero.string_of_uint.
  pose proof (DecimalPos.Unsigned.to_uint_nonnil p) as Hnn.
  destruct (Pos.to_uint p); [congruence | | | | | | | | | |]; reflexivity.
Qed.

Lemma numero_do_ID_V (digits : string) :
  numero_do_ID (String "V" digits) =
  option_map Z.of_uint (NilEmpty.uint_of_string digits).
Proof. reflexivity. Qed.

(** Reading back the number of an identifier. *)
Lemma numero_do_ID_fmt (z : Z) :
  0 < z -> numero_do_ID ("V" ++ fmt_05d z) = Some z.
Proof.
  intros Hz. destruct z as [| p | p]; try lia.
  unfold fmt_05d. rewrite str_int_positivo.
  change ("V" ++ ?x)%string with (String "V" x).
  rewrite numero_do_ID_V.
  destruct (uint_of_string_zeros
              (5 - String.length (NilEmpty.string_of_uint (Pos.to_uint p)))
              _ _ (NilEmpty.usu (Pos.to_uint p))) as [u' [Hu' Hz']].
  rewrite Hu'. simpl option_map. rewrite Hz'.
  unfold Z.of_uint. rewrite DecimalPos.Unsigned.of_to. reflexivity.
Qed.

Lemma Forall2_map_eq {A B C : Type} (f : A -> C) (g : B -> C)
    (l : list A) (bs : list B) :
  Forall2 (fun a b => g b = f a) l bs -> map g bs = map f l.
Proof.
  induction 1 as [| a b l bs Hab _ IH]; simpl; [reflexivity |].
  rewrite Hab, IH. reflexivity.
Qed.

Lemma NoDup_range (n : Z) : NoDup (range n).
Proof.
  unfold range. apply Finite.Injective_map_NoDup.
  - intros a b Hab. lia.
  - apply seq_NoDup.
Qed.

(** The identifiers of a generated frame, in row order. *)
Lemma gerar_dados_vendas_map_ID
    {SPy SNp : Type} `{PyRandom SPy} `{NpRandom SNp}
    (w : Mundo SPy SNp) (n seed : Z) (d : DataFrame) :
  gerar_dados_vendas w n seed = Ok d ->
  map ID d = map (fun i => ("V" ++ fmt_05d (i + 1))%string) (range n).
Proof.
  intros Hg.
  destruct (gerar_dados_vendas_inv w n seed d Hg)
    as [datas [dados [Hd Hall]]].
  subst d. rewrite map_map.
  apply (Forall2_map_eq (fun i => ("V" ++ fmt_05d (i + 1))%string)
                        (fun r => ID (linha r))).
  eapply Forall2_impl; [| exact Hall].
  intros i r [s1 [s2 Hi]].
  destruct (gerar_registro_campos datas i s1 s2 r Hi)
    as (_ & _ & _ & _ & _ & _ & _ & _ & Hid & _).
  exact Hid.
Qed.

Lemma numero_dos_IDs (n : Z) :
  map numero_do_ID
      (map (fun i => ("V" ++ fmt_05d (i + 1))%string) (range n)) =
  map (fun i => Some (i + 1)) (range n).
Proof.
  rewrite map_map. apply map_ext_in. intros i Hi. apply In_range in Hi.
  apply numero_do_ID_fmt. lia.
Qed.

Lemma IDs_NoDup (n : Z) :
  NoDup (map (fun i => ("V" ++ fmt_05d (i + 1))%string) (range n)).
Proof.
  apply (NoDup_map_inv numero_do_ID). rewrite numero_dos_IDs.
  apply Finite.Injective_map_NoDup; [| apply NoDup_range].
  intros a b Hab. injection Hab as Hab. lia.
Qed.

(** X21: the identifier of the row at position [i] of a generated frame is
    "V" followed by [i + 1] written with at least five digits; reading the
    digits back gives [i + 1], so no two rows share an identifier. *)
Theorem gerar_dados_vendas_identificadores
    {SPy SNp : Type} `{PyRandom SPy} `{NpRandom SNp}
    (w : Mundo SPy SNp) (n seed : Z) (d : DataFrame) :
  gerar_dados_vendas w n seed = Ok d ->
  map ID d = map (fun i => ("V" ++ fmt_05d (i + 1))%string) (range n) /\
  map (fun r => numero_do_ID (ID r)) d =
    map (fun i => Some (i + 1)) (range n) /\
  NoDup (map ID d).
Proof.
  intros Hg. pose proof (gerar_dados_vendas_map_ID w n seed d Hg) as Hids.
  split; [assumption |]. split.
  - rewrite <- (map_map ID numero_do_ID), Hids. apply numero_dos_IDs.
  - rewrite Hids. apply IDs_NoDup.
Qed.

Lemma gerar_dados_vendas_identificadores_witness :
  exists d,
    gerar_dados_vendas (mundo_teste agora_teste 0) 3 7 = Ok d /\
    map ID d = ["V00001"; "V00002"; "V00003"]%string.
Proof.
  assert (Hex : exists d,
             gerar_dados_vendas (mundo_teste agora_teste 0) 3 7 = Ok d)
    by (vm_compute; eexists; reflexivity).
  destruct Hex as [d Hg]. exists d. split; [exact Hg |].
  destruct (gerar_dados_vendas_identificadores
              (mundo_teste agora_teste 0) 3 7 d Hg) as [Hids _].
  rewrite Hids. reflexivity.
Defined.

(* ================================================================== *)
(** * Properties of the time table *)

Lemma intervalo_In (lo hi b : Z) : In b (intervalo lo hi) <-> lo <= b <= hi.
Proof.
  unfold intervalo. rewrite in_map_iff. split.
  - intros [k [<- Hk]]. apply in_seq in Hk. lia.
  - intros Hb. exists (Z.to_nat (b - lo)). split; [lia |].
    apply in_seq. lia.
Qed.

Lemma intervalo_NoDup (lo hi : Z) : NoDup (intervalo lo hi).
Proof.
  unfold intervalo. apply Finite.Injective_map_NoDup; [| apply seq_NoDup].
  intros a b Hab. lia.
Qed.

Lemma intervalo_crescente (lo hi : Z) :
  StronglySorted Z.lt (intervalo lo hi).
Proof.
  unfold intervalo. generalize (Z.to_nat (hi - lo + 1)). intros n.
  generalize 0%nat as s. induction n as [| n IH]; intros s; simpl.
  - constructor.
  - constructor; [apply IH |].
    apply Forall_forall. intros x Hx. apply in_map_iff in Hx.
    destruct Hx as [k [<- Hk]]. apply in_seq in Hk. lia.
Qed.

Lemma soma_int_indicador_Z_fora (x v : Z) (keys : list Z) :
  ~ In x keys ->
  soma_int (map (fun k => if x =? k then v else 0) keys) = 0.
Proof.
  induction keys as [| k keys IH]; simpl; intros Hnot.
  - reflexivity.
  - destruct (x =? k) eqn:E.
    + apply Z.eqb_eq in E. exfalso. apply Hnot. left. congruence.
    + rewrite IH; [reflexivity | tauto].
Qed.

Lemma soma_int_indicador_Z (x v : Z) (keys : list Z) :
  NoDup keys -> In x keys ->
  soma_int (map (fun k => if x =? k then v else 0) keys) = v.
Proof.
  induction 1 as [| k keys Hk Hnd IH]; simpl; intros Hin.
  - contradiction.
  - destruct (x =? k) eqn:E.
    + apply Z.eqb_eq in E. subst k.
      rewrite soma_int_indicador_Z_fora; [lia | assumption].
    + destruct Hin as [Heq | Hin].
      * subst k. rewrite Z.eqb_refl in E. discriminate.
      * rewrite IH; [lia | assumption].
Qed.

(** Summing an integer column bin by bin, over distinct bins that cover
    the frame, gives its sum over the frame. *)
Lemma soma_int_por_balde (key : Venda -> Z) (f : Venda -> Z)
    (keys : list Z) (d : DataFrame) :
  NoDup keys ->
  (forall r, In r d -> In (key r) keys) ->
  soma_int (map (fun k =>
              soma_int (map f (filter (fun r => key r =? k) d)))
            keys)
  = soma_int (map f d).
Proof.
  intros Hnd. induction d as [| a d IH]; intros Hcov.
  - simpl. clear Hnd Hcov.
    induction keys as [| k keys IHk]; simpl; [reflexivity | assumption].
  - transitivity
      (soma_int (map (fun k =>
         (if key a =? k then f a else 0) +
         soma_int (map f (filter (fun r => key r =? k) d)))
         keys)).
    + apply f_equal. apply map_ext. intros k. simpl.
      destruct (key a =? k); simpl; lia.
    + rewrite soma_int_map_plus.
      rewrite (soma_int_indicador_Z (key a) (f a) keys Hnd
                 (Hcov a (or_introl eq_refl))).
      rewrite (IH (fun r Hr => Hcov r (or_intror Hr))).
      reflexivity.
Qed.

(** The bins of the table: every period from the first to the last one
    with a completed sale. *)
Lemma analise_temporal_baldes (per : periodo) (p : DataProcessor) :
  exists primeiro ultimo,
    analise_temporal per p =
      map (fun b =>
             agregar_balde b
               (filter (fun x => balde per (Data x) =? b)
                       (com_status Concluida (df p))))
          (match com_status Concluida (df p) with
           | [] => []
           | _ :: _ => intervalo primeiro ultimo
           end) /\
    (forall r, In r (com_status Concluida (df p)) ->
               primeiro <= balde per (Data r) <= ultimo) /\
    (com_status Concluida (df p) <> [] ->
     In primeiro (map (fun x => balde per (Data x))
                      (com_status Concluida (df p))) /\
     In ultimo (map (fun x => balde per (Data x))
                    (com_status Concluida (df p)))).
Proof.
  unfold analise_temporal.
  destruct (com_status Concluida (df p)) as [| r d].
  - exists 0, 0. split; [reflexivity |]. split; [contradiction |].
    intros Hne. congruence.
  - set (baldes := map (fun x => balde per (Data x)) d).
    exists (fold_left Z.min baldes (balde per (Data r))),
           (fold_left Z.max baldes (balde per (Data r))).
    split; [reflexivity |].
    destruct (fold_min_le baldes (balde per (Data r))) as [Hm0 Hm].
    destruct (fold_max_ge baldes (balde per (Data r))) as [HM0 HM].
    split.
    + intros x [<- | Hx]; [lia |].
      assert (Hin : In (balde per (Data x)) baldes)
        by (apply (in_map (fun x => balde per (Data x))); assumption).
      specialize (Hm _ Hin). specialize (HM _ Hin). lia.
    + intros _. split.
      * simpl.
        assert (Hmin : fold_left Z.min baldes (balde per (Data r))
                       = balde per (Data r) \/
                       In (fold_left Z.min baldes (balde per (Data r)))
                          baldes).
        { clear. generalize (balde per (Data r)) as a.
          induction baldes as [| y l IH]; intros a; simpl;
            [left; reflexivity |].
          destruct (IH (Z.min a y)) as [H | H];
            [| right; right; assumption].
          rewrite H. destruct (Z.min_spec a y) as [[_ ->] | [_ ->]];
            [left; reflexivity | right; left; reflexivity]. }
        destruct Hmin as [-> | Hmin]; [left; reflexivity |].
        right. assumption.
      * simpl.
        destruct (fold_max_In baldes (balde per (Data r))) as [-> | HMin];
          [left; reflexivity | right; assumption].
Qed.

(** X22: the time table has one row for every period (day, week, month or
    quarter) from the first to the last period with a completed sale, in
    time order and without gaps; a period without completed sales has a row
    of zeros; and over the rows the sale counts add up to the completed
    sales of the metrics and the units to their total units. *)
Theorem analise_temporal_sem_lacunas (per : periodo) (p : DataProcessor) :
  StronglySorted Z.lt (map temporal_balde (analise_temporal per p)) /\
  (exists primeiro ultimo,
     (com_status Concluida (df p) <> [] ->
      map temporal_balde (analise_temporal per p)
        = intervalo primeiro ultimo) /\
     (forall r, In r (com_status Concluida (df p)) ->
                primeiro <= balde per (Data r) <= ultimo) /\
     (com_status Concluida (df p) <> [] ->
      In primeiro (map (fun x => balde per (Data x))
                       (com_status Concluida (df p))) /\
      In ultimo (map (fun x => balde per (Data x))
                     (com_status Concluida (df p))))) /\
  (com_status Concluida (df p) = [] -> analise_temporal per p = []) /\
  (forall row,
     In row (analise_temporal per p) ->
     (forall r, In r (com_status Concluida (df p)) ->
                balde per (Data r) <> temporal_balde row) ->
     (temporal_Receita_Total row == 0)%Q /\
     temporal_Ticket_Medio row = 0%Q /\
     temporal_Num_Vendas row = 0 /\
     temporal_Total_Produtos row = 0) /\
  soma_int (map temporal_Num_Vendas (analise_temporal per p))
    = total_vendas (calcular_metricas_vendas p) /\
  soma_int (map temporal_Total_Produtos (analise_temporal per p))
    = total_produtos (calcular_metricas_vendas p).
Proof.
  destruct (analise_temporal_baldes per p)
    as [primeiro [ultimo [Ht [Hlim Hext]]]].
  assert (Hord : StronglySorted Z.lt
                   (map temporal_balde (analise_temporal per p))).
  { rewrite Ht. destruct (com_status Concluida (df p)); [constructor |].
    rewrite map_map. cbn [agregar_balde temporal_balde]. rewrite map_id.
    apply intervalo_crescente. }
  split; [exact Hord |].
  split; [| split; [| split]].
  - exists primeiro, ultimo. split; [| split; assumption].
    intros Hne. rewrite Ht.
    destruct (com_status Concluida (df p)); [congruence |].
    rewrite map_map. cbn [agregar_balde temporal_balde]. apply map_id.
  - intros He. rewrite Ht, He. reflexivity.
  - intros row Hrow Hvazio. rewrite Ht in Hrow.
    apply in_map_iff in Hrow. destruct Hrow as [b [<- _]].
    cbn [agregar_balde temporal_balde] in Hvazio.
    rewrite (filter_false _ (com_status Concluida (df p))).
    + cbn. repeat split.
    + intros x Hx. apply Z.eqb_neq. apply Hvazio. assumption.
  - unfold calcular_metricas_vendas.
    destruct (len (com_status Concluida (df p)) =? 0) eqn:E.
    + apply len_nil_iff in E. rewrite Ht, E. split; reflexivity.
    + cbn [total_vendas total_produtos]. rewrite Ht.
      destruct (com_status Concluida (df p)) as [| r d] eqn:Ed;
        [discriminate |].
      rewrite <- Ed in *. rewrite !map_map.
      cbn [agregar_balde temporal_Num_Vendas temporal_Total_Produtos].
      assert (Hcov : forall x, In x (com_status Concluida (df p)) ->
                In (balde per (Data x)) (intervalo primeiro ultimo))
        by (intros x Hx; apply intervalo_In; apply Hlim; assumption).
      split.
      * rewrite <- (soma_int_uns (com_status Concluida (df p))).
        rewrite <- (soma_int_por_balde (fun x => balde per (Data x))
                      (fun _ => 1) _ _
                      (intervalo_NoDup primeiro ultimo) Hcov).
        apply f_equal. apply map_ext. intros k. symmetry.
        apply soma_int_uns.
      * apply (soma_int_por_balde (fun x => balde per (Data x))
                 Quantidade _ _ (intervalo_NoDup primeiro ultimo) Hcov).
Qed.

(* ================================================================== *)
(** * Properties of the cleaning step *)

Lemma venda_eqb_refl (a : Venda) : venda_eqb a a = true.
Proof.
  unfold venda_eqb.
  rewrite !String.eqb_refl, !Z.eqb_refl, !Qeq_bool_refl. reflexivity.
Qed.

Lemma venda_eqb_sym_true (a b : Venda) :
  venda_eqb a b = true -> venda_eqb b a = true.
Proof.
  intros H. unfold venda_eqb in H.
  repeat (apply andb_prop in H; let H' := fresh "Hc" in
          destruct H as [H H']).
  repeat match goal with
         | Hs : String.eqb _ _ = true |- _ => apply String.eqb_eq in Hs
         | Hz : Z.eqb _ _ = true |- _ => apply Z.eqb_eq in Hz
         end.
  unfold venda_eqb.
  repeat match goal with
         | Hs : ?x = ?y |- context [String.eqb ?y ?x] =>
             rewrite (proj2 (String.eqb_eq y x) (eq_sym Hs))
         | Hz : ?x = ?y |- context [Z.eqb ?y ?x] =>
             rewrite (proj2 (Z.eqb_eq y x) (eq_sym Hz))
         | Hq : Qeq_bool ?x ?y = true |- context [Qeq_bool ?y ?x] =>
             rewrite (Qeq_bool_sym x y Hq)
         end.
  reflexivity.
Qed.

Lemma venda_eqb_sym (a b : Venda) : venda_eqb a b = venda_eqb b a.
Proof.
  destruct (venda_eqb a b) eqn:Eab, (venda_eqb b a) eqn:Eba;
    try reflexivity.
  - apply venda_eqb_sym_true in Eab. congruence.
  - apply venda_eqb_sym_true in Eba. congruence.
Qed.

Lemma venda_eqb_ID (a b : Venda) : ID a <> ID b -> venda_eqb a b = false.
Proof.
  intros Hne. unfold venda_eqb.
  destruct (String.eqb (ID a) (ID b)) eqn:E; [| reflexivity].
  apply String.eqb_eq in E. contradiction.
Qed.

(** No row of the result equals a row seen before it or an earlier row of
    the result. *)
Lemma drop_duplicates_desde_distintas (d : DataFrame) :
  forall vistos,
    ForallOrdPairs (fun a b => venda_eqb a b = false)
                   (drop_duplicates_desde vistos d) /\
    (forall x, In x (drop_duplicates_desde vistos d) ->
               existsb (venda_eqb x) vistos = false).
Proof.
  induction d as [| r d IH]; intros vistos; simpl.
  - split; [constructor | contradiction].
  - destruct (existsb (venda_eqb r) vistos) eqn:E.
    + apply IH.
    + destruct (IH (r :: vistos)) as [Hpairs Hvistos]. split.
      * constructor; [| assumption].
        apply Forall_forall. intros x Hx.
        specialize (Hvistos x Hx). simpl in Hvistos.
        apply orb_false_elim in Hvistos. destruct Hvistos as [Hxr _].
        rewrite venda_eqb_sym. assumption.
      * intros x [<- | Hx]; [assumption |].
        specialize (Hvistos x Hx). simpl in Hvistos.
        apply orb_false_elim in Hvistos. tauto.
Qed.

(** Every row has an equal row among those seen or in the result. *)
Lemma drop_duplicates_desde_cobre (d : DataFrame) :
  forall vistos x,
    In x d ->
    existsb (venda_eqb x) vistos = true \/
    exists x', In x' (drop_duplicates_desde vistos d) /\
               venda_eqb x x' = true.
Proof.
  induction d as [| r d IH]; intros vistos x Hx; [contradiction |].
  simpl. destruct (existsb (venda_eqb r) vistos) eqn:E.
  - destruct Hx as [<- | Hx]; [left; assumption | apply IH; assumption].
  - destruct Hx as [<- | Hx].
    + right. exists r. split; [left; reflexivity | apply venda_eqb_refl].
    + destruct (IH (r :: vistos) x Hx) as [Hv | [x' [Hx' Heq]]].
      * simpl in Hv. apply orb_prop in Hv. destruct Hv as [Hv | Hv].
        -- right. exists r. split; [left; reflexivity | assumption].
        -- left. assumption.
      * right. exists x'. split; [right; assumption | assumption].
Qed.

Lemma drop_duplicates_desde_sub (d : DataFrame) :
  forall vistos, subsequencia (drop_duplicates_desde vistos d) d.
Proof.
  induction d as [| r d IH]; intros vistos; simpl.
  - constructor.
  - destruct (existsb (venda_eqb r) vistos); constructor; apply IH.
Qed.

(** A frame without equal rows, none of them seen before, is kept as it
    is. *)
Lemma drop_duplicates_desde_id (d : DataFrame) :
  forall vistos,
    ForallOrdPairs (fun a b => venda_eqb a b = false) d ->
    (forall x, In x d -> existsb (venda_eqb x) vistos = false) ->
    drop_duplicates_desde vistos d = d.
Proof.
  induction d as [| r d IH]; intros vistos Hpairs Hv; [reflexivity |].
  simpl. rewrite (Hv r (or_introl eq_refl)).
  inversion Hpairs as [| ? ? Hr Hd]; subst. f_equal. apply IH.
  - assumption.
  - intros x Hx. simpl.
    rewrite Forall_forall in Hr. specialize (Hr x Hx).
    rewrite venda_eqb_sym, Hr. simpl. apply Hv. right. assumption.
Qed.

(** X23: [limpar_dados] keeps a subsequence of the view in which no two
    rows are equal and in which every row of the view still has an equal
    row; the original frame is untouched, and cleaning twice is cleaning
    once. *)
Theorem limpar_dados_sem_duplicatas (p : DataProcessor) :
  subsequencia (df (limpar_dados p)) (df p) /\
  ForallOrdPairs (fun a b => venda_eqb a b = false) (df (limpar_dados p)) /\
  (forall x, In x (df p) ->
     exists x', In x' (df (limpar_dados p)) /\ venda_eqb x x' = true) /\
  df_original (limpar_dados p) = df_original p /\
  limpar_dados (limpar_dados p) = limpar_dados p.
Proof.
  unfold limpar_dados, dropna, drop_duplicates. cbn [df df_original].
  destruct (drop_duplicates_desde_distintas (df p) []) as [Hpairs Hv].
  split; [apply drop_duplicates_desde_sub |].
  split; [assumption |]. split.
  - intros x Hx.
    destruct (drop_duplicates_desde_cobre (df p) [] x Hx) as [H | H];
      [discriminate | assumption].
  - split; [reflexivity |]. f_equal.
    apply drop_duplicates_desde_id; [assumption | reflexivity].
Qed.

Lemma NoDup_ID_distintas (d : DataFrame) :
  NoDup (map ID d) ->
  ForallOrdPairs (fun a b => venda_eqb a b = false) d.
Proof.
  induction d as [| r d IH]; simpl; intros Hnd; [constructor |].
  inversion Hnd as [| ? ? Hnot Hnd']; subst.
  constructor; [| apply IH; assumption].
  apply Forall_forall. intros x Hx. apply venda_eqb_ID.
  intros Heq. apply Hnot. rewrite Heq. apply in_map. assumption.
Qed.

(** X24: on a processor built from a freshly generated frame,
    [limpar_dados] removes nothing: the identifiers already tell the rows
    apart. *)
Theorem limpar_dados_preserva_gerados
    {SPy SNp : Type} `{PyRandom SPy} `{NpRandom SNp}
    (w : Mundo SPy SNp) (n seed : Z) (d : DataFrame) :
  gerar_dados_vendas w n seed = Ok d ->
  limpar_dados (init d) = init d.
Proof.
  intros Hg.
  assert (Hnd : NoDup (map ID d))
    by (rewrite (gerar_dados_vendas_map_ID w n seed d Hg);
        apply IDs_NoDup).
  unfold limpar_dados, dropna, drop_duplicates, init. cbn [df df_original].
  f_equal. apply drop_duplicates_desde_id.
  - apply NoDup_ID_distintas. assumption.
  - reflexivity.
Qed.

Lemma limpar_dados_preserva_gerados_witness :
  exists d,
    gerar_dados_vendas (mundo_teste agora_teste 0) 3 7 = Ok d /\
    limpar_dados (init d) = init d.
Proof.
  assert (Hex : exists d,
             gerar_dados_vendas (mundo_teste agora_teste 0) 3 7 = Ok d)
    by (vm_compute; eexists; reflexivity).
  destruct Hex as [d Hg]. exists d. split; [exact Hg |].
  apply (limpar_dados_preserva_gerados (mundo_teste agora_teste 0) 3 7 d Hg).
Defined.
